(** * zkTLS social proof pass: relay backend and registry contracts

    A shallow embedding of the proof relay of [backend/server.js] (the
    session store, the configuration request, the proof callback, the
    status query, the on-chain payload preparation and the other routes),
    of the part of the wizard of [App.jsx] that decides what is posted to
    the relay, and of the three [SocialProofPass] contracts, with the
    properties of the written specification stated and settled against
    them, followed by further properties of the same code. *)

From Stdlib Require Import ZArith NArith List String Ascii Bool Lia.
From stdpp Require Import base option list gmap strings pretty.
Import ListNotations.
Local Open Scope string_scope.

(** ** JavaScript values *)

(** The values the backend handles are what [JSON.parse] and the query
    parser produce, plus [undefined] for an absent property.  Numbers are
    carried by their integer value, which is what [Date.now()] and the
    defaults of the handlers are; a fractional number has no counterpart
    here. *)
#[local] Unset Elimination Schemes.
Inductive JsVal : Type :=
| JUndefined
| JNull
| JBool (b : bool)
| JNum (n : Z)
| JStr (s : string)
| JArr (items : list JsVal)
| JObj (fields : list (string * JsVal)).
#[local] Set Elimination Schemes.

(** ToBoolean: [undefined], [null], [false], [0] and the empty string are
    falsy; every array and object is truthy. *)
Definition truthy (v : JsVal) : bool :=
  match v with
  | JUndefined | JNull => false
  | JBool b => b
  | JNum n => negb (n =? 0)%Z
  | JStr s => negb (String.eqb s "")
  | JArr _ | JObj _ => true
  end.

(** [a || d] *)
Definition js_or (a d : JsVal) : JsVal := if truthy a then a else d.

Fixpoint assoc {V : Type} (k : string) (l : list (string * V)) : option V :=
  match l with
  | [] => None
  | (k', v) :: l' => if String.eqb k k' then Some v else assoc k l'
  end.

(** [v.name] for one of the property names the backend reads off a proof
    ([provider], [parameters], [context], [identifier], [owner],
    [timestampS], [epoch], [signatures]); none of them is defined on a
    built-in prototype, so on a primitive or an array the read gives
    [undefined].  Reading a property of [null] or [undefined] throws a
    TypeError: [None]. *)
Definition js_field (v : JsVal) (name : string) : option JsVal :=
  match v with
  | JUndefined | JNull => None
  | JObj fields => Some (default JUndefined (assoc name fields))
  | _ => Some JUndefined
  end.

Fixpoint chars (s : string) : list JsVal :=
  match s with
  | EmptyString => []
  | String c s' => JStr (String c EmptyString) :: chars s'
  end.

(** [Object.values(v)]; on [null] and [undefined] it throws. *)
Definition Object_values (v : JsVal) : option (list JsVal) :=
  match v with
  | JUndefined | JNull => None
  | JObj fields => Some (map snd fields)
  | JArr items => Some items
  | JStr s => Some (chars s)
  | JBool _ | JNum _ => Some []
  end.

(** [hay.includes(needle)] *)
Fixpoint includes (needle hay : string) : bool :=
  String.prefix needle hay
  || match hay with
     | EmptyString => false
     | String _ hay' => includes needle hay'
     end.

(** ** JavaScript [Map]

    A [Map] iterates in insertion order and holds each key once: [set] on
    a present key replaces the value where it stands, [set] on a new key
    appends. *)
Module JsMap.

Definition t (V : Type) : Type := list (string * V).

Definition empty {V : Type} : t V := [].

Fixpoint set {V : Type} (k : string) (v : V) (m : t V) : t V :=
  match m with
  | [] => [(k, v)]
  | (k', v') :: m' =>
      if String.eqb k k' then (k, v) :: m' else (k', v') :: set k v m'
  end.

Definition get {V : Type} (k : string) (m : t V) : option V := assoc k m.

Definition keys {V : Type} (m : t V) : list string := map fst m.

(** What every map built from [empty] by [set] satisfies. *)
Definition wf {V : Type} (m : t V) : Prop := NoDup (keys m).

End JsMap.

(** ** The session and proof stores *)

Inductive Status : Type := pending | verified.

Definition Status_eqb (a b : Status) : bool :=
  match a, b with
  | pending, pending | verified, verified => true
  | _, _ => false
  end.

(** A session object: [provider], [status], [address] and [createdAt] are
    written at creation; [proofKey], [proof] and [verifiedAt] exist only
    after the promotion. *)
Record Session : Type := mkSession {
  provider : string;
  status : Status;
  address : option string;
  createdAt : Z;
  proofKey : option string;
  proof : option JsVal;
  verifiedAt : option Z
}.

Record StoredProof : Type := mkStoredProof {
  sp_provider : string;
  sp_proof : JsVal;
  sp_timestamp : Z;
  sp_status : Status
}.

(** [verificationSessions] and [verificationProofs] *)
Record Store : Type := mkStore {
  verificationSessions : JsMap.t Session;
  verificationProofs : JsMap.t StoredProof
}.

(** The sessions the callback scans for, and those the status query scans
    for. *)
Definition is_pending_for (p : string) (s : Session) : Prop :=
  provider s = p /\ status s = pending.

Definition for_provider (p : option string) (s : Session) : Prop :=
  Some (provider s) = p.

(** ** Provider table *)

Record Credentials : Type := mkCredentials {
  APP_ID : option string;
  APP_SECRET : option string;
  PROVIDER_ID : option string
}.

(** What [PROVIDERS[key]] evaluates to.  [PROVIDERS] is an object literal,
    so besides its four own entries the lookup reaches the members of
    [Object.prototype], which are functions (or, for [__proto__], the
    prototype object itself): truthy values without credentials. *)
Inductive Property : Type :=
| OwnEntry (c : Credentials)
| Inherited
| Absent.

Definition Object_prototype_keys : list string :=
  [ "constructor"; "__proto__"; "hasOwnProperty"; "isPrototypeOf";
    "propertyIsEnumerable"; "toLocaleString"; "toString"; "valueOf";
    "__defineGetter__"; "__defineSetter__"; "__lookupGetter__";
    "__lookupSetter__" ].

Definition configured_providers : list string :=
  [ "github"; "gmail"; "linkedin"; "twitter" ].

Definition mem (k : string) (l : list string) : bool := existsb (String.eqb k) l.

(** The claim/signature tuple [/prepare-onchain-mint] builds for the
    contract. *)
Record ClaimInfo : Type := mkClaimInfo {
  ci_provider : JsVal;
  ci_parameters : JsVal;
  ci_context : JsVal
}.

Record Claim : Type := mkClaim {
  identifier : JsVal;
  owner : JsVal;
  timestampS : JsVal;
  epoch : JsVal
}.

Record SignedClaim : Type := mkSignedClaim {
  claim : Claim;
  signatures : JsVal
}.

Record TransformedProof : Type := mkTransformedProof {
  claimInfo : ClaimInfo;
  signedClaim : SignedClaim
}.

Definition zero_identifier : string :=
  "0x0000000000000000000000000000000000000000000000000000000000000000".

(** The HTTP answers of the handlers; [RespError code error] is
    [res.status(code).json({error, ...})]. *)
Inductive Response : Type :=
| RespPayload (transformedProofs : list TransformedProof)
    (contractAddress : option string) (verifiedProviders : JsVal) (chainId : Z)
| RespError (code : nat) (error : string)
| RespConfig (reclaimProofRequestConfig requestUrl sessionId provider_ : string)
| RespOk
| RespNotFound
| RespStatus (status_ : Status) (sessionId : string) (proof_ : JsVal) (provider_ : string).

Definition http_status (r : Response) : nat :=
  match r with
  | RespError code _ => code
  | _ => 200
  end.

Section Relay.

(** [process.env] *)
Variable env : string -> option string.

(** The oracle SDK behind [/generate-config]:
    [ReclaimProofRequest.init], [setAppCallbackUrl], [getRequestUrl] and
    [toJsonString] for the three credentials and the callback URL give
    the request URL and the configuration, or throw ([inl details]). *)
Variable reclaimProofRequest :
  string -> string -> string -> string -> string + (string * string).

(** [JSON.parse(decodeURIComponent(body))]; [None] when either throws. *)
Variable parseBody : string -> option JsVal.

(** The oracle's [verifyProof]; [None] when the promise rejects. *)
Variable verifyProof : JsVal -> option bool.

Definition BASE_URL : string :=
  match env "BASE_URL" with
  | Some s => if String.eqb s "" then "http://localhost:3000" else s
  | None => "http://localhost:3000"
  end.

Definition provider_entry (prefix : string) : Credentials :=
  {| APP_ID := env (prefix ++ "_APP_ID");
     APP_SECRET := env (prefix ++ "_APP_SECRET");
     PROVIDER_ID := env (prefix ++ "_PROVIDER_ID") |}.

Definition PROVIDERS (key : string) : Property :=
  if String.eqb key "github" then OwnEntry (provider_entry "GITHUB")
  else if String.eqb key "gmail" then OwnEntry (provider_entry "GMAIL")
  else if String.eqb key "linkedin" then OwnEntry (provider_entry "LINKEDIN")
  else if String.eqb key "twitter" then OwnEntry (provider_entry "TWITTER")
  else if mem key Object_prototype_keys then Inherited
  else Absent.

(** [const { APP_ID, APP_SECRET, PROVIDER_ID } = PROVIDERS[provider]] *)
Definition destructure (p : Property) : Credentials :=
  match p with
  | OwnEntry c => c
  | _ => {| APP_ID := None; APP_SECRET := None; PROVIDER_ID := None |}
  end.

(** [!v] on an environment value *)
Definition falsy_env (v : option string) : bool :=
  match v with
  | None => true
  | Some s => String.eqb s ""
  end.

Definition has_placeholder (v : option string) : bool :=
  match v with
  | None => false
  | Some s => includes "your_" s
  end.

Definition not_configured (c : Credentials) : bool :=
  falsy_env (APP_ID c) || falsy_env (APP_SECRET c) || falsy_env (PROVIDER_ID c)
  || has_placeholder (APP_ID c) || has_placeholder (APP_SECRET c)
  || has_placeholder (PROVIDER_ID c).

(** *** GET /generate-config

    [now_id] and [now_created] are what the two [Date.now()] calls
    return.  The texts of [message] and [details] are left out of the
    answers. *)
Definition generateConfig (provider_ address_ : option string)
    (now_id now_created : Z) (st : Store) : Response * Store :=
  match provider_ with
  | None => (RespError 400 "Invalid provider", st)
  | Some p =>
      if String.eqb p "" then (RespError 400 "Invalid provider", st)
      else match PROVIDERS p with
      | Absent => (RespError 400 "Invalid provider", st)
      | entry =>
          let c := destructure entry in
          if not_configured c then (RespError 500 "Provider not configured", st)
          else
            match reclaimProofRequest (default "" (APP_ID c))
                    (default "" (APP_SECRET c)) (default "" (PROVIDER_ID c))
                    (BASE_URL ++ "/receive-proofs/" ++ p) with
            | inl _ => (RespError 500 "Failed to generate request config", st)
            | inr (requestUrl, config) =>
                let sessionId := p ++ "-" ++ pretty now_id in
                (RespConfig config requestUrl sessionId p,
                 {| verificationSessions :=
                      JsMap.set sessionId
                        {| provider := p; status := pending;
                           address := address_; createdAt := now_created;
                           proofKey := None; proof := None;
                           verifiedAt := None |}
                        (verificationSessions st);
                    verificationProofs := verificationProofs st |})
            end
      end
  end.

(** *** POST /receive-proofs/:provider *)

(** The loop over [verificationSessions.entries()]: the first entry, in
    iteration order, whose provider is the given one and whose status is
    [pending]. *)
Fixpoint first_pending (p : string) (entries : list (string * Session))
    : option (string * Session) :=
  match entries with
  | [] => None
  | (sessionId, session) :: rest =>
      if String.eqb (provider session) p && Status_eqb (status session) pending
      then Some (sessionId, session)
      else first_pending p rest
  end.

(** [{...session, status: 'verified', proofKey, proof, verifiedAt}] *)
Definition promote (session : Session) (key : string) (prf : JsVal)
    (now : Z) : Session :=
  {| provider := provider session;
     status := verified;
     address := address session;
     createdAt := createdAt session;
     proofKey := Some key;
     proof := Some prf;
     verifiedAt := Some now |}.

Definition update_session (p key : string) (prf : JsVal) (now : Z)
    (sessions : JsMap.t Session) : JsMap.t Session :=
  match first_pending p sessions with
  | Some (sessionId, session) =>
      JsMap.set sessionId (promote session key prf now) sessions
  | None => sessions
  end.

(** [now_key], [now_stored] and [now_verified] are what the three
    [Date.now()] calls return. *)
Definition receiveProofs (p body : string)
    (now_key now_stored now_verified : Z) (st : Store) : Response * Store :=
  match PROVIDERS p with
  | Absent => (RespError 400 "Invalid provider", st)
  | _ =>
      match parseBody body with
      | None => (RespError 500 "Failed to process proof", st)
      | Some prf =>
          match verifyProof prf with
          | None => (RespError 500 "Failed to process proof", st)
          | Some false => (RespError 400 "Invalid proof", st)
          | Some true =>
              let key := p ++ "-" ++ pretty now_key in
              (RespOk,
               {| verificationSessions :=
                    update_session p key prf now_verified
                      (verificationSessions st);
                  verificationProofs :=
                    JsMap.set key
                      {| sp_provider := p; sp_proof := prf;
                         sp_timestamp := now_stored; sp_status := verified |}
                      (verificationProofs st) |})
          end
      end
  end.

(** *** GET /verification-status *)

Definition latest_step (p : option string)
    (acc : option (string * Session)) (entry : string * Session)
    : option (string * Session) :=
  let '(sessionId, session) := entry in
  if bool_decide (Some (provider session) = p) then
    match acc with
    | None => Some (sessionId, session)
    | Some (_, latestSession) =>
        if (createdAt session >? createdAt latestSession)%Z
        then Some (sessionId, session) else acc
    end
  else acc.

Definition latest (p : option string) (sessions : JsMap.t Session)
    : option (string * Session) :=
  fold_left (latest_step p) sessions None.

Definition verificationStatus (p : option string) (st : Store) : Response :=
  match latest p (verificationSessions st) with
  | None => RespNotFound
  | Some (latestSessionId, latestSession) =>
      RespStatus (status latestSession) latestSessionId
        (js_or (default JUndefined (proof latestSession)) JNull)
        (provider latestSession)
  end.

(** *** POST /prepare-onchain-mint

    The handler is given the three properties it reads off the request
    body, [JUndefined] for one the body lacks. *)

(** A numeric value as [JSON.stringify] meets it: a Number, which it
    writes, or a BigInt, on which it throws a TypeError. *)
Inductive JsNumeric : Type :=
| JsNumber (n : Z)
| JsBigInt (n : Z).

Definition JSON_stringify_numeric (v : JsNumeric) : option Z :=
  match v with
  | JsNumber n => Some n
  | JsBigInt _ => None
  end.

(** [(await new ethers.JsonRpcProvider(NETWORK_RPC).getNetwork()).chainId]:
    the value of the chain id, [None] when the lookup throws.  The
    provider is the one of ethers 6, whose [Network.chainId] is a BigInt. *)
Variable getNetworkChainId : option Z.

(** The arrow function mapped over the raw proofs; [now] is [Date.now()]
    as read for this proof.  [None] is the TypeError of a property read on
    [null]. *)
Definition transformProof (walletAddress : JsVal) (now : Z) (prf : JsVal)
    : option TransformedProof :=
  provider_ ← js_field prf "provider";
  parameters ← js_field prf "parameters";
  context ← js_field prf "context";
  identifier_ ← js_field prf "identifier";
  owner_ ← js_field prf "owner";
  timestampS_ ← js_field prf "timestampS";
  epoch_ ← js_field prf "epoch";
  signatures_ ← js_field prf "signatures";
  Some {| claimInfo :=
            {| ci_provider := js_or provider_ (JStr "");
               ci_parameters := js_or parameters (JStr "");
               ci_context := js_or context (JStr "") |};
          signedClaim :=
            {| claim :=
                 {| identifier := js_or identifier_ (JStr zero_identifier);
                    owner := js_or owner_ walletAddress;
                    timestampS := js_or timestampS_ (JNum (now / 1000));
                    epoch := js_or epoch_ (JNum 1) |};
               signatures := js_or signatures_ (JArr []) |} |}.

(** [Object.values(reclaimProofs).map(...)], the [i]-th proof reading the
    clock as [clock i]. *)
Fixpoint transformAll (walletAddress : JsVal) (clock : nat -> Z) (i : nat)
    (proofs : list JsVal) : option (list TransformedProof) :=
  match proofs with
  | [] => Some []
  | prf :: rest =>
      tp ← transformProof walletAddress (clock i) prf;
      tps ← transformAll walletAddress clock (S i) rest;
      Some (tp :: tps)
  end.

Definition prepareOnchainMint (walletAddress reclaimProofs verifiedProviders_ : JsVal)
    (clock : nat -> Z) : Response :=
  if negb (truthy walletAddress) || negb (truthy reclaimProofs)
     || negb (truthy verifiedProviders_)
  then RespError 400 "Invalid request data"
  else
    match Object_values reclaimProofs ≫= transformAll walletAddress clock 0 with
    | None => RespError 500 "Failed to prepare on-chain mint"
    | Some transformedProofs =>
        match getNetworkChainId with
        | None => RespError 500 "Failed to prepare on-chain mint"
        | Some chainId =>
            (* [res.json] writes the body with [JSON.stringify] before it
               sends anything; what it throws is caught by the handler *)
            match JSON_stringify_numeric (JsBigInt chainId) with
            | None => RespError 500 "Failed to prepare on-chain mint"
            | Some written =>
                RespPayload transformedProofs (env "NFT_CONTRACT_ADDRESS")
                  verifiedProviders_ written
            end
        end
    end.

End Relay.

(** ** The other routes of the relay *)

(** An environment value as the JavaScript value it is. *)
Definition env_val (v : option string) : JsVal :=
  match v with
  | None => JUndefined
  | Some s => JStr s
  end.

(** [v?.includes('your_')] *)
Definition optional_includes (v : option string) : JsVal :=
  match v with
  | None => JUndefined
  | Some s => JBool (includes "your_" s)
  end.

(** [v.length] for the values a request body holds; an object has the
    length its own [length] property says, if any. *)
Definition js_length (v : JsVal) : JsVal :=
  match v with
  | JArr items => JNum (Z.of_nat (length items))
  | JStr s => JNum (Z.of_nat (String.length s))
  | JObj fields => default JUndefined (assoc "length" fields)
  | _ => JUndefined
  end.

(** [v === 0] *)
Definition is_zero (v : JsVal) : bool :=
  match v with
  | JNum n => (n =? 0)%Z
  | _ => false
  end.

Fixpoint indexed (i : nat) (items : list JsVal) : list (string * JsVal) :=
  match items with
  | [] => []
  | v :: rest => (pretty i, v) :: indexed (S i) rest
  end.

(** The own enumerable properties [Object.keys(v)] walks, each with the
    value [v[key]] reads; the fields of an object are taken to stand in the
    order the engine enumerates them. *)
Definition Object_entries (v : JsVal) : list (string * JsVal) :=
  match v with
  | JObj fields => fields
  | JArr items => indexed 0 items
  | JStr s => indexed 0 (chars s)
  | _ => []
  end.

(** What [/config-status] reports for one provider. *)
Record ProviderStatus : Type := mkProviderStatus {
  configured : JsVal;
  hasPlaceholders : JsVal
}.

Record ConfigStatus : Type := mkConfigStatus {
  cs_providers : list (string * ProviderStatus);
  hasAnyConfigured : bool
}.

Record Health : Type := mkHealth {
  h_timestamp : Z;
  supportedProviders : list string;
  configuredProviders : list string;
  contractConfigured : bool;
  h_sessions : nat;
  h_proofs : nat
}.

(** What [interface.parseLog(log)] gives: it throws, it returns [null]
    for a log of no event of the ABI, or it returns the event name and, for
    an event that has one, its [tokenId]. *)
Inductive ParsedLog : Type :=
| ParseThrows
| ParseNull
| Parsed (name : string) (tokenId : option Z).

Record Receipt (Log : Type) : Type := mkReceipt {
  hash : string;
  blockNumber : Z;
  logs : list Log
}.
Arguments mkReceipt {Log} hash blockNumber logs.
Arguments hash {Log} r.
Arguments blockNumber {Log} r.
Arguments logs {Log} r.

(** The answers of [/mint-social-proof-nft]. *)
Inductive MintResponse : Type :=
| MintError (code : nat) (error : string)
| MintSuccess (transactionHash tokenId : string) (providers : JsVal)
    (blockNumber_ : Z).

(** The answers of [/test-proof-verification]; [TestUnhandled] is the
    handler throwing outside its [try], which the framework answers with
    its own error page. *)
Inductive TestResponse (Answer : Type) : Type :=
| TestUnhandled
| TestError (code : nat) (error : string)
| TestResult (answer : Answer) (transformedProof : TransformedProof).
Arguments TestUnhandled {Answer}.
Arguments TestError {Answer} code error.
Arguments TestResult {Answer} answer transformedProof.

(** [NFT_CONTRACT_ABI] *)
Definition NFT_CONTRACT_ABI : list string :=
  [ "function mintSocialProofPass(address to, string[] memory providers, bytes memory proofData) external returns (uint256)";
    "function hasAlreadyMinted(address user) external view returns (bool)";
    "function getSocialProof(uint256 tokenId) external view returns (address holder, string[] memory verifiedProviders, uint8 verificationCount, uint256 timestamp, bool verified)";
    "function tokenURI(uint256 tokenId) external view returns (string memory)";
    "event SocialProofPassMinted(address indexed to, uint256 indexed tokenId, string[] providers, uint256 timestamp)";
    "event ProofVerifiedOnChain(address indexed user, uint256 indexed tokenId, string provider, uint256 timestamp)" ].

(** The name under which a fragment declares a function: the text between
    [function ] and the opening parenthesis. *)
Definition function_name (fragment : string) : option string :=
  if String.prefix "function " fragment then
    let rest := String.substring 9 (String.length fragment - 9) fragment in
    option_map (fun n => String.substring 0 n rest) (String.index 0 "(" rest)
  else None.

(** Whether [contract[name]] is a function of a contract built from the
    ABI; for every other name the property is [undefined]. *)
Definition has_function (abi : list string) (name : string) : bool :=
  existsb (fun fragment =>
             match function_name fragment with
             | Some declared => String.eqb declared name
             | None => false
             end) abi.

Definition zero_address : string := "0x0000000000000000000000000000000000000000".

(** A credential the configuration request accepts: set, not empty, and
    without the placeholder text. *)
Definition usable (v : option string) : Prop :=
  exists s, v = Some s /\ s <> "" /\ includes "your_" s = false.

Section Routes.

Variable env : string -> option string.

(** *** GET /config-status *)

(** [APP_ID && APP_SECRET && PROVIDER_ID && !APP_ID.includes('your_') &&
    !APP_SECRET.includes('your_') && !PROVIDER_ID.includes('your_')]: the
    first falsy operand, or the last one. *)
Definition isConfigured (c : Credentials) : JsVal :=
  if falsy_env (APP_ID c) then env_val (APP_ID c)
  else if falsy_env (APP_SECRET c) then env_val (APP_SECRET c)
  else if falsy_env (PROVIDER_ID c) then env_val (PROVIDER_ID c)
  else if has_placeholder (APP_ID c) then JBool false
  else if has_placeholder (APP_SECRET c) then JBool false
  else JBool (negb (has_placeholder (PROVIDER_ID c))).

Definition providerStatus (c : Credentials) : ProviderStatus :=
  {| configured := isConfigured c;
     hasPlaceholders :=
       js_or (js_or (optional_includes (APP_ID c))
                (optional_includes (APP_SECRET c)))
         (optional_includes (PROVIDER_ID c)) |}.

(** [Object.keys(PROVIDERS)] are the four own keys, in the order of the
    literal. *)
Definition configStatus : ConfigStatus :=
  let entries :=
    map (fun p => (p, providerStatus (destructure (PROVIDERS env p))))
      configured_providers in
  {| cs_providers := entries;
     hasAnyConfigured :=
       existsb (fun e => truthy (configured (snd e))) entries |}.

(** *** GET /health *)

(** [provider.APP_ID && provider.APP_SECRET && provider.PROVIDER_ID] as
    the filter reads it. *)
Definition has_credentials (c : Credentials) : bool :=
  negb (falsy_env (APP_ID c)) && negb (falsy_env (APP_SECRET c))
  && negb (falsy_env (PROVIDER_ID c)).

Definition health (now : Z) (st : Store) : Health :=
  {| h_timestamp := now;
     supportedProviders := configured_providers;
     configuredProviders :=
       List.filter (fun key => has_credentials (destructure (PROVIDERS env key)))
         configured_providers;
     contractConfigured :=
       negb (falsy_env (env "DEPLOYER_PRIVATE_KEY"))
       && negb (falsy_env (env "NFT_CONTRACT_ADDRESS"));
     h_sessions := length (verificationSessions st);
     h_proofs := length (verificationProofs st) |}.

(** *** POST /mint-social-proof-nft *)

(** The callback of the [reduce] over [Object.keys(proofs)]: a proof that
    is truthy and has a truthy [claimData] is copied with its [claimData]
    and [signatures]; every other key is left out. *)
Definition packProof (entry : string * JsVal) : option (string * JsVal) :=
  let '(key, prf) := entry in
  if truthy prf then
    match js_field prf "claimData" with
    | Some claimData =>
        if truthy claimData then
          Some (key, JObj [ ("claimData", claimData);
                            ("signatures",
                             default JUndefined (js_field prf "signatures")) ])
        else None
    | None => None
    end
  else None.

(** [acc[key] = value] on the plain object [acc]: the key [__proto__]
    reaches the setter of [Object.prototype], which changes the prototype
    and adds no property; every other key becomes an own property, written
    in place when [acc] has it already. *)
Definition assign_property (key : string) (value : JsVal)
    (acc : list (string * JsVal)) : list (string * JsVal) :=
  if String.eqb key "__proto__" then acc else JsMap.set key value acc.

Definition packStep (acc : list (string * JsVal)) (entry : string * JsVal)
    : list (string * JsVal) :=
  match packProof entry with
  | Some (key, packed) => assign_property key packed acc
  | None => acc
  end.

(** [Object.keys(proofs).reduce(..., {})]: the own properties the
    accumulator ends with, which are what [JSON.stringify] writes. *)
Definition packProofs (entries : list (string * JsVal)) : list (string * JsVal) :=
  fold_left packStep entries [].

(** The object [JSON.stringify] is given. *)
Definition proofData (now : Z) (mode verifiedProviders_ proofs_ : JsVal) : JsVal :=
  JObj [ ("timestamp", JNum now);
         ("mode", js_or mode (JStr "offchain"));
         ("providers", verifiedProviders_);
         ("proofs", JObj (packProofs (Object_entries proofs_))) ].

Variable Log : Type.
Variable parseLog : Log -> ParsedLog.

(** Signing and sending [mintSocialProofPass(walletAddress,
    verifiedProviders, proofData)] and waiting for the receipt: the
    receipt, or what was thrown. *)
Variable sendMint : JsVal -> JsVal -> JsVal -> string + Receipt Log.

(** The predicate of [receipt.logs.find]. *)
Definition is_mint_event (log : Log) : bool :=
  match parseLog log with
  | Parsed name _ => String.eqb name "SocialProofPassMinted"
  | _ => false
  end.

(** The token id read off the receipt, [unknown] when no log is the mint
    event or the event cannot be read. *)
Definition extractTokenId (receipt : Receipt Log) : string :=
  match List.find is_mint_event (logs receipt) with
  | Some mintEvent =>
      match parseLog mintEvent with
      | Parsed _ (Some tokenId) => pretty tokenId
      | _ => "unknown"
      end
  | None => "unknown"
  end.

Definition is_array (v : JsVal) : bool :=
  match v with
  | JArr _ => true
  | _ => false
  end.

(** [verifiedProviders.join] exists on arrays only; on anything else the
    call throws inside the [try]. *)
Definition mintSocialProofNft (walletAddress proofs_ verifiedProviders_ mode : JsVal)
    (now : Z) : MintResponse :=
  if negb (truthy walletAddress) || negb (truthy proofs_)
     || negb (truthy verifiedProviders_)
     || is_zero (js_length verifiedProviders_)
  then MintError 400 "Invalid request data"
  else if falsy_env (env "DEPLOYER_PRIVATE_KEY")
          || falsy_env (env "NFT_CONTRACT_ADDRESS")
  then MintError 500 "Server configuration incomplete"
  else if negb (is_array verifiedProviders_)
  then MintError 500 "Failed to mint NFT"
  else
    match sendMint walletAddress verifiedProviders_
            (proofData now mode verifiedProviders_ proofs_) with
    | inl _ => MintError 500 "Failed to mint NFT"
    | inr receipt =>
        MintSuccess (hash receipt) (extractTokenId receipt) verifiedProviders_
          (blockNumber receipt)
    end.

(** *** POST /test-proof-verification *)

(** [contract.verifyProofAndExtractData(transformedProof)] on a contract
    that has the function: the answer, or [None] when the call throws. *)
Variable Answer : Type.
Variable verifyOnContract : TransformedProof -> option Answer.

Definition transformForTest (now : Z) (prf : JsVal) : option TransformedProof :=
  provider_ ← js_field prf "provider";
  parameters ← js_field prf "parameters";
  context ← js_field prf "context";
  identifier_ ← js_field prf "identifier";
  owner_ ← js_field prf "owner";
  timestampS_ ← js_field prf "timestampS";
  epoch_ ← js_field prf "epoch";
  signatures_ ← js_field prf "signatures";
  Some {| claimInfo :=
            {| ci_provider := js_or provider_ (JStr "");
               ci_parameters := js_or parameters (JStr "");
               ci_context := js_or context (JStr "") |};
          signedClaim :=
            {| claim :=
                 {| identifier := js_or identifier_ (JStr zero_identifier);
                    owner := js_or owner_ (JStr zero_address);
                    timestampS := js_or timestampS_ (JNum (now / 1000));
                    epoch := js_or epoch_ (JNum 1) |};
               signatures := js_or signatures_ (JArr []) |} |}.

Definition testProofVerification (body : JsVal) (now : Z) : TestResponse Answer :=
  (* [const { proof } = req.body], before the [try]; [body] is
     [undefined] when no parser has filled it *)
  match js_field body "proof" with
  | None => TestUnhandled
  | Some prf =>
      if negb (truthy prf) || falsy_env (env "NFT_CONTRACT_ADDRESS")
      then TestError 400 "Invalid request data or contract not configured"
      else
        match transformForTest now prf with
        | None => TestError 500 "Failed to test proof verification"
        | Some transformed =>
            (* [contract.verifyProofAndExtractData] is [undefined] when the
               ABI declares no such function, and calling it throws *)
            if has_function NFT_CONTRACT_ABI "verifyProofAndExtractData"
            then
              match verifyOnContract transformed with
              | None => TestError 500 "Failed to test proof verification"
              | Some answer => TestResult answer transformed
              end
            else TestError 500 "Failed to test proof verification"
        end
  end.

End Routes.

(** The body [res.json] sends for an answer of [/verification-status]. *)
Definition status_text (s : Status) : string :=
  match s with
  | pending => "pending"
  | verified => "verified"
  end.

Definition statusBody (r : Response) : JsVal :=
  match r with
  | RespNotFound => JObj [ ("status", JStr "not_found") ]
  | RespStatus status_ sessionId proof_ provider_ =>
      JObj [ ("status", JStr (status_text status_));
             ("sessionId", JStr sessionId);
             ("proof", proof_);
             ("provider", JStr provider_) ]
  | _ => JUndefined
  end.

(** ** The verification wizard

    The part of the state of [App.jsx] that decides what is posted to the
    relay (the maps of verification URLs and QR codes, the minting status
    and the wallet chain are left out), and the steps of its handlers on
    it.  An object used as a map keeps its string keys in insertion order,
    like a [Map]. *)
Module Wizard.

Record State : Type := mkState {
  selectedProviders : list string;
  verificationStates : JsMap.t string;
  proofs : JsMap.t JsVal;
  reclaimProofs : JsMap.t JsVal;
  walletAddress : string;
  error : string
}.

Definition initial : State :=
  {| selectedProviders := []; verificationStates := []; proofs := [];
     reclaimProofs := []; walletAddress := ""; error := "" |}.

(** [toggleProvider] *)
Definition toggleProvider (providerId : string) (prev : list string) : list string :=
  if mem providerId prev
  then List.filter (fun id => negb (String.eqb id providerId)) prev
  else (prev ++ [providerId])%list.

(** One tick of the polling interval, on the body the status request
    returned: the new state, and whether the interval is cleared. *)
Definition pollTick (providerId : string) (statusData : JsVal) (s : State)
    : State * bool :=
  match js_field statusData "status" with
  | Some (JStr "verified") =>
      let reclaimProof := default JUndefined (js_field statusData "reclaimProof") in
      ({| selectedProviders := selectedProviders s;
          verificationStates :=
            JsMap.set providerId "verified" (verificationStates s);
          proofs :=
            JsMap.set providerId
              (default JUndefined (js_field statusData "proof")) (proofs s);
          reclaimProofs :=
            if truthy reclaimProof
            then JsMap.set providerId reclaimProof (reclaimProofs s)
            else reclaimProofs s;
          walletAddress := walletAddress s;
          error := error s |}, true)
  | Some (JStr "failed") =>
      ({| selectedProviders := selectedProviders s;
          verificationStates :=
            JsMap.set providerId "failed" (verificationStates s);
          proofs := proofs s;
          reclaimProofs := reclaimProofs s;
          walletAddress := walletAddress s;
          error := "Verification failed for " ++ providerId |}, true)
  | _ => (s, false)
  end.

(** [Object.keys(verificationStates).filter(key => ... === 'verified')] *)
Definition verifiedProviders (s : State) : list string :=
  map fst (List.filter (fun e => String.eqb (snd e) "verified") (verificationStates s)).

(** What [mintNFT] does before any transaction: it stops with an error, or
    it posts a body to one of the two mint routes. *)
Inductive MintRequest : Type :=
| Refused (message : string)
| PostOffchain (walletAddress_ proofs_ verifiedProviders_ mode : JsVal)
| PostOnchain (walletAddress_ reclaimProofs_ verifiedProviders_ : JsVal).

(** An object as [JSON.stringify] sends it: a property whose value is
    [undefined] is dropped. *)
Definition stringified (fields : list (string * JsVal)) : JsVal :=
  JObj (List.filter (fun e => match snd e with JUndefined => false | _ => true end)
          fields).

Definition mintNFT (onchain : bool) (s : State) : MintRequest :=
  if String.eqb (walletAddress s) "" then Refused "Please connect your wallet first"
  else if Nat.eqb (length (verifiedProviders s)) 0
  then Refused "Please verify at least one provider before minting"
  else
    let providers := JArr (map JStr (verifiedProviders s)) in
    if onchain
    then PostOnchain (JStr (walletAddress s)) (stringified (reclaimProofs s))
           providers
    else PostOffchain (JStr (walletAddress s)) (stringified (proofs s)) providers
           (JStr "offchain").

End Wizard.

(** ** Contract execution

    A contract function is a state transformer that may revert.  A
    reverted call leaves nothing behind: the transaction keeps the state
    it started from. *)
Module Evm.

Definition address : Type := N.
Definition uint256_modulus : N := 2 ^ 256.

Inductive result (S A : Type) : Type :=
| Ok (a : A) (s : S)
| Revert (reason : string).
Arguments Ok {S A} a s.
Arguments Revert {S A} reason.

Definition M (S A : Type) : Type := S -> result S A.

Definition ret {S A : Type} (a : A) : M S A := fun s => Ok a s.

Definition bind {S A B : Type} (c : M S A) (k : A -> M S B) : M S B :=
  fun s =>
    match c s with
    | Ok a s' => k a s'
    | Revert reason => Revert reason
    end.

Definition revert {S A : Type} (reason : string) : M S A :=
  fun _ => Revert reason.

Definition require {S : Type} (cond : bool) (reason : string) : M S unit :=
  if cond then ret tt else revert reason.

Definition gets {S A : Type} (f : S -> A) : M S A := fun s => Ok (f s) s.

Definition modify {S : Type} (f : S -> S) : M S unit := fun s => Ok tt (f s).

(** One transaction: the new state and the returned value, or the old
    state and the revert reason. *)
Definition call {S A : Type} (c : M S A) (s : S) : S * (string + A) :=
  match c s with
  | Ok a s' => (s', inr a)
  | Revert reason => (s, inl reason)
  end.

(** [uint8(n)] *)
Definition uint8 (n : N) : N := (n mod 256)%N.

End Evm.

Declare Scope evm_scope.
Delimit Scope evm_scope with evm.
Notation "'letM' x ':=' c 'in' k" := (Evm.bind c (fun x => k))
  (at level 10, x name, c at level 100, k at level 200) : evm_scope.
Notation "c '>>' k" := (Evm.bind c (fun _ => k))
  (at level 100, k at level 200, right associativity) : evm_scope.

(** [mapping(K => V)]: a key never written reads as the zero value. *)
Definition mread `{Countable K} {V : Type} (zero : V) (m : gmap K V) (k : K) : V :=
  default zero (m !! k).

(** The oracle's proof structure ([Reclaim.Proof], [IReclaim.Proof]). *)
Module ReclaimTypes.
Import Evm.

Record ClaimInfo : Type := mkClaimInfo {
  provider : string;
  parameters : string;
  context : string
}.

Record Claim : Type := mkClaim {
  identifier : N;
  owner : address;
  timestampS : N;
  epoch : N
}.

Record SignedClaim : Type := mkSignedClaim {
  claim : Claim;
  signatures : list string
}.

Record Proof : Type := mkProof {
  claimInfo : ClaimInfo;
  signedClaim : SignedClaim
}.

End ReclaimTypes.

(** ** The registry with oracle verification

    The contract of pragma 0.8.4 ([ERC721], [Ownable]) and the contract
    with the [IReclaim] interface ([ERC721], [ERC721URIStorage],
    [Ownable]) have the same storage and the same functions; the second
    one also renders and stores a token URI at each mint and append. *)
Module Registry.
Import Evm.

Inductive Version : Type :=
| PlainERC721
| WithURIStorage.

Record SocialProof : Type := mkSocialProof {
  holder : address;
  verifiedProviders : list string;
  verificationCount : N;
  timestamp : N;
  verified : bool
}.

Definition SocialProof_zero : SocialProof :=
  {| holder := 0%N; verifiedProviders := []; verificationCount := 0%N;
     timestamp := 0%N; verified := false |}.

Inductive Event : Type :=
| Transfer (from to : address) (tokenId : N)
| SocialProofPassMinted (to : address) (tokenId : N) (providers : list string)
    (timestamp_ : N)
| ProofVerifiedOnChain (user : address) (tokenId : N) (provider : string)
    (timestamp_ : N)
| ProofDataUpdated (tokenId : N) (newProviders : list string) (timestamp_ : N).

(** Storage: [Ownable]'s owner, [ERC721]'s owners and balances,
    [ERC721URIStorage]'s URIs (never written by the plain version), the
    contract's own variables, and the events emitted so far. *)
Record State : Type := mkState {
  _owner : address;
  _owners : gmap N address;
  _balances : gmap address N;
  _tokenURIs : gmap N string;
  _tokenIdCounter : N;
  reclaimAddress : address;
  socialProofs : gmap N SocialProof;
  holderTokens : gmap address (list N);
  hasMinted : gmap address bool;
  supportedProviders : gmap string bool;
  events : list Event
}.

Definition set_owners (f : gmap N address -> gmap N address) (s : State) : State :=
  {| _owner := _owner s; _owners := f (_owners s); _balances := _balances s;
     _tokenURIs := _tokenURIs s; _tokenIdCounter := _tokenIdCounter s;
     reclaimAddress := reclaimAddress s; socialProofs := socialProofs s;
     holderTokens := holderTokens s; hasMinted := hasMinted s;
     supportedProviders := supportedProviders s; events := events s |}.

Definition set_balances (f : gmap address N -> gmap address N) (s : State) : State :=
  {| _owner := _owner s; _owners := _owners s; _balances := f (_balances s);
     _tokenURIs := _tokenURIs s; _tokenIdCounter := _tokenIdCounter s;
     reclaimAddress := reclaimAddress s; socialProofs := socialProofs s;
     holderTokens := holderTokens s; hasMinted := hasMinted s;
     supportedProviders := supportedProviders s; events := events s |}.

Definition set_tokenURIs (f : gmap N string -> gmap N string) (s : State) : State :=
  {| _owner := _owner s; _owners := _owners s; _balances := _balances s;
     _tokenURIs := f (_tokenURIs s); _tokenIdCounter := _tokenIdCounter s;
     reclaimAddress := reclaimAddress s; socialProofs := socialProofs s;
     holderTokens := holderTokens s; hasMinted := hasMinted s;
     supportedProviders := supportedProviders s; events := events s |}.

Definition set_tokenIdCounter (f : N -> N) (s : State) : State :=
  {| _owner := _owner s; _owners := _owners s; _balances := _balances s;
     _tokenURIs := _tokenURIs s; _tokenIdCounter := f (_tokenIdCounter s);
     reclaimAddress := reclaimAddress s; socialProofs := socialProofs s;
     holderTokens := holderTokens s; hasMinted := hasMinted s;
     supportedProviders := supportedProviders s; events := events s |}.

Definition set_reclaimAddress (a : address) (s : State) : State :=
  {| _owner := _owner s; _owners := _owners s; _balances := _balances s;
     _tokenURIs := _tokenURIs s; _tokenIdCounter := _tokenIdCounter s;
     reclaimAddress := a; socialProofs := socialProofs s;
     holderTokens := holderTokens s; hasMinted := hasMinted s;
     supportedProviders := supportedProviders s; events := events s |}.

Definition set_socialProofs
    (f : gmap N SocialProof -> gmap N SocialProof) (s : State) : State :=
  {| _owner := _owner s; _owners := _owners s; _balances := _balances s;
     _tokenURIs := _tokenURIs s; _tokenIdCounter := _tokenIdCounter s;
     reclaimAddress := reclaimAddress s; socialProofs := f (socialProofs s);
     holderTokens := holderTokens s; hasMinted := hasMinted s;
     supportedProviders := supportedProviders s; events := events s |}.

Definition set_holderTokens
    (f : gmap address (list N) -> gmap address (list N)) (s : State) : State :=
  {| _owner := _owner s; _owners := _owners s; _balances := _balances s;
     _tokenURIs := _tokenURIs s; _tokenIdCounter := _tokenIdCounter s;
     reclaimAddress := reclaimAddress s; socialProofs := socialProofs s;
     holderTokens := f (holderTokens s); hasMinted := hasMinted s;
     supportedProviders := supportedProviders s; events := events s |}.

Definition set_hasMinted (f : gmap address bool -> gmap address bool) (s : State) : State :=
  {| _owner := _owner s; _owners := _owners s; _balances := _balances s;
     _tokenURIs := _tokenURIs s; _tokenIdCounter := _tokenIdCounter s;
     reclaimAddress := reclaimAddress s; socialProofs := socialProofs s;
     holderTokens := holderTokens s; hasMinted := f (hasMinted s);
     supportedProviders := supportedProviders s; events := events s |}.

Definition set_supportedProviders
    (f : gmap string bool -> gmap string bool) (s : State) : State :=
  {| _owner := _owner s; _owners := _owners s; _balances := _balances s;
     _tokenURIs := _tokenURIs s; _tokenIdCounter := _tokenIdCounter s;
     reclaimAddress := reclaimAddress s; socialProofs := socialProofs s;
     holderTokens := holderTokens s; hasMinted := hasMinted s;
     supportedProviders := f (supportedProviders s); events := events s |}.

Definition add_event (e : Event) (s : State) : State :=
  {| _owner := _owner s; _owners := _owners s; _balances := _balances s;
     _tokenURIs := _tokenURIs s; _tokenIdCounter := _tokenIdCounter s;
     reclaimAddress := reclaimAddress s; socialProofs := socialProofs s;
     holderTokens := holderTokens s; hasMinted := hasMinted s;
     supportedProviders := supportedProviders s;
     events := (events s ++ [e])%list |}.

Definition emit (e : Event) : M State unit := modify (add_event e).

Section Contract.

Local Open Scope evm_scope.
Local Open Scope N_scope.

Variable version : Version.

(** [Reclaim(a).verifyProof(proof)]: [None] when the call returns, the
    revert reason when the oracle rejects the proof. *)
Variable Reclaim_verifyProof : address -> ReclaimTypes.Proof -> option string.

(** The receiver check of [_safeMint]: an account without code, or a
    contract whose [onERC721Received] answers with the selector.  The
    hook is taken as a test on the recipient; it does not call back into
    the registry. *)
Variable onERC721Received : address -> N -> bool.

(** [Base64.encode] *)
Variable Base64_encode : string -> string.

(** *** Inherited library functions *)

Definition onlyOwner (msg_sender : address) : M State unit :=
  letM o := gets _owner in
  require (o =? msg_sender) "Ownable: caller is not the owner".

Definition _exists (tokenId : N) : M State bool :=
  gets (fun s => negb (mread 0 (_owners s) tokenId =? 0)).

Definition ownerOf (tokenId : N) : M State address :=
  letM o := gets (fun s => mread 0 (_owners s) tokenId) in
  require (negb (o =? 0)) "ERC721: invalid token ID" >>
  ret o.

Definition _mint (to : address) (tokenId : N) : M State unit :=
  require (negb (to =? 0)) "ERC721: mint to the zero address" >>
  letM minted := _exists tokenId in
  require (negb minted) "ERC721: token already minted" >>
  modify (set_balances (fun b => <[to := (mread 0 b to + 1) mod uint256_modulus]> b)) >>
  modify (set_owners (fun o => <[tokenId := to]> o)) >>
  emit (Transfer 0 to tokenId).

Definition _safeMint (to : address) (tokenId : N) : M State unit :=
  _mint to tokenId >>
  require (onERC721Received to tokenId)
    "ERC721: transfer to non ERC721Receiver implementer".

Definition _setTokenURI (tokenId : N) (uri : string) : M State unit :=
  letM minted := _exists tokenId in
  require minted "ERC721URIStorage: URI set of nonexistent token" >>
  modify (set_tokenURIs (fun u => <[tokenId := uri]> u)).

(** [Counters]: [current] and the unchecked [increment]. *)
Definition current : M State N := gets _tokenIdCounter.

Definition increment : M State unit :=
  modify (set_tokenIdCounter (fun c => (c + 1) mod uint256_modulus)).

(** *** Metadata *)

Definition dq : string := String (ascii_of_nat 34) EmptyString.

(** The JSON document both versions render. *)
Definition metadata_json (tokenId : N) (proof : SocialProof) : string :=
  ("{" ++ dq ++ "name" ++ dq ++ ": " ++ dq ++ "Social Proof Pass #"
   ++ pretty tokenId ++ dq ++ ","
   ++ dq ++ "description" ++ dq ++ ": " ++ dq
   ++ "zkTLS verified social proof NFT" ++ dq ++ ","
   ++ dq ++ "attributes" ++ dq ++ ": ["
   ++ "{" ++ dq ++ "trait_type" ++ dq ++ ": " ++ dq ++ "Count" ++ dq ++ ", "
   ++ dq ++ "value" ++ dq ++ ": " ++ pretty (verificationCount proof) ++ "},"
   ++ "{" ++ dq ++ "trait_type" ++ dq ++ ": " ++ dq ++ "Method" ++ dq ++ ", "
   ++ dq ++ "value" ++ dq ++ ": " ++ dq ++ "zkTLS" ++ dq ++ "},"
   ++ "{" ++ dq ++ "trait_type" ++ dq ++ ": " ++ dq ++ "Status" ++ dq ++ ", "
   ++ dq ++ "value" ++ dq ++ ": " ++ dq ++ "Verified" ++ dq ++ "}"
   ++ "]}")%string.

(** [generateTokenURI] of the version with URI storage. *)
Definition generateTokenURI (tokenId : N) : M State string :=
  letM minted := _exists tokenId in
  require minted "Token does not exist" >>
  letM proof := gets (fun s => mread SocialProof_zero (socialProofs s) tokenId) in
  ret ("data:application/json;base64," ++ Base64_encode (metadata_json tokenId proof))%string.

(** The two lines [generateTokenURI] / [_setTokenURI] that only the version
    with URI storage has. *)
Definition refreshTokenURI (tokenId : N) : M State unit :=
  match version with
  | PlainERC721 => ret tt
  | WithURIStorage =>
      letM uri := generateTokenURI tokenId in
      _setTokenURI tokenId uri
  end.

(** [tokenURI]: rendered on the fly by the plain version, read from
    storage by the other. *)
Definition tokenURI (tokenId : N) : M State string :=
  match version with
  | PlainERC721 =>
      letM minted := _exists tokenId in
      require minted "Token does not exist" >>
      letM proof := gets (fun s => mread SocialProof_zero (socialProofs s) tokenId) in
      ret ("data:application/json," ++ metadata_json tokenId proof)%string
  | WithURIStorage =>
      letM minted := _exists tokenId in
      require minted "ERC721: invalid token ID" >>
      gets (fun s => mread EmptyString (_tokenURIs s) tokenId)
  end.

(** *** Oracle verification *)

Definition _verifyReclaimProof (proof : ReclaimTypes.Proof) : M State unit :=
  letM a := gets reclaimAddress in
  match Reclaim_verifyProof a proof with
  | None => ret tt
  | Some reason => revert reason
  end.

(** The verification loop [for (uint i = 0; i < proofs.length; i++)], which
    reads [providers[i]]; [tokenId] says which token id the event names.
    Reading past the end of [providers] is the out-of-bounds panic. *)
Fixpoint verifyEach (msg_sender : address) (block_timestamp : N)
    (tokenId : M State N) (proofs : list ReclaimTypes.Proof)
    (providers : list string) : M State unit :=
  match proofs with
  | [] => ret tt
  | proof :: proofs' =>
      match providers with
      | [] => revert "Panic(0x32)"
      | provider :: providers' =>
          letM supported := gets (fun s => mread false (supportedProviders s) provider) in
          require supported "Unsupported provider" >>
          _verifyReclaimProof proof >>
          letM id := tokenId in
          emit (ProofVerifiedOnChain msg_sender id provider block_timestamp) >>
          verifyEach msg_sender block_timestamp tokenId proofs' providers'
      end
  end.

(** *** Minting *)

Definition recordMint (to : address) (tokenId block_timestamp : N)
    (providers : list string) : M State unit :=
  modify (set_socialProofs (fun m =>
    <[tokenId := {| holder := to;
                    verifiedProviders := providers;
                    verificationCount := uint8 (N.of_nat (length providers));
                    timestamp := block_timestamp;
                    verified := true |}]> m)) >>
  modify (set_holderTokens (fun m => <[to := (mread [] m to ++ [tokenId])%list]> m)) >>
  modify (set_hasMinted (fun m => <[to := true]> m)).

Definition mintWithProofVerification (msg_sender : address) (block_timestamp : N)
    (proofs : list ReclaimTypes.Proof) (providers : list string) : M State N :=
  require (0 <? N.of_nat (length proofs)) "At least one proof required" >>
  require (N.of_nat (length proofs) =? N.of_nat (length providers))
    "Proofs and providers length mismatch" >>
  letM minted := gets (fun s => mread false (hasMinted s) msg_sender) in
  require (negb minted) "Already minted" >>
  verifyEach msg_sender block_timestamp current proofs providers >>
  letM tokenId := current in
  increment >>
  _safeMint msg_sender tokenId >>
  recordMint msg_sender tokenId block_timestamp providers >>
  refreshTokenURI tokenId >>
  emit (SocialProofPassMinted msg_sender tokenId providers block_timestamp) >>
  ret tokenId.

Definition mintSocialProofPass (msg_sender : address) (block_timestamp : N)
    (to : address) (providers : list string) (proofData : string) : M State N :=
  onlyOwner msg_sender >>
  require (0 <? N.of_nat (length providers)) "At least one provider required" >>
  letM minted := gets (fun s => mread false (hasMinted s) to) in
  require (negb minted) "Already minted" >>
  letM tokenId := current in
  increment >>
  _safeMint to tokenId >>
  recordMint to tokenId block_timestamp providers >>
  refreshTokenURI tokenId >>
  emit (SocialProofPassMinted to tokenId providers block_timestamp) >>
  ret tokenId.

(** *** Appending providers *)

(** [proof.verifiedProviders.push(newProviders[i])] for each [i], through
    the storage reference [socialProofs[tokenId]]. *)
Fixpoint pushProviders (tokenId : N) (newProviders : list string) : M State unit :=
  match newProviders with
  | [] => ret tt
  | p :: rest =>
      modify (set_socialProofs (fun m =>
        let proof := mread SocialProof_zero m tokenId in
        <[tokenId := {| holder := holder proof;
                        verifiedProviders := (verifiedProviders proof ++ [p])%list;
                        verificationCount := verificationCount proof;
                        timestamp := timestamp proof;
                        verified := verified proof |}]> m)) >>
      pushProviders tokenId rest
  end.

Definition addProvidersWithVerification (msg_sender : address) (block_timestamp : N)
    (tokenId : N) (newProofs : list ReclaimTypes.Proof)
    (newProviders : list string) : M State unit :=
  letM minted := _exists tokenId in
  require minted "Token does not exist" >>
  letM o := ownerOf tokenId in
  require (o =? msg_sender) "Not token owner" >>
  require (N.of_nat (length newProofs) =? N.of_nat (length newProviders))
    "Arrays length mismatch" >>
  verifyEach msg_sender block_timestamp (ret tokenId) newProofs newProviders >>
  pushProviders tokenId newProviders >>
  modify (set_socialProofs (fun m =>
    let proof := mread SocialProof_zero m tokenId in
    <[tokenId := {| holder := holder proof;
                    verifiedProviders := verifiedProviders proof;
                    verificationCount :=
                      uint8 (N.of_nat (length (verifiedProviders proof)));
                    timestamp := block_timestamp;
                    verified := verified proof |}]> m)) >>
  refreshTokenURI tokenId >>
  emit (ProofDataUpdated tokenId newProviders block_timestamp).

(** *** Administration and views *)

Definition addSupportedProvider (msg_sender : address) (provider : string)
    : M State unit :=
  onlyOwner msg_sender >>
  modify (set_supportedProviders (fun m => <[provider := true]> m)).

Definition removeSupportedProvider (msg_sender : address) (provider : string)
    : M State unit :=
  onlyOwner msg_sender >>
  modify (set_supportedProviders (fun m => <[provider := false]> m)).

Definition updateReclaimAddress (msg_sender : address) (newReclaimAddress : address)
    : M State unit :=
  onlyOwner msg_sender >>
  modify (set_reclaimAddress newReclaimAddress).

Definition getSocialProof (tokenId : N) : M State SocialProof :=
  letM minted := _exists tokenId in
  require minted "Token does not exist" >>
  gets (fun s => mread SocialProof_zero (socialProofs s) tokenId).

Definition hasAlreadyMinted (user : address) (s : State) : bool :=
  mread false (hasMinted s) user.

(** *** More views *)

Definition getTokensByOwner (owner_ : address) (s : State) : list N :=
  mread [] (holderTokens s) owner_.

Definition getReclaimAddress (s : State) : address := reclaimAddress s.

(** [verifyProofAndExtractData]: the [try] around the external call to
    [testVerifyProof] turns a rejection into [(false, "")]. *)
Definition verifyProofAndExtractData (proof : ReclaimTypes.Proof) (s : State)
    : bool * string :=
  match Reclaim_verifyProof (reclaimAddress s) proof with
  | None => (true, ReclaimTypes.context (ReclaimTypes.claimInfo proof))
  | Some _ => (false, EmptyString)
  end.

(** *** Transactions

    The state-changing functions the contract declares, as calls, and the
    contract after a sequence of transactions; a reverted one leaves the
    state as it was. *)
Inductive Call : Type :=
| MintWithProofVerification (proofs : list ReclaimTypes.Proof)
    (providers : list string)
| MintSocialProofPass (to : address) (providers : list string)
    (proofData : string)
| AddProvidersWithVerification (tokenId : N)
    (newProofs : list ReclaimTypes.Proof) (newProviders : list string)
| AddSupportedProvider (provider : string)
| RemoveSupportedProvider (provider : string)
| UpdateReclaimAddress (newReclaimAddress : address).

Record Tx : Type := mkTx {
  msg_sender : address;
  block_timestamp : N;
  what : Call
}.

Definition exec (tx : Tx) : M State unit :=
  match what tx with
  | MintWithProofVerification proofs providers =>
      mintWithProofVerification (msg_sender tx) (block_timestamp tx)
        proofs providers >> ret tt
  | MintSocialProofPass to providers proofData =>
      mintSocialProofPass (msg_sender tx) (block_timestamp tx)
        to providers proofData >> ret tt
  | AddProvidersWithVerification tokenId newProofs newProviders =>
      addProvidersWithVerification (msg_sender tx) (block_timestamp tx)
        tokenId newProofs newProviders
  | AddSupportedProvider provider => addSupportedProvider (msg_sender tx) provider
  | RemoveSupportedProvider provider =>
      removeSupportedProvider (msg_sender tx) provider
  | UpdateReclaimAddress a => updateReclaimAddress (msg_sender tx) a
  end.

Definition transact (s : State) (tx : Tx) : State := fst (call (exec tx) s).

Definition run (txs : list Tx) (s : State) : State := fold_left transact txs s.

(** The token URI the version with URI storage keeps for a token. *)
Definition rendered (tokenId : N) (s : State) : string :=
  ("data:application/json;base64,"
   ++ Base64_encode
        (metadata_json tokenId (mread SocialProof_zero (socialProofs s) tokenId)))%string.

(** What the verification loop asks of the two arrays. *)
Definition all_supported (s : State) (providers : list string) : Prop :=
  Forall (fun p => mread false (supportedProviders s) p = true) providers.

Definition all_accepted (s : State) (proofs : list ReclaimTypes.Proof) : Prop :=
  Forall (fun proof => Reclaim_verifyProof (reclaimAddress s) proof = None) proofs.

(** *** The writes of a mint, put together *)

(** [_safeMint]: balance, owner and the [Transfer] event. *)
Definition minted (to tokenId : N) (s : State) : State :=
  add_event (Transfer 0 to tokenId)
    (set_owners (fun o => <[tokenId := to]> o)
       (set_balances
          (fun b => <[to := (mread 0 b to + 1) mod uint256_modulus]> b) s)).

Definition recorded (to tokenId block_timestamp : N) (providers : list string)
    (s : State) : State :=
  set_hasMinted (fun m => <[to := true]> m)
    (set_holderTokens (fun m => <[to := (mread [] m to ++ [tokenId])%list]> m)
       (set_socialProofs (fun m =>
          <[tokenId := {| holder := to;
                          verifiedProviders := providers;
                          verificationCount := uint8 (N.of_nat (length providers));
                          timestamp := block_timestamp;
                          verified := true |}]> m) s)).

Definition refreshed (tokenId : N) (s : State) : State :=
  match version with
  | PlainERC721 => s
  | WithURIStorage =>
      set_tokenURIs (fun u =>
        <[tokenId :=
            ("data:application/json;base64,"
             ++ Base64_encode
                  (metadata_json tokenId
                     (mread SocialProof_zero (socialProofs s) tokenId)))%string]> u) s
  end.

Definition after_mint (to block_timestamp : N) (providers : list string)
    (s : State) : State :=
  let tokenId := _tokenIdCounter s in
  add_event (SocialProofPassMinted to tokenId providers block_timestamp)
    (refreshed tokenId
       (recorded to tokenId block_timestamp providers
          (minted to tokenId
             (set_tokenIdCounter (fun c => (c + 1) mod uint256_modulus) s)))).

(** *** The writes of an append, put together *)

Definition push (p : string) (proof : SocialProof) : SocialProof :=
  {| holder := holder proof;
     verifiedProviders := (verifiedProviders proof ++ [p])%list;
     verificationCount := verificationCount proof;
     timestamp := timestamp proof;
     verified := verified proof |}.

Definition pushed (tokenId : N) (newProviders : list string) (s : State) : State :=
  fold_left
    (fun s p =>
       set_socialProofs (fun m =>
         <[tokenId := push p (mread SocialProof_zero m tokenId)]> m) s)
    newProviders s.

Definition recounted (tokenId block_timestamp : N) (s : State) : State :=
  set_socialProofs (fun m =>
    let proof := mread SocialProof_zero m tokenId in
    <[tokenId := {| holder := holder proof;
                    verifiedProviders := verifiedProviders proof;
                    verificationCount :=
                      uint8 (N.of_nat (length (verifiedProviders proof)));
                    timestamp := block_timestamp;
                    verified := verified proof |}]> m) s.

Definition after_append (tokenId block_timestamp : N)
    (newProviders : list string) (s : State) : State :=
  add_event (ProofDataUpdated tokenId newProviders block_timestamp)
    (refreshed tokenId
       (recounted tokenId block_timestamp (pushed tokenId newProviders s))).

End Contract.

(** The stored count is the length of the stored list cut to eight bits. *)
Definition count_wrapped (s : State) : Prop :=
  forall tokenId proof,
    socialProofs s !! tokenId = Some proof ->
    verificationCount proof = uint8 (N.of_nat (length (verifiedProviders proof))).

(** The invariant of the specification. *)
Definition count_is_length (s : State) : Prop :=
  forall tokenId proof,
    socialProofs s !! tokenId = Some proof ->
    verificationCount proof = N.of_nat (length (verifiedProviders proof)).

(** *** [extractFieldFromContext]

    The text after a prefix, or nothing when the prefix does not match:
    the inner loop comparing [dataBytes[i + j]] with [targetBytes[j]]. *)
Fixpoint strip_prefix (target data : string) : option string :=
  match target with
  | EmptyString => Some data
  | String c target' =>
      match data with
      | EmptyString => None
      | String d data' =>
          if Ascii.eqb d c then strip_prefix target' data' else None
      end
  end.

(** The [while] loop: the bytes up to the next double quote or the end. *)
Fixpoint until_quote (s : string) : string :=
  match s with
  | EmptyString => EmptyString
  | String c s' =>
      if Ascii.eqb c (ascii_of_nat 34) then EmptyString
      else String c (until_quote s')
  end.

(** The outer loop tries the positions from the left and returns at the
    first one where the target matches; a position with fewer bytes left
    than the target has cannot match. *)
Fixpoint extractFieldFromContext (data target : string) : string :=
  match strip_prefix target data with
  | Some rest => until_quote rest
  | None =>
      match data with
      | EmptyString => EmptyString
      | String _ data' => extractFieldFromContext data' target
      end
  end.

(** The events the contract declares itself; [Transfer] is the library's. *)
Definition declared (e : Event) : bool :=
  match e with
  | Transfer _ _ _ => false
  | _ => true
  end.

Definition add_events (evs : list Event) (s : State) : State :=
  fold_left (fun s e => add_event e s) evs s.

(** The events of a verification loop that runs to its end. *)
Definition verified_events (msg_sender tokenId block_timestamp : N)
    (providers : list string) : list Event :=
  map (fun p => ProofVerifiedOnChain msg_sender tokenId p block_timestamp)
    providers.

(** Every token at or above the counter is unminted and unrecorded, and
    every token below it is minted and recorded. *)
Definition counter_splits (s : State) : Prop :=
  forall tokenId,
    ((_tokenIdCounter s <= tokenId)%N ->
     mread 0%N (_owners s) tokenId = 0%N /\ socialProofs s !! tokenId = None)
    /\ ((tokenId < _tokenIdCounter s)%N ->
        mread 0%N (_owners s) tokenId <> 0%N
        /\ is_Some (socialProofs s !! tokenId)).

(** [holderTokens] lists, for each address, the tokens recorded with it as
    holder, and [hasMinted] says whether there is one. *)
Definition holders_indexed (s : State) : Prop :=
  forall a,
    (forall tokenId,
       In tokenId (mread [] (holderTokens s) a) <->
       exists proof, socialProofs s !! tokenId = Some proof /\ holder proof = a)
    /\ (mread false (hasMinted s) a = true <-> mread [] (holderTokens s) a <> []).

(** In the version with URI storage, the stored URI of every minted token
    is the document rendered from its stored proof. *)
Definition uri_synced (version : Version) (Base64_encode : string -> string)
    (s : State) : Prop :=
  version = WithURIStorage ->
  forall tokenId,
    (tokenId < _tokenIdCounter s)%N ->
    _tokenURIs s !! tokenId = Some (rendered Base64_encode tokenId s).

(** What every state reached in at most [k] transactions satisfies. *)
Definition consistent (version : Version) (Base64_encode : string -> string)
    (k : N) (s : State) : Prop :=
  (_tokenIdCounter s <= k)%N
  /\ counter_splits s
  /\ holders_indexed s
  /\ count_wrapped s
  /\ uri_synced version Base64_encode s.

(** The state the constructor leaves, deployed by [deployer] with the
    oracle at [reclaim]. *)
Definition constructor (deployer reclaim : address) : State :=
  {| _owner := deployer; _owners := ∅; _balances := ∅; _tokenURIs := ∅;
     _tokenIdCounter := 0%N; reclaimAddress := reclaim; socialProofs := ∅;
     holderTokens := ∅; hasMinted := ∅;
     supportedProviders :=
       <["twitter" := true]> (<["linkedin" := true]>
         (<["gmail" := true]> (<["github" := true]> ∅)));
     events := [] |}.

(** The states the contract is in after fewer than 2^256 transactions on
    the functions it declares, counted from its deployment. *)
Definition reachable (version : Version)
    (Reclaim_verifyProof : address -> ReclaimTypes.Proof -> option string)
    (onERC721Received : address -> N -> bool)
    (Base64_encode : string -> string) (s : State) : Prop :=
  exists (deployer reclaim : address) (txs : list Tx),
    (N.of_nat (length txs) < uint256_modulus)%N
    /\ s = run version Reclaim_verifyProof onERC721Received Base64_encode txs
             (constructor deployer reclaim).

(** Every recorded pass has a holder, the [verified] flag and at least one
    provider. *)
Definition passes_valid (s : State) : Prop :=
  forall tokenId proof,
    socialProofs s !! tokenId = Some proof ->
    holder proof <> 0%N /\ verified proof = true /\ verifiedProviders proof <> [].

End Registry.

(** ** The registry with on-chain SVG metadata

    The contract of pragma ^0.8.20 without oracle: owner-gated mint and
    append only, a [proofData] payload per token, and a token URI rendered
    with an SVG image. *)
Module SvgRegistry.
Import Evm.

Record SocialProof : Type := mkSocialProof {
  holder : address;
  verifiedProviders : list string;
  proofData : string;
  timestamp : N;
  verificationCount : N
}.

Definition SocialProof_zero : SocialProof :=
  {| holder := 0%N; verifiedProviders := []; proofData := EmptyString;
     timestamp := 0%N; verificationCount := 0%N |}.

Inductive Event : Type :=
| Transfer (from to : address) (tokenId : N)
| SocialProofPassMinted (to : address) (tokenId : N) (providers : list string)
    (timestamp_ : N)
| ProofDataUpdated (tokenId : N) (newProviders : list string) (timestamp_ : N).

Record State : Type := mkState {
  _owner : address;
  _owners : gmap N address;
  _balances : gmap address N;
  _tokenURIs : gmap N string;
  _tokenIdCounter : N;
  socialProofs : gmap N SocialProof;
  holderTokens : gmap address (list N);
  hasMinted : gmap address bool;
  events : list Event
}.

Definition set_owners (f : gmap N address -> gmap N address) (s : State) : State :=
  {| _owner := _owner s; _owners := f (_owners s); _balances := _balances s;
     _tokenURIs := _tokenURIs s; _tokenIdCounter := _tokenIdCounter s;
     socialProofs := socialProofs s; holderTokens := holderTokens s;
     hasMinted := hasMinted s; events := events s |}.

Definition set_balances (f : gmap address N -> gmap address N) (s : State) : State :=
  {| _owner := _owner s; _owners := _owners s; _balances := f (_balances s);
     _tokenURIs := _tokenURIs s; _tokenIdCounter := _tokenIdCounter s;
     socialProofs := socialProofs s; holderTokens := holderTokens s;
     hasMinted := hasMinted s; events := events s |}.

Definition set_tokenURIs (f : gmap N string -> gmap N string) (s : State) : State :=
  {| _owner := _owner s; _owners := _owners s; _balances := _balances s;
     _tokenURIs := f (_tokenURIs s); _tokenIdCounter := _tokenIdCounter s;
     socialProofs := socialProofs s; holderTokens := holderTokens s;
     hasMinted := hasMinted s; events := events s |}.

Definition set_tokenIdCounter (f : N -> N) (s : State) : State :=
  {| _owner := _owner s; _owners := _owners s; _balances := _balances s;
     _tokenURIs := _tokenURIs s; _tokenIdCounter := f (_tokenIdCounter s);
     socialProofs := socialProofs s; holderTokens := holderTokens s;
     hasMinted := hasMinted s; events := events s |}.

Definition set_socialProofs
    (f : gmap N SocialProof -> gmap N SocialProof) (s : State) : State :=
  {| _owner := _owner s; _owners := _owners s; _balances := _balances s;
     _tokenURIs := _tokenURIs s; _tokenIdCounter := _tokenIdCounter s;
     socialProofs := f (socialProofs s); holderTokens := holderTokens s;
     hasMinted := hasMinted s; events := events s |}.

Definition set_holderTokens
    (f : gmap address (list N) -> gmap address (list N)) (s : State) : State :=
  {| _owner := _owner s; _owners := _owners s; _balances := _balances s;
     _tokenURIs := _tokenURIs s; _tokenIdCounter := _tokenIdCounter s;
     socialProofs := socialProofs s; holderTokens := f (holderTokens s);
     hasMinted := hasMinted s; events := events s |}.

Definition set_hasMinted (f : gmap address bool -> gmap address bool) (s : State) : State :=
  {| _owner := _owner s; _owners := _owners s; _balances := _balances s;
     _tokenURIs := _tokenURIs s; _tokenIdCounter := _tokenIdCounter s;
     socialProofs := socialProofs s; holderTokens := holderTokens s;
     hasMinted := f (hasMinted s); events := events s |}.

Definition add_event (e : Event) (s : State) : State :=
  {| _owner := _owner s; _owners := _owners s; _balances := _balances s;
     _tokenURIs := _tokenURIs s; _tokenIdCounter := _tokenIdCounter s;
     socialProofs := socialProofs s; holderTokens := holderTokens s;
     hasMinted := hasMinted s; events := (events s ++ [e])%list |}.

Definition emit (e : Event) : M State unit := modify (add_event e).

Section Contract.

Local Open Scope evm_scope.
Local Open Scope N_scope.

(** The receiver check of [_safeMint], as in [Registry]. *)
Variable onERC721Received : address -> N -> bool.

(** The document [generateTokenURI] renders from the token id and the
    stored proof ([generateSVG], [generateAttributes] and [Base64.encode]
    put together): a function of its two arguments. *)
Variable renderTokenURI : N -> SocialProof -> string.

Definition onlyOwner (msg_sender : address) : M State unit :=
  letM o := gets _owner in
  require (o =? msg_sender) "OwnableUnauthorizedAccount".

(** [_ownerOf(tokenId) != address(0)] *)
Definition _exists (tokenId : N) : M State bool :=
  gets (fun s => negb (mread 0 (_owners s) tokenId =? 0)).

Definition _safeMint (to : address) (tokenId : N) : M State unit :=
  require (negb (to =? 0)) "ERC721InvalidReceiver" >>
  letM minted := _exists tokenId in
  require (negb minted) "ERC721InvalidSender" >>
  modify (set_balances (fun b => <[to := (mread 0 b to + 1) mod uint256_modulus]> b)) >>
  modify (set_owners (fun o => <[tokenId := to]> o)) >>
  emit (Transfer 0 to tokenId) >>
  require (onERC721Received to tokenId) "ERC721InvalidReceiver".

Definition _setTokenURI (tokenId : N) (uri : string) : M State unit :=
  modify (set_tokenURIs (fun u => <[tokenId := uri]> u)).

Definition generateTokenURI (tokenId : N) : M State string :=
  letM minted := _exists tokenId in
  require minted "Token does not exist" >>
  letM proof := gets (fun s => mread SocialProof_zero (socialProofs s) tokenId) in
  ret (renderTokenURI tokenId proof).

Definition mintSocialProofPass (msg_sender : address) (block_timestamp : N)
    (to : address) (providers : list string) (data : string) : M State N :=
  onlyOwner msg_sender >>
  require (0 <? N.of_nat (length providers)) "At least one provider required" >>
  require (negb (to =? 0)) "Invalid recipient address" >>
  letM tokenId := gets _tokenIdCounter in
  modify (set_tokenIdCounter (fun c => (c + 1) mod uint256_modulus)) >>
  modify (set_socialProofs (fun m =>
    <[tokenId := {| holder := to;
                    verifiedProviders := providers;
                    proofData := data;
                    timestamp := block_timestamp;
                    verificationCount := uint8 (N.of_nat (length providers)) |}]> m)) >>
  modify (set_holderTokens (fun m => <[to := (mread [] m to ++ [tokenId])%list]> m)) >>
  modify (set_hasMinted (fun m => <[to := true]> m)) >>
  _safeMint to tokenId >>
  letM uri := generateTokenURI tokenId in
  _setTokenURI tokenId uri >>
  emit (SocialProofPassMinted to tokenId providers block_timestamp) >>
  ret tokenId.

Fixpoint pushProviders (tokenId : N) (newProviders : list string) : M State unit :=
  match newProviders with
  | [] => ret tt
  | p :: rest =>
      modify (set_socialProofs (fun m =>
        let proof := mread SocialProof_zero m tokenId in
        <[tokenId := {| holder := holder proof;
                        verifiedProviders := (verifiedProviders proof ++ [p])%list;
                        proofData := proofData proof;
                        timestamp := timestamp proof;
                        verificationCount := verificationCount proof |}]> m)) >>
      pushProviders tokenId rest
  end.

Definition addVerifiedProviders (msg_sender : address) (block_timestamp : N)
    (tokenId : N) (newProviders : list string) (newProofData : string)
    : M State unit :=
  onlyOwner msg_sender >>
  letM minted := _exists tokenId in
  require minted "Token does not exist" >>
  require (0 <? N.of_nat (length newProviders)) "No providers to add" >>
  pushProviders tokenId newProviders >>
  modify (set_socialProofs (fun m =>
    let proof := mread SocialProof_zero m tokenId in
    <[tokenId := {| holder := holder proof;
                    verifiedProviders := verifiedProviders proof;
                    proofData := (proofData proof ++ newProofData)%string;
                    timestamp := timestamp proof;
                    verificationCount :=
                      uint8 (N.of_nat (length (verifiedProviders proof))) |}]> m)) >>
  letM uri := generateTokenURI tokenId in
  _setTokenURI tokenId uri >>
  emit (ProofDataUpdated tokenId newProviders block_timestamp).


Definition getSocialProof (tokenId : N) : M State (address * list string * N * N) :=
  letM minted := _exists tokenId in
  require minted "Token does not exist" >>
  letM proof := gets (fun s => mread SocialProof_zero (socialProofs s) tokenId) in
  ret (holder proof, verifiedProviders proof, timestamp proof,
       verificationCount proof).

Definition getTokensByHolder (holder_ : address) (s : State) : list N :=
  mread [] (holderTokens s) holder_.

(** *** The writes of a mint and of an append, put together *)

Definition after_mint (to block_timestamp : N) (providers : list string)
    (data : string) (s : State) : State :=
  let tokenId := _tokenIdCounter s in
  let recorded_ :=
    set_hasMinted (fun m => <[to := true]> m)
      (set_holderTokens (fun m => <[to := (mread [] m to ++ [tokenId])%list]> m)
         (set_socialProofs (fun m =>
            <[tokenId := {| holder := to;
                            verifiedProviders := providers;
                            proofData := data;
                            timestamp := block_timestamp;
                            verificationCount :=
                              uint8 (N.of_nat (length providers)) |}]> m)
            (set_tokenIdCounter (fun c => (c + 1) mod uint256_modulus) s))) in
  let minted_ :=
    add_event (Transfer 0 to tokenId)
      (set_owners (fun o => <[tokenId := to]> o)
         (set_balances
            (fun b => <[to := (mread 0 b to + 1) mod uint256_modulus]> b)
            recorded_)) in
  add_event (SocialProofPassMinted to tokenId providers block_timestamp)
    (set_tokenURIs (fun u =>
       <[tokenId :=
           renderTokenURI tokenId
             (mread SocialProof_zero (socialProofs minted_) tokenId)]> u)
       minted_).

Definition pushed (tokenId : N) (newProviders : list string) (s : State) : State :=
  fold_left
    (fun s p =>
       set_socialProofs (fun m =>
         let proof := mread SocialProof_zero m tokenId in
         <[tokenId := {| holder := holder proof;
                         verifiedProviders := (verifiedProviders proof ++ [p])%list;
                         proofData := proofData proof;
                         timestamp := timestamp proof;
                         verificationCount := verificationCount proof |}]> m) s)
    newProviders s.

Definition after_append (tokenId block_timestamp : N)
    (newProviders : list string) (newProofData : string) (s : State) : State :=
  let appended :=
    set_socialProofs (fun m =>
      let proof := mread SocialProof_zero m tokenId in
      <[tokenId := {| holder := holder proof;
                      verifiedProviders := verifiedProviders proof;
                      proofData := (proofData proof ++ newProofData)%string;
                      timestamp := timestamp proof;
                      verificationCount :=
                        uint8 (N.of_nat (length (verifiedProviders proof))) |}]> m)
      (pushed tokenId newProviders s) in
  add_event (ProofDataUpdated tokenId newProviders block_timestamp)
    (set_tokenURIs (fun u =>
       <[tokenId :=
           renderTokenURI tokenId
             (mread SocialProof_zero (socialProofs appended) tokenId)]> u)
       appended).

End Contract.

(** *** Text helpers of the metadata *)

(** [capitalizeFirst]: the first byte, when it is a lower-case ASCII
    letter, is moved to upper case; the other bytes are copied. *)
Definition capitalizeFirst (str : string) : string :=
  match str with
  | EmptyString => str
  | String c rest =>
      let n := nat_of_ascii c in
      String (if (97 <=? n)%nat && (n <=? 122)%nat
              then ascii_of_nat (n - 32) else c) rest
  end.

Definition alphabet : string := "0123456789abcdef".

(** [alphabet[n]] *)
Definition hex_digit (n : N) : ascii :=
  default (ascii_of_nat 48) (String.get (N.to_nat n) alphabet).

(** [value[i + 12]], where [value] is the address widened to 32 bytes:
    the [i]-th of its 20 bytes, most significant first. *)
Definition address_byte (a : address) (i : nat) : N :=
  N.land (N.shiftr a (8 * N.of_nat (19 - i))) 255.

(** The loop writing [str[2 + i * 2]] and [str[3 + i * 2]] for [count]
    bytes from the [i]-th on. *)
Fixpoint hex_bytes (a : address) (i count : nat) : string :=
  match count with
  | O => EmptyString
  | S count' =>
      let b := address_byte a i in
      String (hex_digit (N.shiftr b 4))
        (String (hex_digit (N.land b 15)) (hex_bytes a (S i) count'))
  end.

Definition addressToString (a : address) : string :=
  ("0x" ++ hex_bytes a 0 20)%string.

Definition constructor (deployer : address) : State :=
  {| _owner := deployer; _owners := ∅; _balances := ∅; _tokenURIs := ∅;
     _tokenIdCounter := 0%N; socialProofs := ∅; holderTokens := ∅;
     hasMinted := ∅; events := [] |}.

End SvgRegistry.

(** ** Scenarios used below *)
Module Scenario.

Definition pending_session (p : string) (t : Z) : Session :=
  {| provider := p; status := pending; address := Some "0xabc";
     createdAt := t; proofKey := None; proof := None; verifiedAt := None |}.

(** Two configuration requests for [github], a second apart, both still
    waiting for their callback. *)
Definition two_pending : Store :=
  {| verificationSessions :=
       [ ("github-1000", pending_session "github" 1000);
         ("github-2000", pending_session "github" 2000) ];
     verificationProofs := [] |}.

Definition proofA : JsVal := JObj [("identifier", JStr "0xa")].
Definition proofB : JsVal := JObj [("identifier", JStr "0xb")].

(** One pending session, and a proof already stored under [github-1000]. *)
Definition one_stored : Store :=
  {| verificationSessions := [ ("github-900", pending_session "github" 900) ];
     verificationProofs :=
       [ ("github-1000",
          {| sp_provider := "github"; sp_proof := proofA;
             sp_timestamp := 1000; sp_status := verified |}) ] |}.

(** An environment with every credential set, and oracles that accept. *)
Definition env_all (name : string) : option string := Some "secret".
Definition sdk_ok (app_id app_secret provider_id callback : string)
    : string + (string * string) :=
  inr ("https://oracle.example/request", "{}").
Definition parse_as (v : JsVal) (body : string) : option JsVal := Some v.
Definition accept (v : JsVal) : option bool := Some true.

(** An oracle that accepts every proof and one that rejects every proof,
    recipients that accept every token, and an encoding that leaves the
    document as it is. *)
Definition oracle_ok (a : Evm.address) (proof : ReclaimTypes.Proof)
    : option string := None.
Definition oracle_no (a : Evm.address) (proof : ReclaimTypes.Proof)
    : option string := Some "Invalid proof".
Definition receiver_ok (a : Evm.address) (tokenId : N) : bool := true.
Definition no_encoding (s : string) : string := s.

Definition a_proof : ReclaimTypes.Proof :=
  {| ReclaimTypes.claimInfo :=
       {| ReclaimTypes.provider := "http"; ReclaimTypes.parameters := "{}";
          ReclaimTypes.context := "{}" |};
     ReclaimTypes.signedClaim :=
       {| ReclaimTypes.claim :=
            {| ReclaimTypes.identifier := 0%N; ReclaimTypes.owner := 5%N;
               ReclaimTypes.timestampS := 1700000000%N;
               ReclaimTypes.epoch := 1%N |};
          ReclaimTypes.signatures := [] |} |}.

(** The registry with URI storage deployed by address 1, after its owner
    has minted one pass for address 7. *)
Definition owner_mint : Registry.Tx :=
  {| Registry.msg_sender := 1%N; Registry.block_timestamp := 100%N;
     Registry.what := Registry.MintSocialProofPass 7%N ["github"] "0x1234" |}.

Definition one_pass : Registry.State :=
  Registry.run Registry.WithURIStorage oracle_ok receiver_ok no_encoding
    [owner_mint] (Registry.constructor 1%N 2%N).

End Scenario.

(** * Properties of the relay *)

Local Open Scope list_scope.

(** ** Maps *)

Lemma JsMap_get_set_eq {V : Type} (k : string) (v : V) (m : JsMap.t V) :
  JsMap.get k (JsMap.set k v m) = Some v.
Proof.
  unfold JsMap.get. induction m as [|[k' v'] m IH]; simpl.
  - now rewrite String.eqb_refl.
  - destruct (String.eqb k k') eqn:E; simpl; rewrite ?String.eqb_refl, ?E; auto.
Qed.

Lemma JsMap_get_set_ne {V : Type} (k k' : string) (v : V) (m : JsMap.t V) :
  k <> k' -> JsMap.get k' (JsMap.set k v m) = JsMap.get k' m.
Proof.
  intros Hne. unfold JsMap.get.
  induction m as [|[k0 v0] m IH]; simpl.
  - destruct (String.eqb k' k) eqn:E; auto.
    apply String.eqb_eq in E. congruence.
  - destruct (String.eqb k k0) eqn:E; simpl.
    + apply String.eqb_eq in E. subst k0.
      destruct (String.eqb k' k) eqn:E'; auto.
      apply String.eqb_eq in E'. congruence.
    + now rewrite IH.
Qed.

Lemma JsMap_set_at {V : Type} (k : string) (v0 v : V) (pre post : JsMap.t V) :
  ~ In k (JsMap.keys pre) ->
  JsMap.set k v (pre ++ (k, v0) :: post) = pre ++ (k, v) :: post.
Proof.
  induction pre as [|[k' v'] pre IH]; simpl; intros Hnot.
  - now rewrite String.eqb_refl.
  - destruct (String.eqb k k') eqn:E.
    + apply String.eqb_eq in E. subst. tauto.
    + rewrite IH; auto.
Qed.

Lemma JsMap_keys_set {V : Type} (k : string) (v : V) (m : JsMap.t V) :
  JsMap.keys (JsMap.set k v m) =
  if mem k (JsMap.keys m) then JsMap.keys m else (JsMap.keys m ++ [k])%list.
Proof.
  unfold mem. induction m as [|[k' v'] m IH]; simpl; auto.
  destruct (String.eqb k k') eqn:E; simpl.
  - apply String.eqb_eq in E. now subst.
  - rewrite IH. now destruct (existsb (String.eqb k) (JsMap.keys m)).
Qed.

Lemma mem_In (k : string) (l : list string) : mem k l = true <-> In k l.
Proof.
  unfold mem. rewrite existsb_exists. split.
  - intros (x & Hin & E). apply String.eqb_eq in E. now subst.
  - intros Hin. exists k. split; auto. apply String.eqb_refl.
Qed.

(** [set] keeps a map well formed, so every store the handlers build is. *)
Lemma JsMap_wf_set {V : Type} (k : string) (v : V) (m : JsMap.t V) :
  JsMap.wf m -> JsMap.wf (JsMap.set k v m).
Proof.
  unfold JsMap.wf. intros Hwf. rewrite JsMap_keys_set.
  destruct (mem k (JsMap.keys m)) eqn:E; auto.
  apply NoDup_app; repeat split; auto.
  - intros x Hx Hin. apply list_elem_of_In in Hx, Hin.
    destruct Hin as [<-|[]].
    apply mem_In in Hx. congruence.
  - apply NoDup_singleton.
Qed.

Lemma JsMap_wf_empty {V : Type} : JsMap.wf (@JsMap.empty V).
Proof. apply NoDup_nil_2. Qed.

(** ** The scan of the callback *)

Lemma pending_test (p : string) (s : Session) :
  String.eqb (provider s) p && Status_eqb (status s) pending = true
  <-> is_pending_for p s.
Proof.
  unfold is_pending_for. rewrite andb_true_iff, String.eqb_eq.
  destruct (status s); simpl; intuition congruence.
Qed.

Lemma first_pending_Some (p : string) (m : JsMap.t Session) id s :
  first_pending p m = Some (id, s) ->
  exists pre post,
    m = pre ++ (id, s) :: post
    /\ Forall (fun e => ~ is_pending_for p (snd e)) pre
    /\ is_pending_for p s.
Proof.
  induction m as [|[k v] m IH]; simpl; [discriminate|].
  destruct (String.eqb (provider v) p && Status_eqb (status v) pending) eqn:E.
  - intros [= <- <-]. exists [], m.
    split; [reflexivity|]. split; [constructor|]. now apply pending_test.
  - intros H. destruct (IH H) as (pre & post & -> & Hpre & Hs).
    exists ((k, v) :: pre), post.
    split; [reflexivity|]. split; [|exact Hs].
    constructor; auto. simpl. rewrite <- pending_test. congruence.
Qed.

Lemma first_pending_None (p : string) (m : JsMap.t Session) :
  first_pending p m = None <->
  Forall (fun e => ~ is_pending_for p (snd e)) m.
Proof.
  induction m as [|[k v] m IH]; simpl.
  - split; auto.
  - destruct (String.eqb (provider v) p && Status_eqb (status v) pending) eqn:E.
    + split; [discriminate|]. intros H. inversion H; subst. simpl in *.
      apply pending_test in E. tauto.
    + rewrite IH. split; intros H.
      * constructor; auto. simpl. rewrite <- pending_test. congruence.
      * now inversion H.
Qed.

(** On a well-formed map the update rewrites exactly the entry the scan
    stopped at, in place. *)
Lemma update_session_promotes (p key : string) (prf : JsVal) (now : Z)
    (m : JsMap.t Session) id s :
  JsMap.wf m ->
  first_pending p m = Some (id, s) ->
  exists pre post,
    m = pre ++ (id, s) :: post
    /\ Forall (fun e => ~ is_pending_for p (snd e)) pre
    /\ update_session p key prf now m = pre ++ (id, promote s key prf now) :: post.
Proof.
  intros Hwf Hfp. unfold update_session. rewrite Hfp.
  destruct (first_pending_Some _ _ _ _ Hfp) as (pre & post & -> & Hpre & _).
  exists pre, post. split; [reflexivity|]. split; [exact Hpre|].
  apply JsMap_set_at.
  unfold JsMap.wf, JsMap.keys in Hwf. rewrite map_app in Hwf. simpl in Hwf.
  apply NoDup_app in Hwf. destruct Hwf as (_ & Hdisj & _).
  intros Hin. apply (Hdisj id).
  - now apply list_elem_of_In.
  - left.
Qed.

Section RelayFacts.

Variable env : string -> option string.
Variable reclaimProofRequest :
  string -> string -> string -> string -> string + (string * string).
Variable parseBody : string -> option JsVal.
Variable verifyProof : JsVal -> option bool.

Lemma PROVIDERS_own (p : string) :
  In p configured_providers -> exists c, PROVIDERS env p = OwnEntry c.
Proof.
  simpl. intros [<-|[<-|[<-|[<-|[]]]]]; unfold PROVIDERS; simpl; eauto.
Qed.

Lemma PROVIDERS_not_own (p : string) :
  ~ In p configured_providers ->
  PROVIDERS env p = Inherited \/ PROVIDERS env p = Absent.
Proof.
  intros Hnot. unfold PROVIDERS.
  destruct (String.eqb p "github") eqn:E1;
    [apply String.eqb_eq in E1; subst; simpl in Hnot; tauto|].
  destruct (String.eqb p "gmail") eqn:E2;
    [apply String.eqb_eq in E2; subst; simpl in Hnot; tauto|].
  destruct (String.eqb p "linkedin") eqn:E3;
    [apply String.eqb_eq in E3; subst; simpl in Hnot; tauto|].
  destruct (String.eqb p "twitter") eqn:E4;
    [apply String.eqb_eq in E4; subst; simpl in Hnot; tauto|].
  destruct (mem p Object_prototype_keys); auto.
Qed.

(** What an accepted callback does to the store. *)
Lemma receiveProofs_accepted (p body : string) (prf : JsVal)
    (now_key now_stored now_verified : Z) (st : Store) :
  PROVIDERS env p <> Absent ->
  parseBody body = Some prf ->
  verifyProof prf = Some true ->
  receiveProofs env parseBody verifyProof p body now_key now_stored now_verified st =
  (RespOk,
   {| verificationSessions :=
        update_session p (p +:+ "-" +:+ pretty now_key) prf now_verified
          (verificationSessions st);
      verificationProofs :=
        JsMap.set (p +:+ "-" +:+ pretty now_key)
          {| sp_provider := p; sp_proof := prf;
             sp_timestamp := now_stored; sp_status := verified |}
          (verificationProofs st) |}).
Proof.
  intros Hp Hparse Hver. unfold receiveProofs. rewrite Hparse, Hver.
  destruct (PROVIDERS env p); congruence.
Qed.

(** An unknown provider never reaches the store, whichever error answers. *)
Lemma generateConfig_unknown_keeps_store (p : string) (address_ : option string)
    (now_id now_created : Z) (st : Store) :
  ~ In p configured_providers ->
  exists code error,
    generateConfig env reclaimProofRequest (Some p) address_ now_id now_created st
    = (RespError code error, st)
    /\ (code = 400 \/ code = 500).
Proof.
  intros Hnot. unfold generateConfig.
  destruct (String.eqb p ""); [eauto|].
  destruct (PROVIDERS_not_own p Hnot) as [-> | ->]; simpl; eauto.
Qed.

(** A provider that is no property of [PROVIDERS] at all is answered with
    400 [Invalid provider]. *)
Lemma generateConfig_absent_invalid (p : string) (address_ : option string)
    (now_id now_created : Z) (st : Store) :
  ~ In p configured_providers ->
  ~ In p Object_prototype_keys ->
  generateConfig env reclaimProofRequest (Some p) address_ now_id now_created st
  = (RespError 400 "Invalid provider", st).
Proof.
  intros Hnot Hproto. unfold generateConfig.
  destruct (String.eqb p ""); [auto|].
  destruct (PROVIDERS_not_own p Hnot) as [H | ->]; auto.
  unfold PROVIDERS in H.
  repeat match type of H with
         | (if ?c then _ else _) = _ => destruct c eqn:?; try discriminate
         end.
  exfalso. apply Hproto. now apply mem_In.
Qed.

End RelayFacts.

(** ** The status query *)

Lemma latest_step_spec (p : option string) (l : JsMap.t Session)
    (acc : option (string * Session)) :
  match fold_left (latest_step p) l acc with
  | None =>
      acc = None /\ Forall (fun e => ~ for_provider p (snd e)) l
  | Some (id, s) =>
      (acc = Some (id, s) \/ (In (id, s) l /\ for_provider p s))
      /\ (forall id0 s0, acc = Some (id0, s0) -> (createdAt s0 <= createdAt s)%Z)
      /\ Forall (fun e => for_provider p (snd e) ->
                          (createdAt (snd e) <= createdAt s)%Z) l
  end.
Proof.
  revert acc. induction l as [|[k v] l IH]; intros acc; cbn [fold_left].
  - destruct acc as [[id s]|]; [|auto].
    split; [auto|]. split; [|constructor].
    intros id0 s0 [= -> ->]. lia.
  - specialize (IH (latest_step p acc (k, v))).
    destruct (fold_left (latest_step p) l (latest_step p acc (k, v)))
      as [[id s]|] eqn:Hfold.
    + destruct IH as (Hsrc & Hacc & Hall).
      unfold latest_step in Hsrc, Hacc.
      unfold for_provider in *.
      destruct (bool_decide (Some (provider v) = p)) eqn:Hp.
      * apply bool_decide_eq_true in Hp.
        destruct acc as [[id0 s0]|].
        -- destruct (createdAt v >? createdAt s0)%Z eqn:Hgt.
           ++ assert (createdAt v <= createdAt s)%Z by (eapply Hacc; eauto).
              split; [|split].
              ** destruct Hsrc as [[= <- <-]|[Hin Hs]]; [right|right]; simpl; auto.
              ** intros ? ? [= <- <-]. lia.
              ** constructor; auto.
           ++ assert (createdAt s0 <= createdAt s)%Z by (eapply Hacc; eauto).
              split; [|split].
              ** destruct Hsrc as [?|[Hin Hs]]; [left|right]; simpl; auto.
              ** intros ? ? [= <- <-]. lia.
              ** constructor; auto. simpl. intros _. lia.
        -- assert (createdAt v <= createdAt s)%Z by (eapply Hacc; eauto).
           split; [|split].
           ** destruct Hsrc as [[= <- <-]|[Hin Hs]]; right; simpl; auto.
           ** discriminate.
           ** constructor; auto.
      * apply bool_decide_eq_false in Hp.
        split; [|split].
        -- destruct Hsrc as [?|[Hin Hs]]; [left|right]; simpl; auto.
        -- exact Hacc.
        -- constructor; auto. simpl. tauto.
    + destruct IH as (Hacc & Hall). unfold latest_step in Hacc.
      unfold for_provider in *.
      destruct (bool_decide (Some (provider v) = p)) eqn:Hp.
      * destruct acc as [[id0 s0]|]; [|discriminate].
        destruct (createdAt v >? createdAt s0)%Z; discriminate.
      * apply bool_decide_eq_false in Hp. split; auto.
Qed.

(** C6. For every provider argument, [/verification-status] either finds no
    session of that provider and answers [not_found], or answers with the
    status, the session id and the proof (or [null]) of a session of that
    provider whose [createdAt] is the largest among them. *)
Theorem verificationStatus_latest (p : option string) (st : Store) :
  (Forall (fun e => ~ for_provider p (snd e)) (verificationSessions st)
   /\ verificationStatus p st = RespNotFound)
  \/ (exists id s,
        In (id, s) (verificationSessions st)
        /\ for_provider p s
        /\ Forall (fun e => for_provider p (snd e) ->
                            (createdAt (snd e) <= createdAt s)%Z)
             (verificationSessions st)
        /\ verificationStatus p st =
           RespStatus (status s) id
             (js_or (default JUndefined (proof s)) JNull) (provider s)).
Proof.
  pose proof (latest_step_spec p (verificationSessions st) None) as H.
  unfold verificationStatus, latest.
  destruct (fold_left (latest_step p) (verificationSessions st) None)
    as [[id s]|].
  - right. destruct H as ([?|[Hin Hp]] & _ & Hall); [discriminate|].
    exists id, s. auto.
  - left. destruct H as (_ & Hall). auto.
Qed.

(** ** The callback *)

(** C1. With two pending [github] sessions created at 1000 and at 2000, an
    accepted [github] callback stores the proof and promotes the session
    created at 1000, the first in iteration order; the most recently
    created one stays [pending]. *)
Theorem receiveProofs_promotes_oldest_pending :
  let r := receiveProofs Scenario.env_all (Scenario.parse_as Scenario.proofB)
             Scenario.accept "github" "body" 3000 3000 3000
             Scenario.two_pending in
  fst r = RespOk
  /\ JsMap.get "github-3000" (verificationProofs (snd r)) =
     Some {| sp_provider := "github"; sp_proof := Scenario.proofB;
             sp_timestamp := 3000; sp_status := verified |}
  /\ verificationSessions (snd r) =
     [ ("github-1000",
        promote (Scenario.pending_session "github" 1000) "github-3000"
          Scenario.proofB 3000);
       ("github-2000", Scenario.pending_session "github" 2000) ]
  /\ (createdAt (Scenario.pending_session "github" 1000)
      < createdAt (Scenario.pending_session "github" 2000))%Z.
Proof. vm_compute. repeat split; reflexivity. Qed.

(** ** The configuration request *)

(** C5. The provider argument [constructor] is not in the configured set,
    yet [/generate-config] answers it with 500 [Provider not configured]
    and not with 400 [Invalid provider]; the store stays as it was. *)
Theorem generateConfig_constructor_not_configured
    (env : string -> option string)
    (reclaimProofRequest :
       string -> string -> string -> string -> string + (string * string))
    (address_ : option string) (now_id now_created : Z) (st : Store) :
  ~ In "constructor" configured_providers
  /\ generateConfig env reclaimProofRequest (Some "constructor") address_
       now_id now_created st
     = (RespError 500 "Provider not configured", st).
Proof.
  split.
  - simpl. intuition discriminate.
  - reflexivity.
Qed.



(** C9. A callback for a supported provider whose proof the oracle accepts
    is answered with 200 and stores the proof even when no session of that
    provider is pending; the sessions are then left as they were. *)
Theorem receiveProofs_without_pending_session
    (env : string -> option string)
    (parseBody : string -> option JsVal) (verifyProof : JsVal -> option bool)
    (p body : string) (prf : JsVal) (now_key now_stored now_verified : Z)
    (st : Store) :
  In p configured_providers ->
  parseBody body = Some prf ->
  verifyProof prf = Some true ->
  Forall (fun e => ~ is_pending_for p (snd e)) (verificationSessions st) ->
  let r := receiveProofs env parseBody verifyProof p body
             now_key now_stored now_verified st in
  fst r = RespOk
  /\ http_status (fst r) = 200
  /\ JsMap.get (p +:+ "-" +:+ pretty now_key) (verificationProofs (snd r)) =
     Some {| sp_provider := p; sp_proof := prf;
             sp_timestamp := now_stored; sp_status := verified |}
  /\ verificationSessions (snd r) = verificationSessions st.
Proof.
  intros Hp Hparse Hver Hnone. cbv zeta.
  destruct (PROVIDERS_own env p Hp) as [c Hc].
  rewrite (receiveProofs_accepted env parseBody verifyProof p body prf)
    by (auto; congruence).
  simpl. rewrite JsMap_get_set_eq. repeat split; auto.
  unfold update_session.
  apply first_pending_None in Hnone. now rewrite Hnone.
Qed.

Lemma receiveProofs_without_pending_session_witness :
  let r := receiveProofs Scenario.env_all (Scenario.parse_as Scenario.proofB)
             Scenario.accept "gmail" "body" 3000 3001 3002
             Scenario.two_pending in
  fst r = RespOk
  /\ http_status (fst r) = 200
  /\ JsMap.get "gmail-3000" (verificationProofs (snd r)) =
     Some {| sp_provider := "gmail"; sp_proof := Scenario.proofB;
             sp_timestamp := 3001; sp_status := verified |}
  /\ verificationSessions (snd r) = verificationSessions Scenario.two_pending.
Proof.
  apply (receiveProofs_without_pending_session Scenario.env_all
           (Scenario.parse_as Scenario.proofB) Scenario.accept
           "gmail" "body" Scenario.proofB 3000 3001 3002 Scenario.two_pending).
  - simpl. tauto.
  - reflexivity.
  - reflexivity.
  - repeat constructor; unfold is_pending_for; simpl; intros [H _]; discriminate.
Defined.

(** C10, as stated, fails: a callback that reads the millisecond of an
    earlier callback for the same provider writes its proof under the same
    key, and the proof stored there before is replaced. *)
Lemma receiveProofs_replaces_stored_proof :
  let r := receiveProofs Scenario.env_all (Scenario.parse_as Scenario.proofB)
             Scenario.accept "github" "body" 1000 1000 1000
             Scenario.one_stored in
  fst r = RespOk
  /\ option_map status (JsMap.get "github-900" (verificationSessions (snd r)))
     = Some verified
  /\ option_map sp_proof
       (JsMap.get "github-1000" (verificationProofs Scenario.one_stored))
     = Some Scenario.proofA
  /\ option_map sp_proof (JsMap.get "github-1000" (verificationProofs (snd r)))
     <> Some Scenario.proofA.
Proof. vm_compute. repeat split; try reflexivity. discriminate. Qed.

(** C10, amended. When the callback promotes a pending session, the
    session keeps its place, provider, address and creation time, and gets
    status, proof key, proof and verification time; every other session is
    unchanged, and so is every stored proof under another key than the new
    proof's. *)
Theorem receiveProofs_frame
    (env : string -> option string)
    (parseBody : string -> option JsVal) (verifyProof : JsVal -> option bool)
    (p body : string) (prf : JsVal) (now_key now_stored now_verified : Z)
    (st : Store) (id : string) (s : Session) :
  JsMap.wf (verificationSessions st) ->
  PROVIDERS env p <> Absent ->
  parseBody body = Some prf ->
  verifyProof prf = Some true ->
  first_pending p (verificationSessions st) = Some (id, s) ->
  let r := receiveProofs env parseBody verifyProof p body
             now_key now_stored now_verified st in
  let key := p +:+ "-" +:+ pretty now_key in
  exists pre post s',
    verificationSessions st = pre ++ (id, s) :: post
    /\ verificationSessions (snd r) = pre ++ (id, s') :: post
    /\ provider s' = provider s
    /\ address s' = address s
    /\ createdAt s' = createdAt s
    /\ status s' = verified
    /\ proofKey s' = Some key
    /\ proof s' = Some prf
    /\ verifiedAt s' = Some now_verified
    /\ forall k, k <> key ->
         JsMap.get k (verificationProofs (snd r))
         = JsMap.get k (verificationProofs st).
Proof.
  intros Hwf Hp Hparse Hver Hfp. cbv zeta.
  rewrite (receiveProofs_accepted env parseBody verifyProof p body prf) by auto.
  simpl.
  destruct (update_session_promotes p (p +:+ "-" +:+ pretty now_key) prf
              now_verified _ id s Hwf Hfp) as (pre & post & Hm & _ & Hupd).
  exists pre, post, (promote s (p +:+ "-" +:+ pretty now_key) prf now_verified).
  repeat split; auto.
  intros k Hk. apply JsMap_get_set_ne. congruence.
Qed.

Lemma receiveProofs_frame_witness :
  let r := receiveProofs Scenario.env_all (Scenario.parse_as Scenario.proofB)
             Scenario.accept "github" "body" 3000 3001 3002
             Scenario.two_pending in
  exists pre post s',
    verificationSessions Scenario.two_pending
    = pre ++ ("github-1000", Scenario.pending_session "github" 1000) :: post
    /\ verificationSessions (snd r) = pre ++ ("github-1000", s') :: post
    /\ provider s' = "github"
    /\ address s' = Some "0xabc"
    /\ createdAt s' = 1000%Z
    /\ status s' = verified
    /\ proofKey s' = Some "github-3000"
    /\ proof s' = Some Scenario.proofB
    /\ verifiedAt s' = Some 3002%Z
    /\ forall k, k <> "github-3000" ->
         JsMap.get k (verificationProofs (snd r))
         = JsMap.get k (verificationProofs Scenario.two_pending).
Proof.
  apply (receiveProofs_frame Scenario.env_all
           (Scenario.parse_as Scenario.proofB) Scenario.accept
           "github" "body" Scenario.proofB 3000 3001 3002
           Scenario.two_pending "github-1000"
           (Scenario.pending_session "github" 1000)).
  - unfold JsMap.wf. simpl. repeat constructor; simpl.
    + intros H. apply list_elem_of_In in H. simpl in H.
      destruct H as [H|[]]. discriminate.
    + intros H. apply list_elem_of_In in H. destruct H.
  - discriminate.
  - reflexivity.
  - reflexivity.
  - reflexivity.
Defined.

(** ** The on-chain payload *)

Lemma transformProof_object (walletAddress : JsVal) (now : Z)
    (fields : list (string * JsVal)) :
  let get name := default JUndefined (assoc name fields) in
  transformProof walletAddress now (JObj fields) =
  Some {| claimInfo :=
            {| ci_provider := js_or (get "provider") (JStr "");
               ci_parameters := js_or (get "parameters") (JStr "");
               ci_context := js_or (get "context") (JStr "") |};
          signedClaim :=
            {| claim :=
                 {| identifier := js_or (get "identifier") (JStr zero_identifier);
                    owner := js_or (get "owner") walletAddress;
                    timestampS := js_or (get "timestampS") (JNum (now / 1000));
                    epoch := js_or (get "epoch") (JNum 1) |};
               signatures := js_or (get "signatures") (JArr []) |} |}.
Proof. reflexivity. Qed.

Lemma transformAll_objects (walletAddress : JsVal) (clock : nat -> Z)
    (objects : list (list (string * JsVal))) (i : nat) :
  exists tps,
    transformAll walletAddress clock i (map JObj objects) = Some tps
    /\ length tps = length objects.
Proof.
  revert i. induction objects as [|fields objects IH]; intros i; simpl.
  - exists []. auto.
  - destruct (IH (S i)) as (tps & Htps & Hlen).
    rewrite Htps. simpl. eexists. split; [reflexivity|]. simpl. now rewrite Hlen.
Qed.

(** A [null] entry is the one raw value the transformation fails on: the
    property read throws and the request is answered with 500. *)
Lemma transformProof_null (walletAddress : JsVal) (now : Z) :
  transformProof walletAddress now JNull = None.
Proof. reflexivity. Qed.

(** The transformation of a raw proof object, field by field: the proof's
    own value where it has a truthy one, and otherwise the 32-byte zero
    value for [identifier], the caller's wallet address for [owner], the
    current time in seconds for [timestampS], 1 for [epoch], and the empty
    string or array for [provider], [parameters], [context] and
    [signatures]. *)
Lemma transformProof_defaults (walletAddress : JsVal) (now : Z)
    (fields : list (string * JsVal)) :
  let field name default_ :=
    match assoc name fields with
    | Some v => if truthy v then v else default_
    | None => default_
    end in
  transformProof walletAddress now (JObj fields) =
  Some {| claimInfo :=
            {| ci_provider := field "provider" (JStr "");
               ci_parameters := field "parameters" (JStr "");
               ci_context := field "context" (JStr "") |};
          signedClaim :=
            {| claim :=
                 {| identifier := field "identifier" (JStr zero_identifier);
                    owner := field "owner" walletAddress;
                    timestampS := field "timestampS" (JNum (now / 1000));
                    epoch := field "epoch" (JNum 1) |};
               signatures := field "signatures" (JArr []) |} |}.
Proof.
  rewrite transformProof_object. cbv zeta. unfold js_or.
  destruct (assoc "provider" fields), (assoc "parameters" fields),
    (assoc "context" fields), (assoc "identifier" fields),
    (assoc "owner" fields), (assoc "timestampS" fields),
    (assoc "epoch" fields), (assoc "signatures" fields); reflexivity.
Qed.

(** C8. [POST /prepare-onchain-mint] hands no transformed proof to its
    caller: every request is answered with an error.  For a wallet, one
    raw proof with an identifier only and a chain that answers, the
    handler does compute the tuple with the defaults the transformation
    substitutes, and then answers 500, because the chain id it puts in the
    body is a BigInt that cannot be written; a request with a [null] entry
    is answered 500 as well, the transformation throwing on it. *)
Theorem prepareOnchainMint_answers_no_payload
    (env : string -> option string) (getNetworkChainId : option Z)
    (walletAddress reclaimProofs verifiedProviders_ : JsVal)
    (clock : nat -> Z) :
  (exists code error,
     prepareOnchainMint env getNetworkChainId walletAddress reclaimProofs
       verifiedProviders_ clock = RespError code error)
  /\ (let wallet := JStr "0x1" in
      let raw := JObj [ ("github", JObj [ ("identifier", JStr "0xa") ]) ] in
      let now := fun _ : nat => 1700000000000%Z in
      Object_values raw ≫= transformAll wallet now 0
      = Some [ {| claimInfo :=
                    {| ci_provider := JStr ""; ci_parameters := JStr "";
                       ci_context := JStr "" |};
                  signedClaim :=
                    {| claim :=
                         {| identifier := JStr "0xa"; owner := wallet;
                            timestampS := JNum 1700000000;
                            epoch := JNum 1 |};
                       signatures := JArr [] |} |} ]
      /\ prepareOnchainMint Scenario.env_all (Some 11155111%Z) wallet raw
           (JArr [ JStr "github" ]) now
         = RespError 500 "Failed to prepare on-chain mint"
      /\ prepareOnchainMint Scenario.env_all (Some 11155111%Z) wallet
           (JObj [ ("github", JNull) ]) (JArr [ JStr "github" ]) now
         = RespError 500 "Failed to prepare on-chain mint").
Proof.
  split.
  - unfold prepareOnchainMint.
    destruct (negb (truthy walletAddress) || negb (truthy reclaimProofs)
              || negb (truthy verifiedProviders_)); [eauto|].
    destruct (Object_values reclaimProofs ≫= transformAll walletAddress clock 0);
      [|eauto].
    destruct getNetworkChainId; simpl; eauto.
  - cbv zeta. split; [reflexivity|]. split; reflexivity.
Qed.

(** A present field with a truthy value is passed through as it is. *)
Lemma transformProof_keeps_identifier (walletAddress : JsVal) (now : Z)
    (fields : list (string * JsVal)) (v : JsVal) :
  assoc "identifier" fields = Some v ->
  truthy v = true ->
  option_map (fun tp => identifier (claim (signedClaim tp)))
    (transformProof walletAddress now (JObj fields)) = Some v.
Proof.
  intros Hv Ht. rewrite transformProof_object. cbv zeta. simpl.
  rewrite Hv. simpl. unfold js_or. now rewrite Ht.
Qed.

(** * Properties of the contracts *)

(** ** Running the monad *)
Section Steps.

Context {S A B C : Type}.

Lemma bind_bind (c : Evm.M S A) (k1 : A -> Evm.M S B) (k2 : B -> Evm.M S C) s :
  Evm.bind (Evm.bind c k1) k2 s = Evm.bind c (fun a => Evm.bind (k1 a) k2) s.
Proof. unfold Evm.bind. now destruct (c s). Qed.

Lemma bind_gets (f : S -> A) (k : A -> Evm.M S B) s :
  Evm.bind (Evm.gets f) k s = k (f s) s.
Proof. reflexivity. Qed.

Lemma bind_modify (f : S -> S) (k : unit -> Evm.M S B) s :
  Evm.bind (Evm.modify f) k s = k tt (f s).
Proof. reflexivity. Qed.

Lemma bind_ret (a : A) (k : A -> Evm.M S B) s :
  Evm.bind (Evm.ret a) k s = k a s.
Proof. reflexivity. Qed.

Lemma bind_require (c : bool) (r : string) (k : unit -> Evm.M S B) s :
  Evm.bind (Evm.require c r) k s = if c then k tt s else Evm.Revert r.
Proof. now destruct c. Qed.

Lemma bind_revert (r : string) (k : A -> Evm.M S B) s :
  Evm.bind (Evm.revert r) k s = Evm.Revert r.
Proof. reflexivity. Qed.

Lemma bind_unfold (c : Evm.M S A) (k : A -> Evm.M S B) s :
  Evm.bind c k s =
  match c s with
  | Evm.Ok a s' => k a s'
  | Evm.Revert r => Evm.Revert r
  end.
Proof. reflexivity. Qed.

Lemma bind_Ok (c : Evm.M S A) (k : A -> Evm.M S B) s a s' :
  c s = Evm.Ok a s' -> Evm.bind c k s = k a s'.
Proof. unfold Evm.bind. now intros ->. Qed.

Lemma bind_Revert (c : Evm.M S A) (k : A -> Evm.M S B) s r :
  c s = Evm.Revert r -> Evm.bind c k s = Evm.Revert r.
Proof. unfold Evm.bind. now intros ->. Qed.

End Steps.

Ltac mstep :=
  repeat (progress (rewrite ?bind_bind, ?bind_gets, ?bind_modify, ?bind_ret,
                      ?bind_require, ?bind_revert; cbv beta)).

Lemma call_Ok {S A : Type} (c : Evm.M S A) (s s' : S) (a : A) :
  c s = Evm.Ok a s' <-> Evm.call c s = (s', inr a).
Proof.
  unfold Evm.call. destruct (c s); split; congruence.
Qed.

Lemma call_Revert {S A : Type} (c : Evm.M S A) (s : S) (r : string) :
  c s = Evm.Revert r <-> Evm.call c s = (s, inl r).
Proof.
  unfold Evm.call. destruct (c s); split; congruence.
Qed.

(** ** The registry with oracle verification *)
Section RegistryFacts.

Import Evm Registry.
Local Open Scope N_scope.

Variable version : Version.
Variable Reclaim_verifyProof : address -> ReclaimTypes.Proof -> option string.
Variable onERC721Received : address -> N -> bool.
Variable Base64_encode : string -> string.

Lemma _safeMint_eq (to tokenId : N) (s : State) :
  _safeMint onERC721Received to tokenId s =
  if to =? 0 then Revert "ERC721: mint to the zero address"
  else if negb (mread 0 (_owners s) tokenId =? 0)
       then Revert "ERC721: token already minted"
  else if onERC721Received to tokenId then Ok tt (minted to tokenId s)
  else Revert "ERC721: transfer to non ERC721Receiver implementer".
Proof.
  unfold _safeMint, _mint, _exists, emit. mstep.
  destruct (to =? 0); simpl; auto.
  destruct (mread 0 (_owners s) tokenId =? 0); simpl; auto.
  unfold require, minted.
  destruct (onERC721Received to tokenId); reflexivity.
Qed.

Lemma refreshTokenURI_eq (tokenId : N) (s : State) :
  mread 0 (_owners s) tokenId <> 0 ->
  refreshTokenURI version Base64_encode tokenId s =
  Ok tt (refreshed version Base64_encode tokenId s).
Proof.
  intros Hex. apply N.eqb_neq in Hex.
  unfold refreshTokenURI, refreshed, generateTokenURI, _setTokenURI, _exists.
  destruct version; [reflexivity|].
  mstep. rewrite Hex. simpl. mstep. unfold require. simpl. reflexivity.
Qed.

Lemma minted_exists (to tokenId : N) (s : State) :
  to <> 0 -> mread 0 (_owners (minted to tokenId s)) tokenId <> 0.
Proof.
  intros Hto. unfold mread. simpl. now rewrite lookup_insert_eq.
Qed.

(** [mintSocialProofPass], one guard after the other. *)
Lemma mintSocialProofPass_eq (msg_sender block_timestamp to : N)
    (providers : list string) (proofData : string) (s : State) :
  mintSocialProofPass version onERC721Received Base64_encode
    msg_sender block_timestamp to providers proofData s =
  if negb (_owner s =? msg_sender) then Revert "Ownable: caller is not the owner"
  else if negb (0 <? N.of_nat (length providers))
       then Revert "At least one provider required"
  else if mread false (hasMinted s) to then Revert "Already minted"
  else if to =? 0 then Revert "ERC721: mint to the zero address"
  else if negb (mread 0 (_owners s) (_tokenIdCounter s) =? 0)
       then Revert "ERC721: token already minted"
  else if negb (onERC721Received to (_tokenIdCounter s))
       then Revert "ERC721: transfer to non ERC721Receiver implementer"
  else Ok (_tokenIdCounter s)
         (after_mint version Base64_encode to block_timestamp providers s).
Proof.
  unfold mintSocialProofPass, onlyOwner, current, increment, recordMint, emit.
  mstep.
  destruct (_owner s =? msg_sender); simpl; auto.
  destruct (0 <? N.of_nat (length providers)); simpl; auto.
  destruct (mread false (hasMinted s) to); simpl; auto.
  rewrite (bind_unfold (_safeMint _ _ _)), _safeMint_eq. simpl.
  destruct (to =? 0) eqn:Hto; simpl; auto.
  destruct (mread 0 (_owners s) (_tokenIdCounter s) =? 0); simpl; auto.
  destruct (onERC721Received to (_tokenIdCounter s)); simpl; auto.
  mstep.
  erewrite bind_Ok; [reflexivity|].
  rewrite refreshTokenURI_eq; [reflexivity|].
  apply N.eqb_neq in Hto. unfold mread. simpl. now rewrite lookup_insert_eq.
Qed.

(** The verification loop stops at the first unsupported provider or
    rejected proof. *)
Lemma verifyEach_bad (msg_sender block_timestamp : N) (tokenId : M State N) :
  (forall s, exists n, tokenId s = Ok n s) ->
  forall (proofs : list ReclaimTypes.Proof) (providers : list string) (s : State),
    length proofs = length providers ->
    (exists i p, providers !! i = Some p
                 /\ mread false (supportedProviders s) p = false)
    \/ (exists i proof reason,
          proofs !! i = Some proof
          /\ Reclaim_verifyProof (reclaimAddress s) proof = Some reason) ->
    exists reason,
      verifyEach Reclaim_verifyProof msg_sender block_timestamp tokenId
        proofs providers s = Revert reason.
Proof.
  intros Htid. induction proofs as [|proof proofs IH];
    intros [|provider providers] s Hlen Hbad; try discriminate.
  - destruct Hbad as [(i & p & Hi & _)|(i & pr & r & Hi & _)];
      destruct i; discriminate.
  - cbn [verifyEach]. unfold _verifyReclaimProof, emit. mstep.
    destruct (mread false (supportedProviders s) provider) eqn:Hsup;
      [|eauto].
    destruct (Reclaim_verifyProof (reclaimAddress s) proof) as [r|] eqn:Hver;
      mstep; [eauto|].
    destruct (Htid s) as [n Hn]. rewrite (bind_Ok _ _ _ _ _ Hn). mstep.
    apply IH; [simpl in Hlen; lia|].
    destruct Hbad as [(i & p & Hi & Hp)|(i & pr & r & Hi & Hr)].
    + left. destruct i as [|i]; simpl in Hi.
      * injection Hi as <-. congruence.
      * exists i, p. auto.
    + right. destruct i as [|i]; simpl in Hi.
      * injection Hi as <-. congruence.
      * exists i, pr, r. auto.
Qed.

(** A successful loop only emits events. *)
Lemma verifyEach_Ok (msg_sender block_timestamp : N) (tokenId : M State N) :
  (forall s, exists n, tokenId s = Ok n s) ->
  forall (proofs : list ReclaimTypes.Proof) (providers : list string)
         (s s' : State),
    verifyEach Reclaim_verifyProof msg_sender block_timestamp tokenId
      proofs providers s = Ok tt s' ->
    exists evs,
      s' = fold_left (fun s e => add_event e s) evs s.
Proof.
  intros Htid. induction proofs as [|proof proofs IH];
    intros providers s s'; cbn [verifyEach].
  - intros [= <-]. now exists [].
  - destruct providers as [|provider providers]; [discriminate|].
    unfold _verifyReclaimProof, emit. mstep.
    destruct (mread false (supportedProviders s) provider); [|discriminate].
    destruct (Reclaim_verifyProof (reclaimAddress s) proof); mstep;
      [discriminate|].
    destruct (Htid s) as [n Hn]. rewrite (bind_Ok _ _ _ _ _ Hn). mstep.
    intros H. apply IH in H. destruct H as [evs ->].
    now exists (ProofVerifiedOnChain msg_sender n provider block_timestamp :: evs).
Qed.

Lemma current_total (s : State) : exists n, current s = Ok n s.
Proof. now exists (_tokenIdCounter s). Qed.

(** C3. [mintWithProofVerification] reverts, leaving the state of the
    contract as it was, when the two arrays differ in length, when the
    caller has already minted, when a provider of the list is unsupported,
    or when the oracle rejects one proof of the batch. *)
Theorem mintWithProofVerification_atomic (msg_sender block_timestamp : N)
    (proofs : list ReclaimTypes.Proof) (providers : list string) (s : State) :
  length proofs <> length providers
  \/ hasAlreadyMinted msg_sender s = true
  \/ (exists i p, providers !! i = Some p
                  /\ mread false (supportedProviders s) p = false)
  \/ (exists i proof reason,
        proofs !! i = Some proof
        /\ Reclaim_verifyProof (reclaimAddress s) proof = Some reason) ->
  exists reason,
    call (mintWithProofVerification version Reclaim_verifyProof
            onERC721Received Base64_encode msg_sender block_timestamp
            proofs providers) s
    = (s, inl reason).
Proof.
  intros Hbad.
  enough (exists reason,
            mintWithProofVerification version Reclaim_verifyProof
              onERC721Received Base64_encode msg_sender block_timestamp
              proofs providers s = Revert reason) as [r Hr]
    by (exists r; now apply call_Revert).
  unfold mintWithProofVerification. mstep.
  destruct (0 <? N.of_nat (length proofs)); [|eauto].
  destruct (N.of_nat (length proofs) =? N.of_nat (length providers)) eqn:Hlen;
    [|eauto].
  apply N.eqb_eq, Nat2N.inj in Hlen.
  unfold hasAlreadyMinted in Hbad.
  destruct (mread false (hasMinted s) msg_sender) eqn:Hm; simpl; [eauto|].
  destruct Hbad as [Hne|[Hmint|Hbad]]; [contradiction|discriminate|].
  destruct (verifyEach_bad msg_sender block_timestamp current current_total
              proofs providers s Hlen Hbad) as [r Hr].
  exists r. now apply bind_Revert.
Qed.

(** *** The owner-gated mint *)





Lemma mintSocialProofPass_Ok (msg_sender block_timestamp to : N)
    (providers : list string) (proofData : string) (s s' : State) (tokenId : N) :
  mintSocialProofPass version onERC721Received Base64_encode
    msg_sender block_timestamp to providers proofData s = Ok tokenId s' ->
  tokenId = _tokenIdCounter s
  /\ s' = after_mint version Base64_encode to block_timestamp providers s
  /\ _owner s = msg_sender /\ providers <> [] /\ to <> 0
  /\ hasAlreadyMinted to s = false.
Proof.
  rewrite mintSocialProofPass_eq. unfold hasAlreadyMinted.
  destruct (_owner s =? msg_sender) eqn:Ho; simpl; [|discriminate].
  destruct providers as [|p ps]; simpl; [discriminate|].
  destruct (mread false (hasMinted s) to); [discriminate|].
  destruct (to =? 0) eqn:Hto; [discriminate|].
  destruct (mread 0 (_owners s) (_tokenIdCounter s) =? 0); simpl; [|discriminate].
  destruct (onERC721Received to (_tokenIdCounter s)); simpl; [|discriminate].
  intros [= <- <-].
  apply N.eqb_eq in Ho. apply N.eqb_neq in Hto. repeat split; auto.
Qed.


End RegistryFacts.

Lemma mintWithProofVerification_atomic_witness :
  let proof :=
    {| ReclaimTypes.claimInfo :=
         {| ReclaimTypes.provider := "http"; ReclaimTypes.parameters := "{}";
            ReclaimTypes.context := "{}" |};
       ReclaimTypes.signedClaim :=
         {| ReclaimTypes.claim :=
              {| ReclaimTypes.identifier := 0%N; ReclaimTypes.owner := 5%N;
                 ReclaimTypes.timestampS := 1700000000%N;
                 ReclaimTypes.epoch := 1%N |};
            ReclaimTypes.signatures := [] |} |} in
  exists reason,
    Evm.call (Registry.mintWithProofVerification Registry.PlainERC721
                (fun _ _ => Some "Number of signatures not equal to number of witnesses")
                (fun _ _ => true) (fun x => x) 5%N 100%N [proof] ["github"])
      (Registry.constructor 1%N 2%N)
    = (Registry.constructor 1%N 2%N, inl reason).
Proof.
  cbv zeta.
  apply (mintWithProofVerification_atomic Registry.PlainERC721
           (fun _ _ => Some "Number of signatures not equal to number of witnesses")
           (fun _ _ => true) (fun x => x) 5%N 100%N).
  right. right. right.
  eexists 0%nat, _, _. split; reflexivity.
Defined.

(** ** The registry with on-chain SVG metadata *)
Section SvgRegistryFacts.

Import Evm SvgRegistry.
Local Open Scope N_scope.

Variable onERC721Received : address -> N -> bool.
Variable renderTokenURI : N -> SocialProof -> string.




End SvgRegistryFacts.




(** ** The stored count *)
Section RegistryCount.

Import Evm Registry.
Local Open Scope N_scope.

Variable version : Version.
Variable Reclaim_verifyProof : address -> ReclaimTypes.Proof -> option string.
Variable onERC721Received : address -> N -> bool.
Variable Base64_encode : string -> string.

Lemma events_only (evs : list Event) (s : State) :
  let s' := fold_left (fun s e => add_event e s) evs s in
  socialProofs s' = socialProofs s
  /\ hasMinted s' = hasMinted s
  /\ _owners s' = _owners s
  /\ _owner s' = _owner s
  /\ _tokenIdCounter s' = _tokenIdCounter s
  /\ supportedProviders s' = supportedProviders s.
Proof.
  revert s. induction evs as [|e evs IH]; intros s; simpl; [tauto|].
  destruct (IH (add_event e s)) as (H1 & H2 & H3 & H4 & H5 & H6).
  simpl in *. rewrite H1, H2, H3, H4, H5, H6. tauto.
Qed.

Lemma mintWithProofVerification_Ok (msg_sender block_timestamp : N)
    (proofs : list ReclaimTypes.Proof) (providers : list string)
    (s s' : State) (tokenId : N) :
  mintWithProofVerification version Reclaim_verifyProof onERC721Received
    Base64_encode msg_sender block_timestamp proofs providers s
  = Ok tokenId s' ->
  exists evs,
    s' = after_mint version Base64_encode msg_sender block_timestamp providers
           (fold_left (fun s e => add_event e s) evs s).
Proof.
  unfold mintWithProofVerification. mstep.
  destruct (0 <? N.of_nat (length proofs)); [|discriminate].
  destruct (N.of_nat (length proofs) =? N.of_nat (length providers));
    [|discriminate].
  destruct (mread false (hasMinted s) msg_sender); simpl; [discriminate|].
  rewrite bind_unfold.
  destruct (verifyEach _ _ _ _ _ _ s) as [[] s1|] eqn:Hloop; [|discriminate].
  apply verifyEach_Ok in Hloop; [|apply current_total].
  destruct Hloop as [evs ->]. exists evs.
  revert H. unfold current, increment, recordMint, emit. mstep.
  rewrite (bind_unfold (_safeMint _ _ _)), _safeMint_eq. simpl.
  destruct (msg_sender =? 0) eqn:Hto; [discriminate|].
  destruct (mread 0 _ _ =? 0); simpl; [|discriminate].
  destruct (onERC721Received _ _); simpl; [|discriminate].
  mstep. erewrite bind_Ok.
  - mstep. unfold ret. now intros [= _ <-].
  - rewrite refreshTokenURI_eq; [reflexivity|].
    apply N.eqb_neq in Hto. unfold mread. simpl. now rewrite lookup_insert_eq.
Qed.

Lemma pushProviders_eq (tokenId : N) (newProviders : list string) (s : State) :
  pushProviders tokenId newProviders s = Ok tt (pushed tokenId newProviders s).
Proof.
  revert s. induction newProviders as [|p rest IH]; intros s; [reflexivity|].
  cbn [pushProviders]. mstep. rewrite IH. reflexivity.
Qed.

Lemma pushed_cons (tokenId : N) (p : string) (rest : list string) (s : State) :
  pushed tokenId (p :: rest) s =
  pushed tokenId rest
    (set_socialProofs (fun m =>
       <[tokenId := push p (mread SocialProof_zero m tokenId)]> m) s).
Proof. reflexivity. Qed.

Lemma pushed_owners (tokenId : N) (newProviders : list string) (s : State) :
  _owners (pushed tokenId newProviders s) = _owners s.
Proof.
  revert s. induction newProviders as [|p rest IH]; intros s; [reflexivity|].
  rewrite pushed_cons, IH. reflexivity.
Qed.

Lemma pushed_lookup (tokenId : N) (newProviders : list string) (s : State) :
  (forall other, other <> tokenId ->
     socialProofs (pushed tokenId newProviders s) !! other
     = socialProofs s !! other)
  /\ (let before := mread SocialProof_zero (socialProofs s) tokenId in
      let after := mread SocialProof_zero
                     (socialProofs (pushed tokenId newProviders s)) tokenId in
      holder after = holder before
      /\ verifiedProviders after = verifiedProviders before ++ newProviders
      /\ verificationCount after = verificationCount before
      /\ timestamp after = timestamp before
      /\ verified after = verified before).
Proof.
  revert s. induction newProviders as [|p rest IH]; intros s.
  - simpl. rewrite app_nil_r. tauto.
  - rewrite pushed_cons.
    set (s0 := set_socialProofs _ s).
    destruct (IH s0) as [Hother Hsame].
    assert (Hmid : mread SocialProof_zero (socialProofs s0) tokenId
                   = push p (mread SocialProof_zero (socialProofs s) tokenId)).
    { unfold s0, mread at 1. simpl. now rewrite lookup_insert_eq. }
    split.
    + intros other Hne. rewrite Hother by auto. unfold s0. simpl.
      now rewrite lookup_insert_ne.
    + cbv zeta in *. rewrite Hmid in Hsame. simpl in Hsame.
      destruct Hsame as (-> & -> & -> & -> & ->).
      rewrite <- app_assoc. simpl. tauto.
Qed.

Lemma addProvidersWithVerification_Ok (msg_sender block_timestamp tokenId : N)
    (newProofs : list ReclaimTypes.Proof) (newProviders : list string)
    (s s' : State) :
  addProvidersWithVerification version Reclaim_verifyProof Base64_encode
    msg_sender block_timestamp tokenId newProofs newProviders s = Ok tt s' ->
  exists evs,
    s' = after_append version Base64_encode tokenId block_timestamp newProviders
           (fold_left (fun s e => add_event e s) evs s).
Proof.
  unfold addProvidersWithVerification, _exists, ownerOf. mstep.
  destruct (mread 0 (_owners s) tokenId =? 0) eqn:Hex; simpl; [discriminate|].
  destruct (mread 0 (_owners s) tokenId =? msg_sender); [|discriminate].
  destruct (N.of_nat (length newProofs) =? N.of_nat (length newProviders));
    [|discriminate].
  rewrite bind_unfold.
  destruct (verifyEach _ _ _ _ _ _ s) as [[] s1|] eqn:Hloop; [|discriminate].
  apply verifyEach_Ok in Hloop; [|intros s0; now exists tokenId].
  destruct Hloop as [evs ->]. exists evs.
  revert H. rewrite bind_unfold, pushProviders_eq. unfold emit. mstep.
  erewrite bind_Ok.
  - mstep. unfold ret. now intros [= <-].
  - rewrite refreshTokenURI_eq; [reflexivity|].
    unfold recounted. simpl.
    rewrite pushed_owners.
    destruct (events_only evs s) as (_ & _ & -> & _).
    now apply N.eqb_neq.
Qed.

Lemma count_wrapped_constructor (deployer reclaim : N) :
  count_wrapped (constructor deployer reclaim)
  /\ count_is_length (constructor deployer reclaim).
Proof.
  split; intros tokenId proof; simpl; rewrite lookup_empty; discriminate.
Qed.

Lemma count_wrapped_events (evs : list Event) (s : State) :
  count_wrapped s ->
  count_wrapped (fold_left (fun s e => add_event e s) evs s).
Proof.
  unfold count_wrapped. destruct (events_only evs s) as (-> & _). auto.
Qed.

Lemma socialProofs_after_mint (to block_timestamp : N) (providers : list string)
    (s : State) :
  socialProofs (after_mint version Base64_encode to block_timestamp providers s)
  = <[_tokenIdCounter s :=
        {| holder := to; verifiedProviders := providers;
           verificationCount := uint8 (N.of_nat (length providers));
           timestamp := block_timestamp; verified := true |}]> (socialProofs s).
Proof. unfold after_mint, refreshed. destruct version; reflexivity. Qed.

Lemma count_wrapped_after_mint (to block_timestamp : N)
    (providers : list string) (s : State) :
  count_wrapped s ->
  count_wrapped (after_mint version Base64_encode to block_timestamp providers s).
Proof.
  intros Hs tokenId proof. rewrite socialProofs_after_mint.
  destruct (decide (_tokenIdCounter s = tokenId)) as [<-|Hne].
  - rewrite lookup_insert_eq. now intros [= <-].
  - rewrite lookup_insert_ne by auto. apply Hs.
Qed.

Lemma socialProofs_after_append (tokenId block_timestamp : N)
    (newProviders : list string) (s : State) :
  let before := mread SocialProof_zero (socialProofs s) tokenId in
  exists m,
    (forall other, other <> tokenId -> m !! other = socialProofs s !! other)
    /\ socialProofs
         (after_append version Base64_encode tokenId block_timestamp
            newProviders s)
       = <[tokenId :=
             {| holder := holder before;
                verifiedProviders := verifiedProviders before ++ newProviders;
                verificationCount :=
                  uint8 (N.of_nat (length (verifiedProviders before ++ newProviders)));
                timestamp := block_timestamp;
                verified := verified before |}]> m.
Proof.
  cbv zeta. exists (socialProofs (pushed tokenId newProviders s)).
  destruct (pushed_lookup tokenId newProviders s) as [Hother Hsame].
  cbv zeta in Hsame. destruct Hsame as (H1 & H2 & _ & _ & H5).
  split; [exact Hother|].
  unfold after_append, refreshed, recounted.
  destruct version; simpl; now rewrite H1, H2, H5.
Qed.

Lemma count_wrapped_after_append (tokenId block_timestamp : N)
    (newProviders : list string) (s : State) :
  count_wrapped s ->
  count_wrapped
    (after_append version Base64_encode tokenId block_timestamp newProviders s).
Proof.
  intros Hs other proof.
  destruct (socialProofs_after_append tokenId block_timestamp newProviders s)
    as (m & Hm & ->).
  destruct (decide (tokenId = other)) as [<-|Hne].
  - rewrite lookup_insert_eq. now intros [= <-].
  - rewrite lookup_insert_ne, Hm by auto. apply Hs.
Qed.

(** Every mint and every append keeps the stored count equal to the length
    of the stored list cut to eight bits. *)
Lemma count_wrapped_preserved (msg_sender block_timestamp : N) (s s' : State) :
  count_wrapped s ->
  (forall to providers proofData tokenId,
     mintSocialProofPass version onERC721Received Base64_encode msg_sender
       block_timestamp to providers proofData s = Ok tokenId s' ->
     count_wrapped s')
  /\ (forall proofs providers tokenId,
        mintWithProofVerification version Reclaim_verifyProof onERC721Received
          Base64_encode msg_sender block_timestamp proofs providers s
        = Ok tokenId s' ->
        count_wrapped s')
  /\ (forall tokenId newProofs newProviders,
        addProvidersWithVerification version Reclaim_verifyProof Base64_encode
          msg_sender block_timestamp tokenId newProofs newProviders s
        = Ok tt s' ->
        count_wrapped s').
Proof.
  intros Hs. repeat apply conj.
  - intros to providers proofData tokenId H.
    apply mintSocialProofPass_Ok in H. destruct H as (_ & -> & _).
    now apply count_wrapped_after_mint.
  - intros proofs providers tokenId H.
    apply mintWithProofVerification_Ok in H. destruct H as [evs ->].
    now apply count_wrapped_after_mint, count_wrapped_events.
  - intros tokenId newProofs newProviders H.
    apply addProvidersWithVerification_Ok in H. destruct H as [evs ->].
    now apply count_wrapped_after_append, count_wrapped_events.
Qed.

(** While every stored list has fewer than 256 entries the count is the
    length. *)
Lemma count_is_length_below_256 (s : State) :
  count_wrapped s ->
  (forall tokenId proof,
     socialProofs s !! tokenId = Some proof ->
     (length (verifiedProviders proof) < 256)%nat) ->
  count_is_length s.
Proof.
  intros Hs Hlen tokenId proof Hp.
  rewrite (Hs _ _ Hp). unfold uint8.
  apply N.mod_small. specialize (Hlen _ _ Hp). lia.
Qed.

End RegistryCount.

(** C2. The owner mints a pass with 256 providers on a freshly deployed
    registry, where the invariant holds: the mint succeeds and stores a
    list of 256 providers with [verificationCount] 0, so the count no longer
    equals the length. *)
Theorem verificationCount_wraps_at_256 (version : Registry.Version)
    (Base64_encode : string -> string) (block_timestamp : N) (proofData : string) :
  let providers := repeat "github" 256 in
  let r := Evm.call
             (Registry.mintSocialProofPass version (fun _ _ => true)
                Base64_encode 1%N block_timestamp 7%N providers proofData)
             (Registry.constructor 1%N 2%N) in
  Registry.count_is_length (Registry.constructor 1%N 2%N)
  /\ snd r = inr 0%N
  /\ (exists proof,
        Registry.socialProofs (fst r) !! 0%N = Some proof
        /\ length (Registry.verifiedProviders proof) = 256%nat
        /\ Registry.verificationCount proof = 0%N)
  /\ ~ Registry.count_is_length (fst r).
Proof.
  cbv zeta.
  assert (Hcall :
    Evm.call
      (Registry.mintSocialProofPass version (fun _ _ => true) Base64_encode
         1%N block_timestamp 7%N (repeat "github" 256) proofData)
      (Registry.constructor 1%N 2%N)
    = (Registry.after_mint version Base64_encode 7%N block_timestamp
         (repeat "github" 256) (Registry.constructor 1%N 2%N), inr 0%N)).
  { apply call_Ok. rewrite mintSocialProofPass_eq. reflexivity. }
  rewrite Hcall. simpl fst. simpl snd.
  assert (Hstored :
    Registry.socialProofs
      (Registry.after_mint version Base64_encode 7%N block_timestamp
         (repeat "github" 256) (Registry.constructor 1%N 2%N)) !! 0%N
    = Some {| Registry.holder := 7%N;
              Registry.verifiedProviders := repeat "github" 256;
              Registry.verificationCount := 0%N;
              Registry.timestamp := block_timestamp;
              Registry.verified := true |}).
  { rewrite socialProofs_after_mint. simpl. now rewrite lookup_insert_eq. }
  split; [apply count_wrapped_constructor|].
  split; [reflexivity|].
  split.
  - eexists. split; [exact Hstored|]. split; reflexivity.
  - intros Hinv. specialize (Hinv _ _ Hstored). discriminate.
Qed.

(** The append path cuts the count the same way: on the registry with
    on-chain SVG metadata, appending 255 providers to a pass minted with one
    leaves 256 stored providers and a stored count of 0. *)
Lemma svg_append_wraps_at_256 :
  let render := fun (_ : N) (_ : SvgRegistry.SocialProof) => "uri" in
  let s1 := fst (Evm.call
                   (SvgRegistry.mintSocialProofPass (fun _ _ => true) render
                      1%N 100%N 7%N ["github"] "0x12")
                   (SvgRegistry.constructor 1%N)) in
  let r := Evm.call
             (SvgRegistry.addVerifiedProviders render 1%N 200%N 0%N
                (repeat "gmail" 255) "0x34") s1 in
  snd r = inr tt
  /\ option_map
       (fun p => (length (SvgRegistry.verifiedProviders p),
                  SvgRegistry.verificationCount p))
       (SvgRegistry.socialProofs s1 !! 0%N) = Some (1%nat, 1%N)
  /\ option_map
       (fun p => (length (SvgRegistry.verifiedProviders p),
                  SvgRegistry.verificationCount p))
       (SvgRegistry.socialProofs (fst r) !! 0%N) = Some (256%nat, 0%N).
Proof. vm_compute. repeat split; reflexivity. Qed.

(** ** Reachable stores *)

(** The two handlers that write the session map keep it well formed, so
    the well-formedness the frame property asks for holds of every store
    the server reaches from its empty start. *)
Lemma handlers_keep_sessions_wf
    (env : string -> option string)
    (reclaimProofRequest :
       string -> string -> string -> string -> string + (string * string))
    (parseBody : string -> option JsVal) (verifyProof : JsVal -> option bool)
    (st : Store) :
  JsMap.wf (verificationSessions st) ->
  (forall provider_ address_ now_id now_created,
     JsMap.wf (verificationSessions
                 (snd (generateConfig env reclaimProofRequest provider_ address_
                         now_id now_created st))))
  /\ (forall p body now_key now_stored now_verified,
        JsMap.wf (verificationSessions
                    (snd (receiveProofs env parseBody verifyProof p body
                            now_key now_stored now_verified st)))).
Proof.
  intros Hwf. split.
  - intros provider_ address_ now_id now_created. unfold generateConfig.
    destruct provider_ as [p|]; [|exact Hwf].
    destruct (String.eqb p ""); [exact Hwf|].
    destruct (PROVIDERS env p) as [c| |]; try exact Hwf.
    destruct (not_configured (destructure (OwnEntry c))); [exact Hwf|].
    destruct (reclaimProofRequest _ _ _ _) as [|[u cfg]]; [exact Hwf|].
    simpl. now apply JsMap_wf_set.
  - intros p body now_key now_stored now_verified. unfold receiveProofs.
    destruct (PROVIDERS env p); try exact Hwf;
      (destruct (parseBody body) as [prf|]; [|exact Hwf];
       destruct (verifyProof prf) as [[|]|]; try exact Hwf;
       simpl; unfold update_session;
       destruct (first_pending p (verificationSessions st)) as [[id s]|];
       [now apply JsMap_wf_set|exact Hwf]).
Qed.

(** * More properties of the relay *)

Section RelayOutcomes.

Variable env : string -> option string.
Variable reclaimProofRequest :
  string -> string -> string -> string -> string + (string * string).
Variable parseBody : string -> option JsVal.
Variable verifyProof : JsVal -> option bool.

Lemma falsy_env_false (v : option string) :
  falsy_env v = false <-> exists s, v = Some s /\ s <> "".
Proof.
  destruct v as [s|]; simpl.
  - rewrite String.eqb_neq. split; [eauto|]. now intros (s' & [= <-] & Hne).
  - split; [discriminate|]. now intros (s' & H & _).
Qed.

Lemma not_configured_false (c : Credentials) :
  not_configured c = false <->
  usable (APP_ID c) /\ usable (APP_SECRET c) /\ usable (PROVIDER_ID c).
Proof.
  unfold not_configured, usable. rewrite !orb_false_iff, !falsy_env_false.
  split.
  - intros ((((([a [Ha Hane]] & [s [Hs Hsne]]) & [i [Hi Hine]]) & Hpa) & Hps) & Hpi).
    rewrite Ha, Hs, Hi in *. simpl in *.
    split; [|split]; eexists; (split; [reflexivity|]); auto.
  - intros ((a & Ha & Hane & Hpa) & (s & Hs & Hsne & Hps) & (i & Hi & Hine & Hpi)).
    rewrite Ha, Hs, Hi. simpl.
    repeat split; try assumption; eexists; (split; [reflexivity|assumption]).
Qed.

(** X1. The configuration request answers [Provider not configured] for one of
    the four providers exactly when one of its three credentials is unset,
    empty or holds the placeholder text, and then leaves the store as it
    was. *)
Theorem generateConfig_misconfigured_iff (p : string) (address_ : option string)
    (now_id now_created : Z) (st : Store) :
  In p configured_providers ->
  let c := destructure (PROVIDERS env p) in
  let r := generateConfig env reclaimProofRequest (Some p) address_
             now_id now_created st in
  (r = (RespError 500 "Provider not configured", st)
   <-> ~ (usable (APP_ID c) /\ usable (APP_SECRET c) /\ usable (PROVIDER_ID c)))
  /\ (fst r = RespError 500 "Provider not configured" -> snd r = st).
Proof.
  intros Hp. cbv zeta. rewrite <- not_configured_false.
  destruct (PROVIDERS_own env p Hp) as [c Hc].
  assert (Hne : String.eqb p "" = false).
  { apply String.eqb_neq. intros ->. simpl in Hp. intuition discriminate. }
  unfold generateConfig. rewrite Hne, Hc. simpl destructure.
  destruct (not_configured c) eqn:Hnc.
  - split; [|auto]. split; [congruence|reflexivity].
  - destruct (reclaimProofRequest _ _ _ _) as [|[u cfg]]; simpl;
      (split; [split; [discriminate|congruence]|discriminate]).
Qed.

(** X2. The callback answers 200 exactly when its provider is a property of
    the provider table, its body parses and the oracle accepts the parsed
    proof; in every other case it answers 400 or 500 and leaves both
    stores as they were. *)
Theorem receiveProofs_outcomes (p body : string)
    (now_key now_stored now_verified : Z) (st : Store) :
  let r := receiveProofs env parseBody verifyProof p body
             now_key now_stored now_verified st in
  (fst r = RespOk <->
   PROVIDERS env p <> Absent
   /\ exists prf, parseBody body = Some prf /\ verifyProof prf = Some true)
  /\ (fst r <> RespOk ->
      snd r = st
      /\ exists error,
           fst r = RespError 400 error \/ fst r = RespError 500 error).
Proof.
  cbv zeta. unfold receiveProofs.
  destruct (PROVIDERS env p) eqn:Hp;
    try (destruct (parseBody body) as [prf|] eqn:Hparse;
         [destruct (verifyProof prf) as [[|]|] eqn:Hver|]); simpl;
    (split; [split|]);
    try discriminate; try (intros _; split; eauto; fail);
    try (intros [_ (prf' & [= <-] & Hv)]; congruence);
    try (intros [_ (prf' & Hparse' & _)]; congruence);
    try (intros [H _]; congruence);
    try (intros _; split; [discriminate|eauto]; fail);
    try (intros H; exfalso; now apply H).
Qed.

End RelayOutcomes.

Lemma generateConfig_misconfigured_iff_witness :
  let env := fun name : string =>
    if String.eqb name "GITHUB_APP_ID" then Some "your_app_id" else Some "secret" in
  generateConfig env Scenario.sdk_ok (Some "github") (Some "0x1") 1000 1000
    Scenario.two_pending
  = (RespError 500 "Provider not configured", Scenario.two_pending).
Proof.
  cbv zeta.
  apply (generateConfig_misconfigured_iff
           (fun name : string =>
              if String.eqb name "GITHUB_APP_ID" then Some "your_app_id"
              else Some "secret")
           Scenario.sdk_ok "github" (Some "0x1") 1000 1000 Scenario.two_pending).
  - simpl. tauto.
  - intros ((s & Hs & _ & Hinc) & _). simpl in Hs. injection Hs as <-.
    discriminate.
Defined.

(** ** From the configuration request to the status query *)

Lemma JsMap_In_set {V : Type} (k k' : string) (v v' : V) (m : JsMap.t V) :
  In (k', v') (JsMap.set k v m) -> (k', v') = (k, v) \/ In (k', v') m.
Proof.
  induction m as [|[k0 v0] m IH]; simpl.
  - intros [H|[]]; auto.
  - destruct (String.eqb k k0); simpl; intros [H|H]; auto.
    destruct (IH H); auto.
Qed.

Lemma JsMap_set_In {V : Type} (k : string) (v : V) (m : JsMap.t V) :
  In (k, v) (JsMap.set k v m).
Proof.
  induction m as [|[k0 v0] m IH]; simpl; [auto|].
  destruct (String.eqb k k0); simpl; auto.
Qed.

Lemma JsMap_set_set {V : Type} (k : string) (v1 v2 : V) (m : JsMap.t V) :
  JsMap.set k v2 (JsMap.set k v1 m) = JsMap.set k v2 m.
Proof.
  induction m as [|[k0 v0] m IH]; simpl.
  - now rewrite String.eqb_refl.
  - destruct (String.eqb k k0) eqn:E; simpl.
    + now rewrite String.eqb_refl.
    + now rewrite E, IH.
Qed.

Lemma first_pending_set_new (p k : string) (v : Session) (m : JsMap.t Session) :
  Forall (fun e => ~ is_pending_for p (snd e)) m ->
  is_pending_for p v ->
  first_pending p (JsMap.set k v m) = Some (k, v).
Proof.
  intros Hm Hv. apply pending_test in Hv.
  induction m as [|[k0 v0] m IH]; simpl.
  - now rewrite Hv.
  - inversion Hm as [|? ? Hv0 Hm']; subst. simpl in Hv0.
    destruct (String.eqb k k0); simpl.
    + now rewrite Hv.
    + destruct (String.eqb (provider v0) p && Status_eqb (status v0) pending)
        eqn:E; [apply pending_test in E; contradiction|auto].
Qed.

(** The status query on a map where [s], stored under [id], is a session
    of the provider created after every other one. *)
Lemma latest_is_newest (p id : string) (s : Session) (m : JsMap.t Session) :
  provider s = p ->
  In (id, s) m ->
  (forall id' s', In (id', s') m -> provider s' = p ->
                  (id', s') = (id, s) \/ (createdAt s' < createdAt s)%Z) ->
  latest (Some p) m = Some (id, s).
Proof.
  intros Hp Hin Hnewest.
  pose proof (latest_step_spec (Some p) m None) as H. unfold latest.
  destruct (fold_left (latest_step (Some p)) m None) as [[id0 s0]|].
  - destruct H as ([?|[Hin0 Hp0]] & _ & Hall); [discriminate|].
    unfold for_provider in *. injection Hp0 as Hp0.
    destruct (Hnewest _ _ Hin0 Hp0) as [->|Hlt]; [reflexivity|].
    rewrite List.Forall_forall in Hall.
    specialize (Hall _ Hin). simpl in Hall. rewrite Hp in Hall.
    specialize (Hall eq_refl). lia.
  - destruct H as (_ & Hall). rewrite List.Forall_forall in Hall.
    specialize (Hall _ Hin). simpl in Hall. unfold for_provider in Hall.
    rewrite Hp in Hall. tauto.
Qed.

Section RelayFlow.

Variable env : string -> option string.
Variable reclaimProofRequest :
  string -> string -> string -> string -> string + (string * string).
Variable parseBody : string -> option JsVal.
Variable verifyProof : JsVal -> option bool.

Lemma generateConfig_Config (p : string) (address_ : option string)
    (now_id now_created : Z) (st st' : Store) (config url id p' : string) :
  generateConfig env reclaimProofRequest (Some p) address_ now_id now_created st
  = (RespConfig config url id p', st') ->
  id = p +:+ "-" +:+ pretty now_id
  /\ p' = p
  /\ PROVIDERS env p <> Absent
  /\ st' = {| verificationSessions :=
                JsMap.set id
                  {| provider := p; status := pending; address := address_;
                     createdAt := now_created; proofKey := None;
                     proof := None; verifiedAt := None |}
                  (verificationSessions st);
              verificationProofs := verificationProofs st |}.
Proof.
  unfold generateConfig.
  destruct (String.eqb p ""); [discriminate|].
  destruct (PROVIDERS env p) as [c| |]; try discriminate.
  destruct (not_configured (destructure (OwnEntry c))); [discriminate|].
  destruct (reclaimProofRequest _ _ _ _) as [|[u cfg]]; [discriminate|].
  intros [= <- <- <- <- <-]. repeat split; congruence.
Qed.

(** X3. After a successful configuration request whose session is created
    later than every session the provider already has, the status query
    for the provider answers [pending] with the identifier the request
    returned and no proof. *)
Theorem generateConfig_then_status (p : string) (address_ : option string)
    (now_id now_created : Z) (st st' : Store) (config url id p' : string) :
  generateConfig env reclaimProofRequest (Some p) address_ now_id now_created st
  = (RespConfig config url id p', st') ->
  Forall (fun e => provider (snd e) = p ->
                   (createdAt (snd e) < now_created)%Z) (verificationSessions st) ->
  verificationStatus (Some p) st' = RespStatus pending id JNull p.
Proof.
  intros Hgen Hold. apply generateConfig_Config in Hgen.
  destruct Hgen as (Hid & _ & _ & ->). unfold verificationStatus. simpl.
  rewrite (latest_is_newest p id
             {| provider := p; status := pending; address := address_;
                createdAt := now_created; proofKey := None; proof := None;
                verifiedAt := None |}); auto.
  - apply JsMap_set_In.
  - intros id' s' Hin Hp'. apply JsMap_In_set in Hin.
    destruct Hin as [Heq|Hin]; [auto|right].
    rewrite List.Forall_forall in Hold. exact (Hold _ Hin Hp').
Qed.

(** X4. The whole round: after a successful configuration request for a
    provider with no pending session, created later than the provider's
    other sessions, an accepted callback promotes that very session, and
    the status query then answers [verified] with the request's identifier
    and the proof the oracle accepted. *)
Theorem request_callback_status (p body : string) (address_ : option string)
    (prf : JsVal) (now_id now_created now_key now_stored now_verified : Z)
    (st st1 : Store) (config url id p' : string) :
  Forall (fun e => ~ is_pending_for p (snd e)) (verificationSessions st) ->
  Forall (fun e => provider (snd e) = p ->
                   (createdAt (snd e) < now_created)%Z) (verificationSessions st) ->
  generateConfig env reclaimProofRequest (Some p) address_ now_id now_created st
  = (RespConfig config url id p', st1) ->
  parseBody body = Some prf ->
  verifyProof prf = Some true ->
  let r := receiveProofs env parseBody verifyProof p body
             now_key now_stored now_verified st1 in
  fst r = RespOk
  /\ verificationStatus (Some p) (snd r) =
     RespStatus verified id (js_or prf JNull) p.
Proof.
  intros Hnone Hold Hgen Hparse Hver. cbv zeta.
  apply generateConfig_Config in Hgen.
  destruct Hgen as (Hid & _ & Hknown & ->).
  rewrite (receiveProofs_accepted env parseBody verifyProof p body prf) by auto.
  split; [reflexivity|]. unfold verificationStatus. simpl.
  set (new := {| provider := p; status := pending; address := address_;
                 createdAt := now_created; proofKey := None; proof := None;
                 verifiedAt := None |}).
  unfold update_session.
  rewrite (first_pending_set_new p id new) by (auto; now split).
  rewrite JsMap_set_set.
  rewrite (latest_is_newest p id
             (promote new (p +:+ "-" +:+ pretty now_key) prf now_verified));
    auto.
  - apply JsMap_set_In.
  - intros id' s' Hin Hp'. apply JsMap_In_set in Hin.
    destruct Hin as [Heq|Hin]; [auto|right].
    rewrite List.Forall_forall in Hold. exact (Hold _ Hin Hp').
Qed.

End RelayFlow.

Lemma generateConfig_then_status_witness :
  verificationStatus (Some "github")
    (snd (generateConfig Scenario.env_all Scenario.sdk_ok (Some "github")
            (Some "0x1") 5000 5001 Scenario.two_pending))
  = RespStatus pending "github-5000" JNull "github".
Proof.
  apply (generateConfig_then_status Scenario.env_all Scenario.sdk_ok "github"
           (Some "0x1") 5000 5001 Scenario.two_pending _
           "{}" "https://oracle.example/request" "github-5000" "github").
  - reflexivity.
  - constructor; [|constructor; [|constructor]]; simpl; intros _; lia.
Defined.

Lemma request_callback_status_witness :
  let st := {| verificationSessions :=
                 [ ("gmail-10", Scenario.pending_session "gmail" 10) ];
               verificationProofs := [] |} in
  let st1 := snd (generateConfig Scenario.env_all Scenario.sdk_ok
                    (Some "github") (Some "0x1") 5000 5001 st) in
  let r := receiveProofs Scenario.env_all (Scenario.parse_as Scenario.proofB)
             Scenario.accept "github" "body" 6000 6001 6002 st1 in
  fst r = RespOk
  /\ verificationStatus (Some "github") (snd r) =
     RespStatus verified "github-5000" Scenario.proofB "github".
Proof.
  cbv zeta.
  apply (request_callback_status Scenario.env_all Scenario.sdk_ok
           (Scenario.parse_as Scenario.proofB) Scenario.accept
           "github" "body" (Some "0x1") Scenario.proofB 5000 5001 6000 6001 6002
           {| verificationSessions :=
                [ ("gmail-10", Scenario.pending_session "gmail" 10) ];
              verificationProofs := [] |} _
           "{}" "https://oracle.example/request" "github-5000" "github").
  - constructor; [|constructor]. intros [H _]. discriminate.
  - constructor; [|constructor]. simpl. discriminate.
  - reflexivity.
  - reflexivity.
  - reflexivity.
Defined.

(** ** What the callback never does *)

Lemma JsMap_keys_set_superset {V : Type} (k k' : string) (v : V) (m : JsMap.t V) :
  In k' (JsMap.keys m) -> In k' (JsMap.keys (JsMap.set k v m)).
Proof.
  rewrite JsMap_keys_set. destruct (mem k (JsMap.keys m)); auto.
  intros H. apply in_or_app. auto.
Qed.

Lemma JsMap_length_set {V : Type} (k : string) (v : V) (m : JsMap.t V) :
  (length (JsMap.set k v m) <= S (length m))%nat.
Proof.
  induction m as [|[k0 v0] m IH]; simpl; [lia|].
  destruct (String.eqb k k0); simpl; lia.
Qed.

Lemma receiveProofs_store_cases
    (env : string -> option string)
    (parseBody : string -> option JsVal) (verifyProof : JsVal -> option bool)
    (p body : string) (now_key now_stored now_verified : Z) (st : Store) :
  let st' := snd (receiveProofs env parseBody verifyProof p body
                    now_key now_stored now_verified st) in
  st' = st
  \/ exists prf,
       st' = {| verificationSessions :=
                  update_session p (p +:+ "-" +:+ pretty now_key) prf
                    now_verified (verificationSessions st);
                verificationProofs :=
                  JsMap.set (p +:+ "-" +:+ pretty now_key)
                    {| sp_provider := p; sp_proof := prf;
                       sp_timestamp := now_stored; sp_status := verified |}
                    (verificationProofs st) |}.
Proof.
  cbv zeta. unfold receiveProofs.
  destruct (PROVIDERS env p); auto;
    (destruct (parseBody body) as [prf|]; auto;
     destruct (verifyProof prf) as [[|]|]; auto; right; now exists prf).
Qed.

(** X5. Whatever it answers, the callback neither adds nor removes a session:
    on a well-formed store the sessions keep their keys and their order,
    each one is left as it was or goes from [pending] to [verified] with
    its provider, address and creation time kept, and no key of the proof
    store is lost. *)
Theorem receiveProofs_sessions_monotone
    (env : string -> option string)
    (parseBody : string -> option JsVal) (verifyProof : JsVal -> option bool)
    (p body : string) (now_key now_stored now_verified : Z) (st : Store) :
  JsMap.wf (verificationSessions st) ->
  let st' := snd (receiveProofs env parseBody verifyProof p body
                    now_key now_stored now_verified st) in
  Forall2
    (fun e e' =>
       fst e' = fst e
       /\ (snd e' = snd e
           \/ (status (snd e) = pending /\ status (snd e') = verified
               /\ provider (snd e') = provider (snd e)
               /\ address (snd e') = address (snd e)
               /\ createdAt (snd e') = createdAt (snd e))))
    (verificationSessions st) (verificationSessions st')
  /\ (forall k, In k (JsMap.keys (verificationProofs st)) ->
                In k (JsMap.keys (verificationProofs st')))
  /\ (length (verificationProofs st') <= S (length (verificationProofs st)))%nat.
Proof.
  intros Hwf. cbv zeta.
  assert (Hsame : forall m : JsMap.t Session,
            Forall2 (fun e e' : string * Session =>
                       fst e' = fst e
                       /\ (snd e' = snd e
                           \/ (status (snd e) = pending
                               /\ status (snd e') = verified
                               /\ provider (snd e') = provider (snd e)
                               /\ address (snd e') = address (snd e)
                               /\ createdAt (snd e') = createdAt (snd e)))) m m).
  { induction m; constructor; auto. }
  destruct (receiveProofs_store_cases env parseBody verifyProof p body
              now_key now_stored now_verified st) as [->|[prf ->]].
  - split; [apply Hsame|]. split; [auto|lia].
  - simpl. split; [|split].
    + destruct (first_pending p (verificationSessions st)) as [[id s]|] eqn:Hfp.
      * destruct (update_session_promotes p (p +:+ "-" +:+ pretty now_key) prf
                    now_verified _ id s Hwf Hfp) as (pre & post & Hm & _ & ->).
        rewrite Hm. apply Forall2_app; [apply Hsame|].
        constructor; [|apply Hsame].
        split; [reflexivity|right].
        apply first_pending_Some in Hfp.
        destruct Hfp as (_ & _ & _ & _ & [_ Hst]).
        simpl. auto.
      * unfold update_session. rewrite Hfp. apply Hsame.
    + intros k. apply JsMap_keys_set_superset.
    + apply JsMap_length_set.
Qed.

Lemma receiveProofs_sessions_monotone_witness :
  let st' := snd (receiveProofs Scenario.env_all
                    (Scenario.parse_as Scenario.proofB) Scenario.accept
                    "github" "body" 3000 3001 3002 Scenario.two_pending) in
  JsMap.keys (verificationSessions st') = [ "github-1000"; "github-2000" ]
  /\ (length (verificationProofs st')
      <= S (length (verificationProofs Scenario.two_pending)))%nat.
Proof.
  cbv zeta. split; [reflexivity|].
  apply (receiveProofs_sessions_monotone Scenario.env_all
           (Scenario.parse_as Scenario.proofB) Scenario.accept
           "github" "body" 3000 3001 3002 Scenario.two_pending).
  unfold JsMap.wf. simpl. constructor; [|constructor; [|constructor]].
  - intros H. apply list_elem_of_In in H. simpl in H.
    destruct H as [H|[]]. discriminate.
  - intros H. apply list_elem_of_In in H. destruct H.
Defined.

(** ** Configuration reports *)

Lemma isConfigured_truthy (c : Credentials) :
  truthy (isConfigured c) = negb (not_configured c).
Proof.
  unfold isConfigured, not_configured.
  destruct (APP_ID c) as [a|]; simpl; [|reflexivity].
  destruct (String.eqb a "") eqn:Ea; simpl.
  { apply String.eqb_eq in Ea. now subst. }
  destruct (APP_SECRET c) as [s|]; simpl; [|reflexivity].
  destruct (String.eqb s "") eqn:Es; simpl.
  { apply String.eqb_eq in Es. now subst. }
  destruct (PROVIDER_ID c) as [i|]; simpl; [|reflexivity].
  destruct (String.eqb i "") eqn:Ei; simpl.
  { apply String.eqb_eq in Ei. now subst. }
  destruct (includes "your_" a); simpl; [reflexivity|].
  destruct (includes "your_" s); simpl; [reflexivity|].
  now destruct (includes "your_" i).
Qed.

Lemma configStatus_entry (env : string -> option string) (p : string) :
  In p configured_providers ->
  assoc p (cs_providers (configStatus env))
  = Some (providerStatus (destructure (PROVIDERS env p))).
Proof.
  simpl. intros [<-|[<-|[<-|[<-|[]]]]]; reflexivity.
Qed.

(** X6. [/config-status] and [/generate-config] agree: for each of the four
    providers, the reported [configured] value is falsy exactly when a
    configuration request for it is answered [Provider not configured]. *)
Theorem configStatus_predicts_generateConfig
    (env : string -> option string)
    (reclaimProofRequest :
       string -> string -> string -> string -> string + (string * string))
    (p : string) (address_ : option string) (now_id now_created : Z)
    (st : Store) :
  In p configured_providers ->
  exists report,
    assoc p (cs_providers (configStatus env)) = Some report
    /\ (truthy (configured report) = false <->
        generateConfig env reclaimProofRequest (Some p) address_
          now_id now_created st
        = (RespError 500 "Provider not configured", st)).
Proof.
  intros Hp. eexists. split; [now apply configStatus_entry|].
  simpl. rewrite isConfigured_truthy, negb_false_iff.
  destruct (PROVIDERS_own env p Hp) as [c Hc].
  assert (Hne : String.eqb p "" = false).
  { apply String.eqb_neq. intros ->. simpl in Hp. intuition discriminate. }
  unfold generateConfig. rewrite Hne, Hc. simpl destructure.
  destruct (not_configured c).
  - tauto.
  - destruct (reclaimProofRequest _ _ _ _) as [|[u cfg]];
      split; discriminate.
Qed.

Lemma configStatus_predicts_generateConfig_witness :
  exists report,
    assoc "gmail" (cs_providers (configStatus Scenario.env_all)) = Some report
    /\ (truthy (configured report) = false <->
        generateConfig Scenario.env_all Scenario.sdk_ok (Some "gmail")
          (Some "0x1") 1000 1000 Scenario.two_pending
        = (RespError 500 "Provider not configured", Scenario.two_pending)).
Proof.
  apply (configStatus_predicts_generateConfig Scenario.env_all Scenario.sdk_ok
           "gmail" (Some "0x1") 1000 1000 Scenario.two_pending).
  simpl. tauto.
Defined.

(** X7. When [/config-status] reports [hasAnyConfigured] false, no
    configuration request succeeds, whatever its provider: each is
    answered with an error and creates no session. *)
Theorem no_provider_configured_no_session
    (env : string -> option string)
    (reclaimProofRequest :
       string -> string -> string -> string -> string + (string * string))
    (provider_ address_ : option string) (now_id now_created : Z) (st : Store) :
  hasAnyConfigured (configStatus env) = false ->
  exists code error,
    generateConfig env reclaimProofRequest provider_ address_
      now_id now_created st
    = (RespError code error, st).
Proof.
  intros Hnone. unfold generateConfig.
  destruct provider_ as [p|]; [|eauto].
  destruct (String.eqb p ""); [eauto|].
  destruct (PROVIDERS env p) as [c| |] eqn:Hp; [|simpl; eauto|eauto].
  assert (Hin : In p configured_providers).
  { destruct (in_dec string_dec p configured_providers) as [|Hnot]; auto.
    destruct (PROVIDERS_not_own env p Hnot); congruence. }
  assert (Hc : not_configured c = true).
  { unfold configStatus in Hnone. cbn [hasAnyConfigured] in Hnone.
    rewrite <- negb_false_iff, <- isConfigured_truthy.
    destruct (truthy (isConfigured c)) eqn:Ht; [|reflexivity].
    rewrite <- Hnone. symmetry. apply existsb_exists.
    exists (p, providerStatus (destructure (PROVIDERS env p))).
    split.
    - apply in_map_iff. eauto.
    - simpl. now rewrite Hp. }
  simpl destructure. rewrite Hc. eauto.
Qed.

Lemma no_provider_configured_no_session_witness :
  exists code error,
    generateConfig (fun _ => None) Scenario.sdk_ok (Some "github") (Some "0x1")
      1000 1000 Scenario.two_pending
    = (RespError code error, Scenario.two_pending).
Proof.
  apply (no_provider_configured_no_session (fun _ => None) Scenario.sdk_ok
           (Some "github") (Some "0x1") 1000 1000 Scenario.two_pending).
  reflexivity.
Defined.

(** X8. [/health] counts a provider as configured as soon as its three
    credentials are non-empty: it lists every provider [/config-status]
    reports configured, and also a provider whose credentials hold the
    placeholder text, which [/generate-config] refuses. *)
Theorem health_overstates_configuration
    (env : string -> option string)
    (reclaimProofRequest :
       string -> string -> string -> string -> string + (string * string))
    (p : string) (now : Z) (st : Store) :
  In p configured_providers ->
  let c := destructure (PROVIDERS env p) in
  (truthy (isConfigured c) = true ->
   In p (configuredProviders (health env now st)))
  /\ (has_credentials c = true ->
      has_placeholder (APP_ID c) || has_placeholder (APP_SECRET c)
      || has_placeholder (PROVIDER_ID c) = true ->
      In p (configuredProviders (health env now st))
      /\ forall address_ now_id now_created,
           generateConfig env reclaimProofRequest (Some p) address_
             now_id now_created st
           = (RespError 500 "Provider not configured", st)).
Proof.
  intros Hp. cbv zeta.
  assert (Hlisted : has_credentials (destructure (PROVIDERS env p)) = true ->
                    In p (configuredProviders (health env now st))).
  { intros Hc. unfold health. cbn [configuredProviders].
    apply filter_In. auto. }
  split.
  - intros Ht. apply Hlisted. rewrite isConfigured_truthy in Ht.
    apply negb_true_iff in Ht. unfold not_configured in Ht.
    rewrite !orb_false_iff in Ht. unfold has_credentials.
    destruct Ht as (((((-> & ->) & ->) & _) & _) & _). reflexivity.
  - intros Hc Hph. split; [auto|].
    intros address_ now_id now_created.
    destruct (PROVIDERS_own env p Hp) as [c Hpc].
    assert (Hne : String.eqb p "" = false).
    { apply String.eqb_neq. intros ->. simpl in Hp. intuition discriminate. }
    unfold generateConfig. rewrite Hne, Hpc in *. simpl destructure in *.
    assert (Hnc : not_configured c = true).
    { unfold not_configured. rewrite !orb_true_iff in *. tauto. }
    now rewrite Hnc.
Qed.

Lemma health_overstates_configuration_witness :
  let env := fun name : string =>
    if String.eqb name "GITHUB_APP_ID" then Some "your_app_id" else Some "secret" in
  In "github" (configuredProviders (health env 0 Scenario.two_pending))
  /\ forall address_ now_id now_created,
       generateConfig env Scenario.sdk_ok (Some "github") address_
         now_id now_created Scenario.two_pending
       = (RespError 500 "Provider not configured", Scenario.two_pending).
Proof.
  cbv zeta.
  apply (health_overstates_configuration
           (fun name : string =>
              if String.eqb name "GITHUB_APP_ID" then Some "your_app_id"
              else Some "secret")
           Scenario.sdk_ok "github" 0 Scenario.two_pending).
  - simpl. tauto.
  - reflexivity.
  - reflexivity.
Defined.

(** ** The off-chain mint route *)

Section MintRoute.

Variable env : string -> option string.
Variable Log : Type.
Variable parseLog : Log -> ParsedLog.
Variable sendMint : JsVal -> JsVal -> JsVal -> string + Receipt Log.

Lemma find_first {A : Type} (f : A -> bool) (pre post : list A) (x : A) :
  Forall (fun y => f y = false) pre -> f x = true ->
  List.find f (pre ++ x :: post) = Some x.
Proof.
  induction pre as [|y pre IH]; simpl; intros Hpre Hx.
  - now rewrite Hx.
  - inversion Hpre as [|? ? Hy Hpre']; subst. rewrite Hy. auto.
Qed.

Lemma find_none {A : Type} (f : A -> bool) (l : list A) :
  Forall (fun y => f y = false) l -> List.find f l = None.
Proof.
  induction l as [|y l IH]; simpl; intros Hl; [reflexivity|].
  inversion Hl as [|? ? Hy Hl']; subst. rewrite Hy. auto.
Qed.

(** X9. A request with a wallet, proofs and a non-empty array of providers,
    on a configured server, whose transaction goes through, is answered as
    a success whatever the receipt holds: the token id is that of the first
    log that parses as [SocialProofPassMinted], and [unknown] when no log
    does. *)
Theorem mintSocialProofNft_tokenId
    (walletAddress proofs_ mode : JsVal) (providers : list JsVal) (now : Z)
    (receipt : Receipt Log) :
  truthy walletAddress = true ->
  truthy proofs_ = true ->
  providers <> [] ->
  falsy_env (env "DEPLOYER_PRIVATE_KEY") = false ->
  falsy_env (env "NFT_CONTRACT_ADDRESS") = false ->
  sendMint walletAddress (JArr providers)
    (proofData now mode (JArr providers) proofs_) = inr receipt ->
  exists tokenId,
    mintSocialProofNft env Log parseLog sendMint walletAddress proofs_
      (JArr providers) mode now
    = MintSuccess (hash receipt) tokenId (JArr providers) (blockNumber receipt)
    /\ (Forall (fun log => is_mint_event Log parseLog log = false) (logs receipt) ->
        tokenId = "unknown")
    /\ (forall pre log post n,
          logs receipt = pre ++ log :: post ->
          Forall (fun log => is_mint_event Log parseLog log = false) pre ->
          parseLog log = Parsed "SocialProofPassMinted" (Some n) ->
          tokenId = pretty n).
Proof.
  intros Hw Hp Hne Hkey Haddr Hsend.
  exists (extractTokenId Log parseLog receipt). split; [|split].
  - unfold mintSocialProofNft. rewrite Hw, Hp, Hkey, Haddr, Hsend. simpl.
    destruct providers; [contradiction|reflexivity].
  - intros Hnone. unfold extractTokenId. now rewrite find_none.
  - intros pre log post n Hlogs Hpre Hlog. unfold extractTokenId.
    rewrite Hlogs, (find_first _ pre post log); auto.
    + now rewrite Hlog.
    + unfold is_mint_event. now rewrite Hlog.
Qed.

Lemma JsMap_set_new {V : Type} (k : string) (v : V) (m : JsMap.t V) :
  ~ In k (JsMap.keys m) -> JsMap.set k v m = m ++ [(k, v)].
Proof.
  induction m as [|[k0 v0] m IH]; simpl; intros Hk; [reflexivity|].
  destruct (String.eqb_spec k k0) as [->|Hne]; [destruct Hk; now left|].
  rewrite IH; [reflexivity|]. intros H. apply Hk. now right.
Qed.

Lemma packProof_Some (key : string) (prf : JsVal) :
  packProof (key, prf)
  = if truthy prf && truthy (default JUndefined (js_field prf "claimData"))
    then Some (key, JObj [ ("claimData",
                            default JUndefined (js_field prf "claimData"));
                           ("signatures",
                            default JUndefined (js_field prf "signatures")) ])
    else None.
Proof.
  unfold packProof. destruct (truthy prf) eqn:Ht; [|reflexivity].
  destruct (js_field prf "claimData") as [claimData|]; simpl; [|reflexivity].
  destruct (truthy claimData); reflexivity.
Qed.

Lemma packProofs_from (entries acc : list (string * JsVal)) :
  NoDup (map fst entries) ->
  (forall k, In k (map fst entries) -> ~ In k (map fst acc)) ->
  exists tail,
    fold_left packStep entries acc = acc ++ tail
    /\ map fst tail
       = map fst (List.filter
                    (fun e => negb (String.eqb (fst e) "__proto__")
                              && truthy (snd e)
                              && truthy (default JUndefined
                                           (js_field (snd e) "claimData")))
                    entries)
    /\ Forall (fun packed =>
                 exists claimData signatures_,
                   snd packed = JObj [ ("claimData", claimData);
                                       ("signatures", signatures_) ]
                   /\ truthy claimData = true) tail.
Proof.
  revert acc. induction entries as [|[key prf] entries IH]; intros acc Hnd Hacc.
  - exists []. simpl. rewrite app_nil_r. auto.
  - inversion Hnd as [|? ? Hkey Hnd']; subst.
    cbn [fold_left List.filter fst snd]. unfold packStep at 2.
    rewrite packProof_Some.
    destruct (truthy prf && truthy (default JUndefined (js_field prf "claimData")))
      eqn:Hkeep.
    2:{ rewrite <- andb_assoc, Hkeep, andb_false_r.
        apply IH; [auto|]. intros k Hk. apply Hacc. now right. }
    unfold assign_property.
    destruct (String.eqb key "__proto__") eqn:Hproto.
    { rewrite <- andb_assoc, Hkeep. simpl.
      apply IH; [auto|]. intros k Hk. apply Hacc. now right. }
    rewrite <- andb_assoc, Hkeep. simpl.
    rewrite JsMap_set_new by (apply Hacc; now left).
    destruct (IH (acc ++ [(key, JObj [ ("claimData",
                                        default JUndefined (js_field prf "claimData"));
                                       ("signatures",
                                        default JUndefined (js_field prf "signatures")) ])])
                Hnd') as (tail & Hfold & Hkeys & Hshape).
    { intros k Hk. rewrite map_app, in_app_iff. simpl.
      intros [H|[H|[]]].
      - apply (Hacc k); [now right|auto].
      - subst. apply Hkey. now apply list_elem_of_In. }
    eexists. split; [rewrite Hfold, <- app_assoc; reflexivity|].
    split; [simpl; now rewrite Hkeys|].
    constructor; [|exact Hshape]. simpl.
    apply andb_true_iff in Hkeep. destruct Hkeep. eauto.
Qed.

(** X10. The packing of the proofs keeps, in order, exactly the keys other
    than [__proto__] whose proof is truthy with a truthy [claimData], each
    with an object of two properties; a [null] or malformed proof is
    dropped, never an error, and so is a proof under the key [__proto__],
    which the assignment turns into the prototype of the result. *)
Theorem packProofs_keeps_claims (entries : list (string * JsVal)) :
  NoDup (map fst entries) ->
  map fst (packProofs entries)
  = map fst (List.filter
               (fun e => negb (String.eqb (fst e) "__proto__")
                         && truthy (snd e)
                         && truthy (default JUndefined
                                      (js_field (snd e) "claimData")))
               entries)
  /\ Forall (fun packed =>
               exists claimData signatures_,
                 snd packed = JObj [ ("claimData", claimData);
                                     ("signatures", signatures_) ]
                 /\ truthy claimData = true)
       (packProofs entries).
Proof.
  intros Hnd. unfold packProofs.
  destruct (packProofs_from entries [] Hnd) as (tail & -> & Hkeys & Hshape).
  - intros k _ [].
  - simpl. auto.
Qed.

End MintRoute.

Lemma mintSocialProofNft_tokenId_witness :
  let env := Scenario.env_all in
  let receipt := mkReceipt "0xhash" 12 [Some 7%Z] in
  let parse := fun log : option Z =>
    match log with
    | Some n => Parsed "SocialProofPassMinted" (Some n)
    | None => ParseNull
    end in
  exists tokenId,
    mintSocialProofNft env (option Z) parse (fun _ _ _ => inr receipt)
      (JStr "0x1") (JObj []) (JArr [JStr "github"]) JUndefined 5
    = MintSuccess "0xhash" tokenId (JArr [JStr "github"]) 12
    /\ tokenId = "7".
Proof.
  cbv zeta.
  destruct (mintSocialProofNft_tokenId Scenario.env_all (option Z)
              (fun log : option Z =>
                 match log with
                 | Some n => Parsed "SocialProofPassMinted" (Some n)
                 | None => ParseNull
                 end)
              (fun _ _ _ => inr (mkReceipt "0xhash" 12 [Some 7%Z]))
              (JStr "0x1") (JObj []) JUndefined [JStr "github"] 5
              (mkReceipt "0xhash" 12 [Some 7%Z])
              eq_refl eq_refl ltac:(discriminate) eq_refl eq_refl eq_refl)
    as (tokenId & Hanswer & _ & Hfirst).
  exists tokenId. split; [exact Hanswer|].
  apply (Hfirst [] (Some 7%Z) [] 7%Z); [reflexivity|constructor|reflexivity].
Defined.

Lemma packProofs_keeps_claims_witness :
  let claimed := JObj [ ("claimData", JStr "c"); ("signatures", JArr []) ] in
  map fst (packProofs [ ("github", claimed); ("__proto__", claimed);
                        ("gmail", JNull) ])
  = [ "github" ].
Proof.
  cbv zeta.
  apply (packProofs_keeps_claims
           [ ("github", JObj [ ("claimData", JStr "c"); ("signatures", JArr []) ]);
             ("__proto__", JObj [ ("claimData", JStr "c"); ("signatures", JArr []) ]);
             ("gmail", JNull) ]).
  simpl. constructor; [|constructor; [|constructor; [|constructor]]].
  - intros H. apply list_elem_of_In in H. simpl in H.
    destruct H as [H|[H|[]]]; discriminate.
  - intros H. apply list_elem_of_In in H. simpl in H.
    destruct H as [H|[]]. discriminate.
  - intros H. apply list_elem_of_In in H. destruct H.
Defined.

(** ** The wizard and the on-chain route *)

Lemma statusBody_no_reclaimProof (q : option string) (st : Store) :
  js_field (statusBody (verificationStatus q st)) "reclaimProof"
  = Some JUndefined.
Proof.
  unfold verificationStatus.
  destruct (latest q (verificationSessions st)) as [[id s]|]; reflexivity.
Qed.

Lemma pollTick_keeps_reclaimProofs (providerId : string) (statusData : JsVal)
    (s : Wizard.State) :
  js_field statusData "reclaimProof" = Some JUndefined ->
  Wizard.reclaimProofs (fst (Wizard.pollTick providerId statusData s))
  = Wizard.reclaimProofs s.
Proof.
  intros Hfield. unfold Wizard.pollTick. rewrite Hfield.
  destruct (js_field statusData "status") as [v|]; [|reflexivity].
  destruct v as [| | | |text| |]; try reflexivity.
  repeat (let c := fresh "c" in
          destruct text as [|c text]; try reflexivity;
          destruct c as [[|] [|] [|] [|] [|] [|] [|] [|]]; try reflexivity).
Qed.

(** X11. The answer of [/verification-status] has no [reclaimProof] property,
    so no sequence of polling ticks on such answers ever adds a proof to
    the wizard's [reclaimProofs].  With [reclaimProofs] still empty, the
    on-chain mint posts an empty object, [/prepare-onchain-mint] answers
    with an error or with no transformed proof at all, and
    [mintWithProofVerification] called with no proof reverts with
    [At least one proof required]. *)
Theorem onchain_route_never_mints
    (env : string -> option string) (getNetworkChainId : option Z)
    (clock : nat -> Z)
    (version : Registry.Version)
    (Reclaim_verifyProof : Evm.address -> ReclaimTypes.Proof -> option string)
    (onERC721Received : Evm.address -> N -> bool)
    (Base64_encode : string -> string) :
  (forall (ticks : list (string * option string * Store)) (s : Wizard.State),
     Wizard.reclaimProofs
       (fold_left
          (fun s tick =>
             fst (Wizard.pollTick (fst (fst tick))
                    (statusBody (verificationStatus (snd (fst tick)) (snd tick)))
                    s))
          ticks s)
     = Wizard.reclaimProofs s)
  /\ (forall (s : Wizard.State) walletAddress reclaimProofs_ providers,
        Wizard.reclaimProofs s = [] ->
        Wizard.mintNFT true s
        = Wizard.PostOnchain walletAddress reclaimProofs_ providers ->
        reclaimProofs_ = JObj []
        /\ ((exists code error,
               prepareOnchainMint env getNetworkChainId walletAddress
                 reclaimProofs_ providers clock = RespError code error)
            \/ (exists contractAddress chainId,
                  prepareOnchainMint env getNetworkChainId walletAddress
                    reclaimProofs_ providers clock
                  = RespPayload [] contractAddress providers chainId)))
  /\ (forall msg_sender block_timestamp providers (c : Registry.State),
        Evm.call
          (Registry.mintWithProofVerification version Reclaim_verifyProof
             onERC721Received Base64_encode msg_sender block_timestamp
             [] providers) c
        = (c, inl "At least one proof required")).
Proof.
  split; [|split].
  - induction ticks as [|[[providerId q] st] ticks IH]; intros s;
      [reflexivity|].
    cbn [fold_left fst snd]. rewrite IH.
    apply pollTick_keeps_reclaimProofs, statusBody_no_reclaimProof.
  - intros s walletAddress reclaimProofs_ providers Hempty.
    unfold Wizard.mintNFT.
    destruct (String.eqb (Wizard.walletAddress s) ""); [discriminate|].
    destruct (Nat.eqb _ 0); [discriminate|].
    rewrite Hempty. intros [= <- <- <-].
    split; [reflexivity|].
    unfold prepareOnchainMint.
    destruct (negb _ || negb _ || negb _); [eauto|].
    cbn. destruct getNetworkChainId; eauto.
  - intros. reflexivity.
Qed.

(** X12. [toggleProvider] adds the provider when it is not selected and removes
    it when it is, leaves every other provider as it was, keeps a
    selection free of duplicates, and two toggles of a provider that was
    not selected give the selection back. *)
Theorem toggleProvider_spec (providerId : string) (prev : list string) :
  (In providerId (Wizard.toggleProvider providerId prev)
   <-> ~ In providerId prev)
  /\ (forall other, other <> providerId ->
        (In other (Wizard.toggleProvider providerId prev) <-> In other prev))
  /\ (NoDup prev -> NoDup (Wizard.toggleProvider providerId prev))
  /\ (~ In providerId prev ->
      Wizard.toggleProvider providerId
        (Wizard.toggleProvider providerId prev) = prev).
Proof.
  unfold Wizard.toggleProvider at 1 2 3.
  destruct (mem providerId prev) eqn:Hmem.
  - assert (Hin : In providerId prev) by now apply mem_In.
    split; [|split; [|split]].
    + split.
      * intros H. apply filter_In in H. destruct H as [_ H].
        rewrite String.eqb_refl in H. discriminate.
      * tauto.
    + intros other Hne. rewrite filter_In.
      split; [tauto|]. intros H. split; [auto|].
      now apply negb_true_iff, String.eqb_neq.
    + intros Hnd. apply NoDup_ListNoDup. apply NoDup_ListNoDup in Hnd.
      now apply List.NoDup_filter.
    + tauto.
  - assert (Hnot : ~ In providerId prev).
    { intros H. apply mem_In in H. congruence. }
    split; [|split; [|split]].
    + split; [auto|]. intros _. apply in_or_app. right. now left.
    + intros other Hne. rewrite in_app_iff. simpl.
      split; [|auto]. intros [H|[H|[]]]; [auto|congruence].
    + intros Hnd. apply NoDup_ListNoDup. apply NoDup_ListNoDup in Hnd.
      apply List.NoDup_app; auto.
      * constructor; [intros []|constructor].
      * intros x Hx [<-|[]]. contradiction.
    + intros _. unfold Wizard.toggleProvider. rewrite Hmem.
      assert (Hmem' : mem providerId (prev ++ [providerId]) = true).
      { apply mem_In, in_or_app. right. now left. }
      rewrite Hmem', List.filter_app. simpl.
      rewrite String.eqb_refl. simpl. rewrite app_nil_r.
      clear Hmem Hmem'. induction prev as [|x prev IH]; [reflexivity|].
      simpl in *. destruct (String.eqb x providerId) eqn:E.
      * apply String.eqb_eq in E. tauto.
      * simpl. f_equal. apply IH. tauto.
Qed.

(** * More properties of the contracts *)

(** ** Minting with oracle verification *)
Section RegistryMint.

Import Evm Registry.
Local Open Scope N_scope.

Variable version : Version.
Variable Reclaim_verifyProof : address -> ReclaimTypes.Proof -> option string.
Variable onERC721Received : address -> N -> bool.
Variable Base64_encode : string -> string.

Lemma add_events_fields (evs : list Event) (s : State) :
  _owner (add_events evs s) = _owner s
  /\ _owners (add_events evs s) = _owners s
  /\ _balances (add_events evs s) = _balances s
  /\ _tokenURIs (add_events evs s) = _tokenURIs s
  /\ _tokenIdCounter (add_events evs s) = _tokenIdCounter s
  /\ reclaimAddress (add_events evs s) = reclaimAddress s
  /\ socialProofs (add_events evs s) = socialProofs s
  /\ holderTokens (add_events evs s) = holderTokens s
  /\ hasMinted (add_events evs s) = hasMinted s
  /\ supportedProviders (add_events evs s) = supportedProviders s
  /\ events (add_events evs s) = (events s ++ evs)%list.
Proof.
  revert s. induction evs as [|e evs IH]; intros s; simpl.
  - rewrite app_nil_r. tauto.
  - destruct (IH (add_event e s))
      as (H1 & H2 & H3 & H4 & H5 & H6 & H7 & H8 & H9 & H10 & H11).
    unfold add_events in *. simpl in *.
    rewrite H1, H2, H3, H4, H5, H6, H7, H8, H9, H10, H11, <- app_assoc.
    simpl. tauto.
Qed.

(** The loop runs to its end exactly when every provider is supported and
    every proof accepted; it then has emitted one event per proof, in
    order, and changed nothing else. *)
Lemma verifyEach_good (msg_sender block_timestamp : N) (tokenId : M State N)
    (f : State -> N) :
  (forall s, tokenId s = Ok (f s) s) ->
  (forall e s, f (add_event e s) = f s) ->
  forall (proofs : list ReclaimTypes.Proof) (providers : list string) (s : State),
    length proofs = length providers ->
    (all_supported s providers /\ all_accepted Reclaim_verifyProof s proofs
     <-> exists s', verifyEach Reclaim_verifyProof msg_sender block_timestamp
                      tokenId proofs providers s = Ok tt s')
    /\ (forall s',
          verifyEach Reclaim_verifyProof msg_sender block_timestamp tokenId
            proofs providers s = Ok tt s' ->
          s' = add_events
                 (verified_events msg_sender (f s) block_timestamp providers) s).
Proof.
  intros Htid Hf. unfold all_supported, all_accepted.
  induction proofs as [|proof proofs IH];
    intros [|provider providers] s Hlen; try discriminate.
  - cbn [verifyEach]. split.
    + split; [eauto|]. intros _. split; constructor.
    + now intros s' [= <-].
  - cbn [verifyEach]. unfold _verifyReclaimProof, emit. mstep.
    destruct (mread false (supportedProviders s) provider) eqn:Hsup.
    2:{ split.
        - split; [|intros [s' H]; discriminate].
          intros [H _]. inversion H; congruence.
        - discriminate. }
    destruct (Reclaim_verifyProof (reclaimAddress s) proof) as [r|] eqn:Hver;
      mstep.
    { split.
      - split; [|intros [s' H]; discriminate].
        intros [_ H]. inversion H; congruence.
      - discriminate. }
    rewrite (bind_Ok _ _ _ _ _ (Htid s)). mstep.
    injection Hlen as Hlen.
    destruct (IH providers
                (add_event
                   (ProofVerifiedOnChain msg_sender (f s) provider block_timestamp)
                   s) Hlen) as [Hiff Hstate].
    simpl in Hiff. rewrite Hf in Hstate. split.
    + rewrite <- Hiff. split.
      * intros [H1 H2]. inversion H1; inversion H2; subst. auto.
      * intros [H1 H2]. split; constructor; auto.
    + intros s' H. rewrite (Hstate s' H). reflexivity.
Qed.

Lemma mintWithProofVerification_call_iff
    (msg_sender block_timestamp : N) (proofs : list ReclaimTypes.Proof)
    (providers : list string) (s s' : State) (tokenId : N) :
  mread 0 (_owners s) (_tokenIdCounter s) = 0 ->
  (call (mintWithProofVerification version Reclaim_verifyProof onERC721Received
           Base64_encode msg_sender block_timestamp proofs providers) s
   = (s', inr tokenId)
   <-> proofs <> []
       /\ length proofs = length providers
       /\ hasAlreadyMinted msg_sender s = false
       /\ msg_sender <> 0
       /\ all_supported s providers
       /\ all_accepted Reclaim_verifyProof s proofs
       /\ onERC721Received msg_sender (_tokenIdCounter s) = true
       /\ tokenId = _tokenIdCounter s
       /\ s' = after_mint version Base64_encode msg_sender block_timestamp
                 providers
                 (add_events
                    (verified_events msg_sender (_tokenIdCounter s)
                       block_timestamp providers) s)).
Proof.
  intros Hfresh. rewrite <- call_Ok.
  unfold mintWithProofVerification, hasAlreadyMinted. mstep.
  destruct proofs as [|proof0 proofs0] eqn:Hproofs.
  { simpl. split; [discriminate|]. intros [H _]. congruence. }
  rewrite <- Hproofs in *.
  assert (Hpos : (0 <? N.of_nat (length proofs)) = true).
  { subst proofs. simpl. apply N.ltb_lt. lia. }
  rewrite Hpos.
  destruct (N.of_nat (length proofs) =? N.of_nat (length providers)) eqn:Hlen.
  2:{ apply N.eqb_neq in Hlen. split; [discriminate|].
      intros (_ & Hl & _). rewrite Hl in Hlen. congruence. }
  apply N.eqb_eq, Nat2N.inj in Hlen.
  destruct (mread false (hasMinted s) msg_sender) eqn:Hm; simpl.
  { split; [discriminate|]. intros (_ & _ & H & _). discriminate. }
  destruct (verifyEach_good msg_sender block_timestamp current _tokenIdCounter
              (fun s => eq_refl) (fun e s => eq_refl) proofs providers s Hlen)
    as [Hiff Hstate].
  rewrite bind_unfold.
  destruct (verifyEach _ _ _ _ _ _ s) as [[] s1|r] eqn:Hloop.
  2:{ split; [discriminate|].
      intros (_ & _ & _ & _ & Hs & Ha & _).
      destruct (proj1 Hiff (conj Hs Ha)) as [s2 H]. discriminate. }
  rewrite (Hstate s1 eq_refl).
  assert (Hgood : all_supported s providers /\ all_accepted Reclaim_verifyProof s proofs)
    by (apply Hiff; eauto).
  set (s2 := add_events _ s).
  destruct (add_events_fields
              (verified_events msg_sender (_tokenIdCounter s) block_timestamp
                 providers) s)
    as (_ & Howners & _ & _ & Hcounter & _).
  fold s2 in Howners, Hcounter.
  unfold current, increment, recordMint, emit. mstep.
  rewrite (bind_unfold (_safeMint _ _ _)), _safeMint_eq. simpl.
  rewrite Howners, Hcounter, Hfresh. simpl.
  destruct (msg_sender =? 0) eqn:Hto.
  { apply N.eqb_eq in Hto. split; [discriminate|].
    intros (_ & _ & _ & H & _). contradiction. }
  apply N.eqb_neq in Hto.
  destruct (onERC721Received msg_sender (_tokenIdCounter s)) eqn:Hrcv.
  2:{ split; [discriminate|]. intros (_ & _ & _ & _ & _ & _ & H & _).
      discriminate. }
  mstep. erewrite bind_Ok.
  2:{ rewrite refreshTokenURI_eq; [reflexivity|].
      unfold mread. simpl. now rewrite lookup_insert_eq. }
  mstep. unfold ret, after_mint. rewrite Hcounter.
  split.
  - intros [= <- <-]. destruct Hgood. repeat split; auto; congruence.
  - intros (_ & _ & _ & _ & _ & _ & _ & -> & ->). reflexivity.
Qed.

End RegistryMint.

(** ** States the contract reaches *)
Section RegistryReach.

Import Evm Registry.
Local Open Scope N_scope.

Variable version : Version.
Variable Reclaim_verifyProof : address -> ReclaimTypes.Proof -> option string.
Variable onERC721Received : address -> N -> bool.
Variable Base64_encode : string -> string.

Lemma after_mint_fields (to block_timestamp : N) (providers : list string)
    (s : State) :
  let s' := after_mint version Base64_encode to block_timestamp providers s in
  _owner s' = _owner s
  /\ _owners s' = <[_tokenIdCounter s := to]> (_owners s)
  /\ _tokenIdCounter s' = (_tokenIdCounter s + 1) mod uint256_modulus
  /\ reclaimAddress s' = reclaimAddress s
  /\ holderTokens s' =
     <[to := mread [] (holderTokens s) to ++ [_tokenIdCounter s]]> (holderTokens s)
  /\ hasMinted s' = <[to := true]> (hasMinted s)
  /\ supportedProviders s' = supportedProviders s
  /\ (version = WithURIStorage ->
      _tokenURIs s' =
      <[_tokenIdCounter s := rendered Base64_encode (_tokenIdCounter s) s']>
        (_tokenURIs s)).
Proof.
  cbv zeta. unfold after_mint, refreshed, rendered.
  destruct version; simpl; repeat split; try discriminate; auto.
Qed.

Lemma pushed_fields (tokenId : N) (newProviders : list string) (s : State) :
  let s' := pushed tokenId newProviders s in
  _owner s' = _owner s /\ _owners s' = _owners s
  /\ _tokenIdCounter s' = _tokenIdCounter s
  /\ reclaimAddress s' = reclaimAddress s
  /\ holderTokens s' = holderTokens s /\ hasMinted s' = hasMinted s
  /\ supportedProviders s' = supportedProviders s
  /\ _tokenURIs s' = _tokenURIs s /\ events s' = events s.
Proof.
  cbv zeta. revert s. induction newProviders as [|p rest IH]; intros s.
  - simpl. repeat split.
  - rewrite pushed_cons.
    destruct (IH (set_socialProofs (fun m =>
                    <[tokenId := push p (mread SocialProof_zero m tokenId)]> m) s))
      as (H1 & H2 & H3 & H4 & H5 & H6 & H7 & H8 & H9).
    rewrite H1, H2, H3, H4, H5, H6, H7, H8, H9. simpl. repeat split.
Qed.

Lemma after_append_fields (tokenId block_timestamp : N)
    (newProviders : list string) (s : State) :
  let s' := after_append version Base64_encode tokenId block_timestamp
              newProviders s in
  _owner s' = _owner s /\ _owners s' = _owners s
  /\ _tokenIdCounter s' = _tokenIdCounter s
  /\ reclaimAddress s' = reclaimAddress s
  /\ holderTokens s' = holderTokens s /\ hasMinted s' = hasMinted s
  /\ supportedProviders s' = supportedProviders s
  /\ (version = WithURIStorage ->
      _tokenURIs s' = <[tokenId := rendered Base64_encode tokenId s']> (_tokenURIs s)).
Proof.
  cbv zeta.
  destruct (pushed_fields tokenId newProviders s)
    as (H1 & H2 & H3 & H4 & H5 & H6 & H7 & H8 & _).
  unfold after_append, refreshed, recounted, rendered.
  destruct version; simpl; rewrite ?H1, ?H2, ?H3, ?H4, ?H5, ?H6, ?H7, ?H8;
    repeat split; try discriminate; auto.
Qed.

(** What one transaction can do to the state. *)
Lemma transact_cases (s : State) (tx : Tx) :
  mread 0 (_owners s) (_tokenIdCounter s) = 0 ->
  let s' := transact version Reclaim_verifyProof onERC721Received
              Base64_encode s tx in
  s' = s
  \/ (exists to ts providers evs,
        s' = after_mint version Base64_encode to ts providers (add_events evs s)
        /\ to <> 0 /\ providers <> [])
  \/ (exists tokenId ts newProviders evs,
        s' = after_append version Base64_encode tokenId ts newProviders
               (add_events evs s)
        /\ mread 0 (_owners s) tokenId <> 0)
  \/ (exists f, s' = set_supportedProviders f s)
  \/ (exists a, s' = set_reclaimAddress a s).
Proof.
  intros Hfresh. cbv zeta. unfold transact, exec, call.
  destruct tx as [sender ts [proofs providers|to providers data
                            |tokenId newProofs newProviders|p|p|a]];
    cbn [what Registry.msg_sender Registry.block_timestamp].
  - rewrite bind_unfold.
    destruct (mintWithProofVerification _ _ _ _ _ _ _ _ s) as [id s1|r] eqn:H;
      [|now left].
    apply call_Ok in H.
    apply mintWithProofVerification_call_iff in H; auto.
    destruct H as (Hne & Hlen & _ & Hto & _ & _ & _ & _ & ->).
    assert (Hp : providers <> []).
    { intros ->. destruct proofs; [congruence|discriminate]. }
    right. left. simpl. eauto 10.
  - rewrite bind_unfold.
    destruct (mintSocialProofPass _ _ _ _ _ _ _ _ s) as [id s1|r] eqn:H;
      [|now left].
    apply mintSocialProofPass_Ok in H.
    destruct H as (_ & -> & _ & Hp & Hto & _).
    right. left. simpl. exists to, ts, providers, []. auto.
  - destruct (addProvidersWithVerification _ _ _ _ _ _ _ _ s) as [[] s1|r] eqn:H;
      [|now left].
    assert (Hex : mread 0 (_owners s) tokenId <> 0).
    { revert H. unfold addProvidersWithVerification, _exists. mstep.
      destruct (mread 0 (_owners s) tokenId =? 0) eqn:E; simpl;
        [discriminate|]. intros _. now apply N.eqb_neq. }
    apply addProvidersWithVerification_Ok in H. destruct H as [evs ->].
    right. right. left. simpl. eauto 10.
  - unfold addSupportedProvider, onlyOwner. mstep.
    destruct (_owner s =? sender); simpl; [|now left].
    right. right. right. left. eauto.
  - unfold removeSupportedProvider, onlyOwner. mstep.
    destruct (_owner s =? sender); simpl; [|now left].
    right. right. right. left. eauto.
  - unfold updateReclaimAddress, onlyOwner. mstep.
    destruct (_owner s =? sender); simpl; [|now left].
    right. right. right. right. eauto.
Qed.

End RegistryReach.

Section RegistryConsistent.

Import Evm Registry.
Local Open Scope N_scope.

Variable version : Version.
Variable Reclaim_verifyProof : address -> ReclaimTypes.Proof -> option string.
Variable onERC721Received : address -> N -> bool.
Variable Base64_encode : string -> string.

Lemma rendered_ext (tokenId : N) (s1 s2 : State) :
  socialProofs s1 !! tokenId = socialProofs s2 !! tokenId ->
  rendered Base64_encode tokenId s1 = rendered Base64_encode tokenId s2.
Proof. unfold rendered, mread. now intros ->. Qed.

Lemma consistent_mono (k k' : N) (s : State) :
  k <= k' -> consistent version Base64_encode k s ->
  consistent version Base64_encode k' s.
Proof. unfold consistent. intros Hk (H & Hrest). split; [lia|exact Hrest]. Qed.

Lemma consistent_constructor (deployer reclaim : N) :
  consistent version Base64_encode 0 (constructor deployer reclaim).
Proof.
  unfold consistent. split; [simpl; lia|]. split; [|split; [|split]].
  - intros tokenId. simpl. unfold mread. rewrite !lookup_empty. simpl.
    split; [auto|lia].
  - intros a. simpl. unfold mread. rewrite !lookup_empty. simpl.
    split; [|split; [discriminate|congruence]].
    intros tokenId. split; [intros []|].
    intros (proof & H & _). rewrite lookup_empty in H. discriminate.
  - apply count_wrapped_constructor.
  - intros _ tokenId. simpl. lia.
Qed.

Lemma consistent_events (k : N) (evs : list Event) (s : State) :
  consistent version Base64_encode k s ->
  consistent version Base64_encode k (add_events evs s).
Proof.
  destruct (add_events_fields evs s)
    as (_ & Ho & _ & Hu & Hc & _ & Hs & Hh & Hm & _).
  unfold consistent, counter_splits, holders_indexed, count_wrapped,
    uri_synced.
  rewrite Ho, Hu, Hc, Hs, Hh, Hm.
  intros (H1 & H2 & H3 & H4 & H5).
  split; [exact H1|]. split; [exact H2|]. split; [exact H3|].
  split; [exact H4|].
  intros Hv tokenId Hlt. rewrite (H5 Hv tokenId Hlt).
  f_equal. apply rendered_ext. now rewrite Hs.
Qed.

Lemma consistent_after_mint (k to block_timestamp : N)
    (providers : list string) (s : State) :
  consistent version Base64_encode k s ->
  to <> 0 ->
  k + 1 < uint256_modulus ->
  consistent version Base64_encode (k + 1)
    (after_mint version Base64_encode to block_timestamp providers s).
Proof.
  intros (Hk & Hsplit & Hidx & Hcount & Huri) Hto Hbound.
  destruct (after_mint_fields version Base64_encode to block_timestamp
              providers s) as (_ & Ho & Hc & _ & Hh & Hm & _ & Hu).
  pose proof (socialProofs_after_mint version Base64_encode to block_timestamp
                providers s) as Hs.
  assert (Hc' : _tokenIdCounter
                  (after_mint version Base64_encode to block_timestamp providers s)
                = _tokenIdCounter s + 1).
  { rewrite Hc. apply N.mod_small. lia. }
  destruct (Hsplit (_tokenIdCounter s)) as [Hfresh _].
  destruct (Hfresh (N.le_refl _)) as [_ Hnone].
  unfold consistent. split; [lia|]. split; [|split; [|split]].
  - intros tokenId. rewrite Hc', Ho, Hs. unfold mread.
    destruct (Hsplit tokenId) as [Hge Hlt].
    destruct (decide (_tokenIdCounter s = tokenId)) as [<-|Hne].
    + rewrite !lookup_insert_eq. simpl. split; [lia|]. intros _. split; eauto.
    + rewrite !lookup_insert_ne by auto. split; intros H.
      * apply Hge. lia.
      * apply Hlt. lia.
  - intros a. rewrite Hh, Hm, Hs. unfold mread.
    destruct (Hidx a) as [Hlist Hflag]. unfold mread in Hlist, Hflag.
    destruct (decide (to = a)) as [<-|Hne].
    + rewrite !lookup_insert_eq. simpl. split.
      * intros tokenId. rewrite in_app_iff, Hlist. simpl.
        destruct (decide (_tokenIdCounter s = tokenId)) as [<-|Hid].
        -- rewrite lookup_insert_eq. split; [|auto]. intros _. eauto.
        -- rewrite lookup_insert_ne by auto. split; [|auto].
           intros [H|[H|[]]]; [auto|contradiction].
      * split; [|reflexivity]. intros _ H. apply app_eq_nil in H.
        destruct H. discriminate.
    + rewrite !lookup_insert_ne by auto. split; [|exact Hflag].
      intros tokenId. rewrite Hlist.
      destruct (decide (_tokenIdCounter s = tokenId)) as [<-|Hid].
      * rewrite lookup_insert_eq, Hnone. split.
        -- intros (proof & H & _). discriminate.
        -- intros (proof & [= <-] & H). simpl in H. contradiction.
      * now rewrite lookup_insert_ne by auto.
  - now apply count_wrapped_after_mint.
  - intros Hv tokenId. rewrite Hc', (Hu Hv). intros Hlt.
    destruct (decide (_tokenIdCounter s = tokenId)) as [<-|Hid].
    + now rewrite lookup_insert_eq.
    + rewrite lookup_insert_ne by auto. rewrite (Huri Hv) by lia.
      f_equal. apply rendered_ext. rewrite Hs. now rewrite lookup_insert_ne.
Qed.

Lemma consistent_after_append (k tokenId block_timestamp : N)
    (newProviders : list string) (s : State) :
  consistent version Base64_encode k s ->
  mread 0 (_owners s) tokenId <> 0 ->
  consistent version Base64_encode k
    (after_append version Base64_encode tokenId block_timestamp newProviders s).
Proof.
  intros (Hk & Hsplit & Hidx & Hcount & Huri) Hex.
  destruct (after_append_fields version Base64_encode tokenId block_timestamp
              newProviders s) as (_ & Ho & Hc & _ & Hh & Hm & _ & Hu).
  destruct (socialProofs_after_append version Reclaim_verifyProof
              onERC721Received Base64_encode tokenId
              block_timestamp newProviders s) as (m & Hother & Hs).
  assert (Hlt : tokenId < _tokenIdCounter s).
  { destruct (Hsplit tokenId) as [Hge _].
    destruct (N.lt_ge_cases tokenId (_tokenIdCounter s)) as [|Hle]; auto.
    destruct (Hge Hle). contradiction. }
  destruct (Hsplit tokenId) as [_ Hrec]. destruct (Hrec Hlt) as [_ [old Hold]].
  assert (Hzero : mread SocialProof_zero (socialProofs s) tokenId = old).
  { unfold mread. now rewrite Hold. }
  rewrite Hzero in Hs.
  unfold consistent. split; [now rewrite Hc|]. split; [|split; [|split]].
  - intros other. rewrite Hc, Ho, Hs.
    destruct (Hsplit other) as [Hge Hbelow].
    destruct (decide (tokenId = other)) as [<-|Hne].
    + rewrite lookup_insert_eq. split; [lia|]. intros _. split; eauto.
    + rewrite lookup_insert_ne, Hother by auto. auto.
  - intros a. rewrite Hh, Hm, Hs. destruct (Hidx a) as [Hlist Hflag].
    split; [|exact Hflag]. intros other. rewrite Hlist.
    destruct (decide (tokenId = other)) as [<-|Hne].
    + rewrite lookup_insert_eq, Hold. split.
      * intros (proof & [= <-] & H). eauto.
      * intros (proof & [= <-] & H). simpl in H. eauto.
    + now rewrite lookup_insert_ne, Hother by auto.
  - now apply (count_wrapped_after_append version Reclaim_verifyProof
                 onERC721Received).
  - intros Hv other. rewrite Hc, (Hu Hv). intros Hlt'.
    destruct (decide (tokenId = other)) as [<-|Hne].
    + now rewrite lookup_insert_eq.
    + rewrite lookup_insert_ne by auto. rewrite (Huri Hv) by auto.
      f_equal. apply rendered_ext. rewrite Hs.
      now rewrite lookup_insert_ne, Hother by auto.
Qed.

Lemma consistent_transact (k : N) (s : State) (tx : Tx) :
  consistent version Base64_encode k s ->
  k + 1 < uint256_modulus ->
  consistent version Base64_encode (k + 1)
    (transact version Reclaim_verifyProof onERC721Received Base64_encode s tx).
Proof.
  intros Hs Hbound.
  assert (Hfresh : mread 0 (_owners s) (_tokenIdCounter s) = 0).
  { destruct Hs as (_ & Hsplit & _).
    destruct (Hsplit (_tokenIdCounter s)) as [Hge _].
    now destruct (Hge (N.le_refl _)). }
  destruct (transact_cases version Reclaim_verifyProof onERC721Received
              Base64_encode s tx Hfresh)
    as [->|[(to & ts & providers & evs & -> & Hto & _)
           |[(tokenId & ts & news & evs & -> & Hex)
            |[(f & ->)|(a & ->)]]]].
  - apply (consistent_mono k); [lia|auto].
  - apply consistent_after_mint; auto. now apply consistent_events.
  - apply (consistent_mono k); [lia|].
    apply consistent_after_append; [now apply consistent_events|].
    destruct (add_events_fields evs s) as (_ & -> & _). auto.
  - apply (consistent_mono k); [lia|]. exact Hs.
  - apply (consistent_mono k); [lia|]. exact Hs.
Qed.

Lemma consistent_run (txs : list Tx) (k : N) (s : State) :
  consistent version Base64_encode k s ->
  k + N.of_nat (length txs) < uint256_modulus ->
  consistent version Base64_encode (k + N.of_nat (length txs))
    (run version Reclaim_verifyProof onERC721Received Base64_encode txs s).
Proof.
  revert k s. induction txs as [|tx txs IH]; intros k s Hs Hbound.
  - simpl. now rewrite N.add_0_r.
  - cbn [length run fold_left] in *.
    replace (k + N.of_nat (S (length txs)))
      with ((k + 1) + N.of_nat (length txs)) by lia.
    apply IH; [|lia]. apply consistent_transact; [auto|lia].
Qed.

End RegistryConsistent.

(** ** The contract between transactions *)
Section RegistryReachable.

Import Evm Registry.
Local Open Scope N_scope.

Variable version : Version.
Variable Reclaim_verifyProof : address -> ReclaimTypes.Proof -> option string.
Variable onERC721Received : address -> N -> bool.
Variable Base64_encode : string -> string.

Lemma counter_splits_fresh (s : State) :
  counter_splits s -> mread 0 (_owners s) (_tokenIdCounter s) = 0.
Proof.
  intros Hsplit. destruct (Hsplit (_tokenIdCounter s)) as [Hge _].
  now destruct (Hge (N.le_refl _)).
Qed.

Lemma counter_splits_recorded (s : State) (tokenId : N) :
  counter_splits s ->
  mread 0 (_owners s) tokenId <> 0 ->
  tokenId < _tokenIdCounter s /\ is_Some (socialProofs s !! tokenId).
Proof.
  intros Hsplit Hex. destruct (Hsplit tokenId) as [Hge Hlt].
  destruct (N.lt_ge_cases tokenId (_tokenIdCounter s)) as [H|H].
  - split; [exact H|]. now apply Hlt.
  - destruct (Hge H). contradiction.
Qed.

Lemma passes_valid_transact (k : N) (s : State) (tx : Tx) :
  consistent version Base64_encode k s ->
  passes_valid s ->
  passes_valid
    (transact version Reclaim_verifyProof onERC721Received Base64_encode s tx).
Proof.
  intros (_ & Hsplit & _) Hv.
  destruct (transact_cases version Reclaim_verifyProof onERC721Received
              Base64_encode s tx (counter_splits_fresh s Hsplit))
    as [->|[(to & ts & providers & evs & -> & Hto & Hp)
           |[(tokenId & ts & news & evs & -> & Hex)
            |[(f & ->)|(a & ->)]]]]; auto.
  - destruct (add_events_fields evs s)
      as (_ & _ & _ & _ & Hc & _ & Hs & _).
    intros tokenId proof. rewrite socialProofs_after_mint, Hc, Hs.
    destruct (decide (_tokenIdCounter s = tokenId)) as [<-|Hne].
    + rewrite lookup_insert_eq. intros [= <-]. simpl. auto.
    + rewrite lookup_insert_ne by auto. apply Hv.
  - destruct (add_events_fields evs s)
      as (_ & _ & _ & _ & _ & _ & Hs & _).
    destruct (socialProofs_after_append version Reclaim_verifyProof
                onERC721Received Base64_encode tokenId ts news
                (add_events evs s)) as (m & Hother & Heq).
    rewrite Hs in Heq, Hother.
    destruct (counter_splits_recorded s tokenId Hsplit Hex) as [_ [old Hold]].
    destruct (Hv _ _ Hold) as (H1 & H2 & H3).
    intros other proof. rewrite Heq.
    destruct (decide (tokenId = other)) as [<-|Hne].
    + rewrite lookup_insert_eq. intros [= <-]. unfold mread. rewrite Hold.
      simpl. split; [auto|]. split; [auto|].
      intros H. apply app_eq_nil in H. destruct H. contradiction.
    + rewrite lookup_insert_ne, Hother by auto. apply Hv.
Qed.

Lemma run_keeps (txs : list Tx) (k : N) (s : State) :
  consistent version Base64_encode k s ->
  passes_valid s ->
  k + N.of_nat (length txs) < uint256_modulus ->
  consistent version Base64_encode (k + N.of_nat (length txs))
    (run version Reclaim_verifyProof onERC721Received Base64_encode txs s)
  /\ passes_valid
       (run version Reclaim_verifyProof onERC721Received Base64_encode txs s).
Proof.
  revert k s. induction txs as [|tx txs IH]; intros k s Hs Hv Hbound.
  - simpl. now rewrite N.add_0_r.
  - cbn [length run fold_left] in *.
    replace (k + N.of_nat (S (length txs)))
      with ((k + 1) + N.of_nat (length txs)) by lia.
    apply IH; [| |lia].
    + apply consistent_transact; [auto|lia].
    + now apply (passes_valid_transact k).
Qed.

Lemma reachable_keeps (s : State) :
  reachable version Reclaim_verifyProof onERC721Received Base64_encode s ->
  counter_splits s /\ holders_indexed s /\ count_wrapped s
  /\ uri_synced version Base64_encode s /\ passes_valid s.
Proof.
  intros (deployer & reclaim & txs & Hlen & ->).
  destruct (run_keeps txs 0 (constructor deployer reclaim)) as [Hc Hv].
  - apply consistent_constructor.
  - intros tokenId proof. simpl. rewrite lookup_empty. discriminate.
  - lia.
  - destruct Hc as (_ & H1 & H2 & H3 & H4). auto.
Qed.

Lemma getSocialProof_eq (tokenId : N) (s : State) :
  getSocialProof tokenId s =
  if mread 0 (_owners s) tokenId =? 0 then Revert "Token does not exist"
  else Ok (mread SocialProof_zero (socialProofs s) tokenId) s.
Proof.
  unfold getSocialProof, _exists. mstep.
  destruct (mread 0 (_owners s) tokenId =? 0); reflexivity.
Qed.

Lemma getSocialProof_recorded (tokenId : N) (proof : SocialProof) (s : State) :
  counter_splits s ->
  (getSocialProof tokenId s = Ok proof s
   <-> socialProofs s !! tokenId = Some proof).
Proof.
  intros Hsplit. rewrite getSocialProof_eq.
  destruct (Hsplit tokenId) as [Hge Hlt].
  destruct (N.lt_ge_cases tokenId (_tokenIdCounter s)) as [H|H].
  - destruct (Hlt H) as [Hex [p Hp]]. apply N.eqb_neq in Hex. rewrite Hex.
    unfold mread. rewrite Hp. simpl. split; intros [= <-]; reflexivity.
  - destruct (Hge H) as [Hex Hnone]. rewrite Hex, Hnone. simpl.
    split; discriminate.
Qed.


(** X14. Between transactions the tokens below the counter are exactly the
    minted ones: [getSocialProof] answers for each of them with a pass
    that has a holder, the [verified] flag, at least one provider and a
    count equal to the number of providers modulo 256, and it reverts with
    [Token does not exist] for every other id. *)
Theorem getSocialProof_below_counter (s : State) (tokenId : N) :
  reachable version Reclaim_verifyProof onERC721Received Base64_encode s ->
  (tokenId < _tokenIdCounter s ->
   exists proof,
     getSocialProof tokenId s = Ok proof s
     /\ holder proof <> 0
     /\ verified proof = true
     /\ verifiedProviders proof <> []
     /\ verificationCount proof
        = N.of_nat (length (verifiedProviders proof)) mod 256)
  /\ (_tokenIdCounter s <= tokenId ->
      getSocialProof tokenId s = Revert "Token does not exist").
Proof.
  intros Hs. destruct (reachable_keeps s Hs) as (Hsplit & _ & Hcount & _ & Hv).
  destruct (Hsplit tokenId) as [Hge Hlt]. split.
  - intros H. destruct (Hlt H) as [_ [proof Hp]]. exists proof.
    destruct (Hv _ _ Hp) as (H1 & H2 & H3).
    split; [now apply getSocialProof_recorded|].
    split; [auto|]. split; [auto|]. split; [auto|].
    apply (Hcount _ _ Hp).
  - intros H. destruct (Hge H) as [Hex _].
    rewrite getSocialProof_eq, Hex. reflexivity.
Qed.

(** X15. Between transactions [getTokensByOwner] lists for an address
    exactly the tokens recorded with it as holder, and [hasAlreadyMinted]
    is true for exactly the addresses whose list is not empty. *)
Theorem getTokensByOwner_lists_holder (s : State) (a : address) :
  reachable version Reclaim_verifyProof onERC721Received Base64_encode s ->
  (forall tokenId,
     In tokenId (getTokensByOwner a s) <->
     exists proof, getSocialProof tokenId s = Ok proof s /\ holder proof = a)
  /\ (hasAlreadyMinted a s = true <-> getTokensByOwner a s <> []).
Proof.
  intros Hs. destruct (reachable_keeps s Hs) as (Hsplit & Hidx & _).
  destruct (Hidx a) as [Hlist Hflag]. split; [|exact Hflag].
  intros tokenId. unfold getTokensByOwner. rewrite Hlist.
  split; intros (proof & H & Ha); exists proof; split; auto;
    now apply getSocialProof_recorded.
Qed.

(** X16. Between transactions the token URI of every minted token is the
    document rendered from the pass as it is stored now, in both versions:
    the stored URI of the version with URI storage is never out of date. *)
Theorem tokenURI_renders_stored_pass (s : State) (tokenId : N) :
  reachable version Reclaim_verifyProof onERC721Received Base64_encode s ->
  tokenId < _tokenIdCounter s ->
  exists proof,
    getSocialProof tokenId s = Ok proof s
    /\ tokenURI version tokenId s
       = Ok (match version with
             | PlainERC721 =>
                 "data:application/json," +:+ metadata_json tokenId proof
             | WithURIStorage =>
                 "data:application/json;base64,"
                 +:+ Base64_encode (metadata_json tokenId proof)
             end) s.
Proof.
  intros Hs Hlt. destruct (reachable_keeps s Hs) as (Hsplit & _ & _ & Huri & _).
  destruct (Hsplit tokenId) as [_ Hbelow].
  destruct (Hbelow Hlt) as [Hex [proof Hp]]. exists proof.
  split; [now apply getSocialProof_recorded|].
  apply N.eqb_neq in Hex.
  unfold tokenURI, _exists. destruct version eqn:Hver; mstep; rewrite Hex; simpl.
  - mstep. unfold ret, mread. now rewrite Hp.
  - unfold gets, mread. rewrite (Huri eq_refl tokenId Hlt). simpl.
    unfold rendered, mread. now rewrite Hp.
Qed.

End RegistryReachable.

(** ** Calls, one at a time *)
Section RegistryCalls.

Import Evm Registry.
Local Open Scope N_scope.

Variable version : Version.
Variable Reclaim_verifyProof : address -> ReclaimTypes.Proof -> option string.
Variable onERC721Received : address -> N -> bool.
Variable Base64_encode : string -> string.

(** What a successful [mintWithProofVerification] has checked, in any
    state. *)
Lemma mintWithProofVerification_Ok_guards
    (msg_sender block_timestamp : N) (proofs : list ReclaimTypes.Proof)
    (providers : list string) (s s' : State) (tokenId : N) :
  mintWithProofVerification version Reclaim_verifyProof onERC721Received
    Base64_encode msg_sender block_timestamp proofs providers s
  = Ok tokenId s' ->
  proofs <> []
  /\ length proofs = length providers
  /\ hasAlreadyMinted msg_sender s = false
  /\ msg_sender <> 0
  /\ all_supported s providers
  /\ all_accepted Reclaim_verifyProof s proofs
  /\ tokenId = _tokenIdCounter s
  /\ s' = after_mint version Base64_encode msg_sender block_timestamp
            providers
            (add_events
               (verified_events msg_sender (_tokenIdCounter s)
                  block_timestamp providers) s).
Proof.
  unfold mintWithProofVerification, hasAlreadyMinted. mstep.
  destruct proofs as [|proof0 proofs0] eqn:Hproofs; [discriminate|].
  rewrite <- Hproofs in *.
  assert (Hpos : (0 <? N.of_nat (length proofs)) = true).
  { subst proofs. simpl. apply N.ltb_lt. lia. }
  rewrite Hpos.
  destruct (N.of_nat (length proofs) =? N.of_nat (length providers)) eqn:Hlen;
    [|discriminate].
  apply N.eqb_eq, Nat2N.inj in Hlen.
  destruct (mread false (hasMinted s) msg_sender) eqn:Hm; simpl; [discriminate|].
  destruct (verifyEach_good Reclaim_verifyProof msg_sender block_timestamp
              current _tokenIdCounter
              (fun s => eq_refl) (fun e s => eq_refl) proofs providers s Hlen)
    as [Hiff Hstate].
  rewrite bind_unfold.
  destruct (verifyEach _ _ _ _ _ _ s) as [[] s1|r] eqn:Hloop; [|discriminate].
  rewrite (Hstate s1 eq_refl).
  assert (Hgood : all_supported s providers /\ all_accepted Reclaim_verifyProof s proofs)
    by (apply Hiff; eauto).
  set (s2 := add_events _ s).
  destruct (add_events_fields
              (verified_events msg_sender (_tokenIdCounter s) block_timestamp
                 providers) s)
    as (_ & Howners & _ & _ & Hcounter & _).
  fold s2 in Howners, Hcounter.
  unfold current, increment, recordMint, emit. mstep.
  rewrite (bind_unfold (_safeMint _ _ _)), _safeMint_eq. simpl.
  rewrite Howners, Hcounter.
  destruct (msg_sender =? 0) eqn:Hto; [discriminate|].
  apply N.eqb_neq in Hto.
  destruct (mread 0 (_owners s) (_tokenIdCounter s) =? 0); simpl; [|discriminate].
  destruct (onERC721Received msg_sender (_tokenIdCounter s)); [|discriminate].
  mstep. erewrite bind_Ok.
  2:{ rewrite refreshTokenURI_eq; [reflexivity|].
      unfold mread. simpl. now rewrite lookup_insert_eq. }
  mstep. unfold ret, after_mint. rewrite Hcounter.
  intros [= <- <-]. destruct Hgood.
  split; [congruence|]. repeat split; auto.
Qed.

(** [addProvidersWithVerification], guard by guard. *)
Lemma addProvidersWithVerification_call_iff
    (msg_sender block_timestamp tokenId : N)
    (newProofs : list ReclaimTypes.Proof) (newProviders : list string)
    (s s' : State) :
  call (addProvidersWithVerification version Reclaim_verifyProof Base64_encode
          msg_sender block_timestamp tokenId newProofs newProviders) s
  = (s', inr tt)
  <-> mread 0 (_owners s) tokenId <> 0
      /\ mread 0 (_owners s) tokenId = msg_sender
      /\ length newProofs = length newProviders
      /\ all_supported s newProviders
      /\ all_accepted Reclaim_verifyProof s newProofs
      /\ s' = after_append version Base64_encode tokenId block_timestamp
                newProviders
                (add_events
                   (verified_events msg_sender tokenId block_timestamp
                      newProviders) s).
Proof.
  rewrite <- call_Ok.
  unfold addProvidersWithVerification, _exists, ownerOf. mstep.
  destruct (mread 0 (_owners s) tokenId =? 0) eqn:Hex; simpl.
  { apply N.eqb_eq in Hex. split; [discriminate|]. intros [H _]. contradiction. }
  apply N.eqb_neq in Hex.
  destruct (mread 0 (_owners s) tokenId =? msg_sender) eqn:Ho.
  2:{ apply N.eqb_neq in Ho. split; [discriminate|].
      intros (_ & H & _). contradiction. }
  apply N.eqb_eq in Ho.
  destruct (N.of_nat (length newProofs) =? N.of_nat (length newProviders))
    eqn:Hlen.
  2:{ apply N.eqb_neq in Hlen. split; [discriminate|].
      intros (_ & _ & Hl & _). rewrite Hl in Hlen. congruence. }
  apply N.eqb_eq, Nat2N.inj in Hlen.
  destruct (verifyEach_good Reclaim_verifyProof msg_sender block_timestamp
              (ret tokenId) (fun _ => tokenId)
              (fun s => eq_refl) (fun e s => eq_refl) newProofs newProviders
              s Hlen)
    as [Hiff Hstate].
  rewrite bind_unfold.
  destruct (verifyEach _ _ _ _ _ _ s) as [[] s1|r] eqn:Hloop.
  2:{ split; [discriminate|].
      intros (_ & _ & _ & Hs & Ha & _).
      destruct (proj1 Hiff (conj Hs Ha)) as [s2 H]. discriminate. }
  rewrite (Hstate s1 eq_refl).
  assert (Hgood : all_supported s newProviders
                  /\ all_accepted Reclaim_verifyProof s newProofs)
    by (apply Hiff; eauto).
  set (s2 := add_events _ s).
  destruct (add_events_fields
              (verified_events msg_sender tokenId block_timestamp newProviders) s)
    as (_ & Howners & _).
  fold s2 in Howners.
  rewrite bind_unfold, pushProviders_eq. unfold emit. mstep.
  erewrite bind_Ok.
  2:{ rewrite refreshTokenURI_eq; [reflexivity|].
      simpl. rewrite pushed_owners, Howners. exact Hex. }
  mstep. unfold ret. destruct Hgood. split.
  - intros [= <-]. repeat split; auto.
  - intros (_ & _ & _ & _ & _ & ->). reflexivity.
Qed.




End RegistryCalls.

(** ** What the calls of the registry do *)
Section RegistryUse.

Import Evm Registry.
Local Open Scope N_scope.

Variable version : Version.
Variable Reclaim_verifyProof : address -> ReclaimTypes.Proof -> option string.
Variable onERC721Received : address -> N -> bool.
Variable Base64_encode : string -> string.

(** X17. Between transactions the owner's [mintSocialProofPass] succeeds
    exactly when the caller is the owner, the provider list is not empty,
    the recipient has not minted, is not the zero address and accepts the
    token; the providers need not be supported and no proof is checked. *)
Theorem mintSocialProofPass_succeeds_iff (sender block_timestamp to : N)
    (providers : list string) (proofData : string) (s s' : State)
    (tokenId : N) :
  reachable version Reclaim_verifyProof onERC721Received Base64_encode s ->
  (call (mintSocialProofPass version onERC721Received Base64_encode
           sender block_timestamp to providers proofData) s
   = (s', inr tokenId)
   <-> _owner s = sender
       /\ providers <> []
       /\ hasAlreadyMinted to s = false
       /\ to <> 0
       /\ onERC721Received to (_tokenIdCounter s) = true
       /\ tokenId = _tokenIdCounter s
       /\ s' = after_mint version Base64_encode to block_timestamp providers s).
Proof.
  intros Hs.
  destruct (reachable_keeps version Reclaim_verifyProof onERC721Received
              Base64_encode s Hs) as (Hsplit & _).
  rewrite <- call_Ok, mintSocialProofPass_eq,
    (counter_splits_fresh s Hsplit).
  unfold hasAlreadyMinted.
  destruct (N.eqb_spec (_owner s) sender) as [Ho|Ho]; simpl.
  2:{ split; [discriminate|]. intros (H & _). contradiction. }
  destruct providers as [|p ps]; simpl.
  { split; [discriminate|]. intros (_ & H & _). contradiction. }
  destruct (mread false (hasMinted s) to) eqn:Hm.
  { split; [discriminate|]. intros (_ & _ & H & _). discriminate. }
  destruct (N.eqb_spec to 0) as [Hto|Hto].
  { split; [discriminate|]. intros (_ & _ & _ & H & _). contradiction. }
  simpl. destruct (onERC721Received to (_tokenIdCounter s)) eqn:Hr; simpl.
  2:{ split; [discriminate|]. intros (_ & _ & _ & _ & H & _). discriminate. }
  split.
  - intros [= <- <-]. repeat split; auto.
  - intros (_ & _ & _ & _ & _ & -> & ->). reflexivity.
Qed.

Lemma after_mint_views (to block_timestamp : N) (providers : list string)
    (s : State) :
  to <> 0 ->
  let tokenId := _tokenIdCounter s in
  let s' := after_mint version Base64_encode to block_timestamp providers s in
  getSocialProof tokenId s'
  = Ok {| holder := to; verifiedProviders := providers;
          verificationCount := N.of_nat (length providers) mod 256;
          timestamp := block_timestamp; verified := true |} s'
  /\ ownerOf tokenId s' = Ok to s'
  /\ hasAlreadyMinted to s' = true
  /\ getTokensByOwner to s' = getTokensByOwner to s ++ [tokenId].
Proof.
  intros Hto. cbv zeta.
  destruct (after_mint_fields version Base64_encode to block_timestamp
              providers s) as (_ & Ho & _ & _ & Hh & Hm & _).
  pose proof (socialProofs_after_mint version Base64_encode to block_timestamp
                providers s) as Hs.
  assert (Hex : mread 0
                  (_owners (after_mint version Base64_encode to block_timestamp
                              providers s)) (_tokenIdCounter s) = to).
  { rewrite Ho. unfold mread. now rewrite lookup_insert_eq. }
  apply N.eqb_neq in Hto.
  split; [|split; [|split]].
  - rewrite getSocialProof_eq, Hex, Hto, Hs. unfold mread.
    now rewrite lookup_insert_eq.
  - unfold ownerOf. mstep. rewrite Hex, Hto. reflexivity.
  - unfold hasAlreadyMinted, mread. rewrite Hm. now rewrite lookup_insert_eq.
  - unfold getTokensByOwner. rewrite Hh. unfold mread at 1.
    now rewrite lookup_insert_eq.
Qed.

(** X18. A successful mint, by either function, to a recipient whose
    receiver hook does not call back into the registry, is visible at
    once: [getSocialProof] of the returned id gives the recipient, the
    provider list as passed, its length modulo 256, the block time and the
    [verified] flag; [ownerOf] gives the recipient; [hasAlreadyMinted] is
    true for the recipient; and its token list has grown by the new id at
    the end. *)
Theorem mint_is_visible (sender block_timestamp to : N)
    (proofs : list ReclaimTypes.Proof) (providers : list string)
    (proofData : string) (s s' : State) (tokenId : N) :
  mintSocialProofPass version onERC721Received Base64_encode
    sender block_timestamp to providers proofData s = Ok tokenId s'
  \/ (to = sender
      /\ mintWithProofVerification version Reclaim_verifyProof onERC721Received
           Base64_encode sender block_timestamp proofs providers s
         = Ok tokenId s') ->
  getSocialProof tokenId s'
  = Ok {| holder := to; verifiedProviders := providers;
          verificationCount := N.of_nat (length providers) mod 256;
          timestamp := block_timestamp; verified := true |} s'
  /\ ownerOf tokenId s' = Ok to s'
  /\ hasAlreadyMinted to s' = true
  /\ getTokensByOwner to s' = getTokensByOwner to s ++ [tokenId].
Proof.
  intros [H|[-> H]].
  - apply mintSocialProofPass_Ok in H.
    destruct H as (-> & -> & _ & _ & Hto & _).
    now apply after_mint_views.
  - apply mintWithProofVerification_Ok_guards in H.
    destruct H as (_ & _ & _ & Hto & _ & _ & -> & ->).
    destruct (add_events_fields
                (verified_events sender (_tokenIdCounter s) block_timestamp
                   providers) s)
      as (_ & _ & _ & _ & Hc & _ & _ & Hh & _).
    set (s0 := add_events _ s) in *. rewrite <- Hc.
    replace (getTokensByOwner sender s) with (getTokensByOwner sender s0)
      by (unfold getTokensByOwner; now rewrite Hh).
    now apply after_mint_views.
Qed.


(** What one transaction does, in any state. *)
Lemma transact_shape (s : State) (tx : Tx) :
  let s' := transact version Reclaim_verifyProof onERC721Received
              Base64_encode s tx in
  s' = s
  \/ (exists to ts providers evs,
        s' = after_mint version Base64_encode to ts providers (add_events evs s)
        /\ hasAlreadyMinted to s = false)
  \/ (exists tokenId ts newProviders evs,
        s' = after_append version Base64_encode tokenId ts newProviders
               (add_events evs s))
  \/ (_owner s = msg_sender tx
      /\ ((exists f, s' = set_supportedProviders f s)
          \/ (exists a, s' = set_reclaimAddress a s))).
Proof.
  cbv zeta. unfold transact, exec, call.
  destruct tx as [sender ts [proofs providers|to providers data
                            |tokenId newProofs newProviders|p|p|a]];
    cbn [what Registry.msg_sender Registry.block_timestamp].
  - rewrite bind_unfold.
    destruct (mintWithProofVerification _ _ _ _ _ _ _ _ s) as [id s1|r] eqn:H;
      [|now left].
    apply mintWithProofVerification_Ok_guards in H.
    destruct H as (_ & _ & Hm & _ & _ & _ & _ & ->).
    right. left. simpl. eauto 10.
  - rewrite bind_unfold.
    destruct (mintSocialProofPass _ _ _ _ _ _ _ _ s) as [id s1|r] eqn:H;
      [|now left].
    apply mintSocialProofPass_Ok in H.
    destruct H as (_ & -> & _ & _ & _ & Hm).
    right. left. simpl. exists to, ts, providers, []. auto.
  - destruct (addProvidersWithVerification _ _ _ _ _ _ _ _ s) as [[] s1|r] eqn:H;
      [|now left].
    apply call_Ok, addProvidersWithVerification_call_iff in H.
    destruct H as (_ & _ & _ & _ & _ & ->).
    right. right. left. simpl. eauto 10.
  - unfold addSupportedProvider, onlyOwner. mstep.
    destruct (N.eqb_spec (_owner s) sender); simpl; [|now left].
    right. right. right. split; [auto|]. left. eauto.
  - unfold removeSupportedProvider, onlyOwner. mstep.
    destruct (N.eqb_spec (_owner s) sender); simpl; [|now left].
    right. right. right. split; [auto|]. left. eauto.
  - unfold updateReclaimAddress, onlyOwner. mstep.
    destruct (N.eqb_spec (_owner s) sender); simpl; [|now left].
    right. right. right. split; [auto|]. right. eauto.
Qed.

Lemma minted_transact (a : address) (s : State) (tx : Tx) :
  hasAlreadyMinted a s = true ->
  let s' := transact version Reclaim_verifyProof onERC721Received
              Base64_encode s tx in
  hasAlreadyMinted a s' = true /\ getTokensByOwner a s' = getTokensByOwner a s.
Proof.
  intros Ha. cbv zeta. unfold hasAlreadyMinted, getTokensByOwner in *.
  destruct (transact_shape s tx)
    as [->|[(to & ts & providers & evs & -> & Hto)
           |[(tokenId & ts & news & evs & ->)
            |(_ & [(f & ->)|(r & ->)])]]]; auto.
  - destruct (after_mint_fields version Base64_encode to ts providers
                (add_events evs s)) as (_ & _ & _ & _ & Hh & Hm & _).
    destruct (add_events_fields evs s)
      as (_ & _ & _ & _ & _ & _ & _ & Hh0 & Hm0 & _).
    rewrite Hh, Hm, Hh0, Hm0.
    assert (Hne : to <> a).
    { intros ->. unfold hasAlreadyMinted in Hto. congruence. }
    unfold mread. now rewrite !lookup_insert_ne by auto.
  - destruct (after_append_fields version Base64_encode tokenId ts news
                (add_events evs s)) as (_ & _ & _ & _ & Hh & Hm & _).
    destruct (add_events_fields evs s)
      as (_ & _ & _ & _ & _ & _ & _ & Hh0 & Hm0 & _).
    now rewrite Hh, Hm, Hh0, Hm0.
Qed.

(** X20. Minting is final for an address: once [hasAlreadyMinted] is true
    it stays true through every later transaction, and the token list of
    that address never changes again. *)
Theorem hasAlreadyMinted_is_permanent (a : address) (txs : list Tx)
    (s : State) :
  hasAlreadyMinted a s = true ->
  hasAlreadyMinted a
    (run version Reclaim_verifyProof onERC721Received Base64_encode txs s)
  = true
  /\ getTokensByOwner a
       (run version Reclaim_verifyProof onERC721Received Base64_encode txs s)
     = getTokensByOwner a s.
Proof.
  revert s. induction txs as [|tx txs IH]; intros s Ha; [auto|].
  cbn [run fold_left].
  destruct (minted_transact a s tx Ha) as [H1 H2].
  destruct (IH _ H1) as [H3 H4]. unfold run in *.
  split; [exact H3|]. now rewrite H4.
Qed.

(** X21. Only the owner administers: a transaction whose sender is not the
    owner leaves the set of supported providers and the oracle address as
    they were, whatever it calls. *)
Theorem administration_is_owner_only (s : State) (tx : Tx) :
  msg_sender tx <> _owner s ->
  let s' := transact version Reclaim_verifyProof onERC721Received
              Base64_encode s tx in
  supportedProviders s' = supportedProviders s
  /\ reclaimAddress s' = reclaimAddress s.
Proof.
  intros Hne. cbv zeta.
  destruct (transact_shape s tx)
    as [->|[(to & ts & providers & evs & -> & _)
           |[(tokenId & ts & news & evs & ->)
            |(Ho & _)]]]; auto.
  - destruct (after_mint_fields version Base64_encode to ts providers
                (add_events evs s)) as (_ & _ & _ & Hr & _ & _ & Hp & _).
    destruct (add_events_fields evs s)
      as (_ & _ & _ & _ & _ & Hr0 & _ & _ & _ & Hp0 & _).
    now rewrite Hr, Hp, Hr0, Hp0.
  - destruct (after_append_fields version Base64_encode tokenId ts news
                (add_events evs s)) as (_ & _ & _ & Hr & _ & _ & Hp & _).
    destruct (add_events_fields evs s)
      as (_ & _ & _ & _ & _ & Hr0 & _ & _ & _ & Hp0 & _).
    now rewrite Hr, Hp, Hr0, Hp0.
  - congruence.
Qed.

Lemma not_all_supported (s : State) (p : string) (providers : list string) :
  mread false (supportedProviders s) p = false ->
  In p providers -> ~ all_supported s providers.
Proof.
  intros Hp Hin Hall. unfold all_supported in Hall.
  rewrite List.Forall_forall in Hall. specialize (Hall p Hin). congruence.
Qed.

(** X22. After the owner has removed a provider, every verified mint and
    every verified append that lists it reverts, whoever sends it and
    whatever the proofs are. *)
Theorem removed_provider_is_refused (s : State) (t0 : N) (p : string)
    (sender block_timestamp tokenId : N) (proofs : list ReclaimTypes.Proof)
    (providers : list string) :
  In p providers ->
  let s1 := transact version Reclaim_verifyProof onERC721Received Base64_encode
              s {| msg_sender := _owner s; block_timestamp := t0;
                   what := RemoveSupportedProvider p |} in
  mread false (supportedProviders s1) p = false
  /\ (exists reason,
        call (mintWithProofVerification version Reclaim_verifyProof
                onERC721Received Base64_encode sender block_timestamp
                proofs providers) s1 = (s1, inl reason))
  /\ (exists reason,
        call (addProvidersWithVerification version Reclaim_verifyProof
                Base64_encode sender block_timestamp tokenId
                proofs providers) s1 = (s1, inl reason)).
Proof.
  intros Hin. cbv zeta.
  set (s1 := transact _ _ _ _ s _).
  assert (Hp : mread false (supportedProviders s1) p = false).
  { unfold s1, transact, exec, call, removeSupportedProvider, onlyOwner.
    cbn [what Registry.msg_sender]. mstep. rewrite N.eqb_refl. simpl.
    unfold mread. now rewrite lookup_insert_eq. }
  split; [exact Hp|]. split.
  - destruct (mintWithProofVerification version Reclaim_verifyProof
                onERC721Received Base64_encode sender block_timestamp
                proofs providers s1) as [id s2|r] eqn:H.
    + apply mintWithProofVerification_Ok_guards in H.
      destruct H as (_ & _ & _ & _ & Hall & _).
      destruct (not_all_supported s1 p providers Hp Hin Hall).
    + exists r. now apply call_Revert.
  - destruct (addProvidersWithVerification version Reclaim_verifyProof
                Base64_encode sender block_timestamp tokenId
                proofs providers s1) as [[] s2|r] eqn:H.
    + apply call_Ok, addProvidersWithVerification_call_iff in H.
      destruct H as (_ & _ & _ & Hall & _).
      destruct (not_all_supported s1 p providers Hp Hin Hall).
    + exists r. now apply call_Revert.
Qed.

(** X23. [verifyProofAndExtractData] predicts the verified calls: it
    answers [true] with the context of the claim, or [false] with the empty
    string, and a batch that contains a proof it answers [false] for makes
    [mintWithProofVerification] and [addProvidersWithVerification]
    revert. *)
Theorem verifyProofAndExtractData_predicts (s : State)
    (proof : ReclaimTypes.Proof) (sender block_timestamp tokenId : N)
    (proofs : list ReclaimTypes.Proof) (providers : list string) :
  In proof proofs ->
  fst (verifyProofAndExtractData Reclaim_verifyProof proof s) = false ->
  verifyProofAndExtractData Reclaim_verifyProof proof s = (false, EmptyString)
  /\ (exists reason,
        call (mintWithProofVerification version Reclaim_verifyProof
                onERC721Received Base64_encode sender block_timestamp
                proofs providers) s = (s, inl reason))
  /\ (exists reason,
        call (addProvidersWithVerification version Reclaim_verifyProof
                Base64_encode sender block_timestamp tokenId
                proofs providers) s = (s, inl reason)).
Proof.
  intros Hin. unfold verifyProofAndExtractData.
  destruct (Reclaim_verifyProof (reclaimAddress s) proof) as [r0|] eqn:Hv;
    simpl; [intros _|discriminate].
  assert (Hno : ~ all_accepted Reclaim_verifyProof s proofs).
  { intros Hall. unfold all_accepted in Hall.
    rewrite List.Forall_forall in Hall. specialize (Hall proof Hin).
    congruence. }
  split; [reflexivity|]. split.
  - destruct (mintWithProofVerification version Reclaim_verifyProof
                onERC721Received Base64_encode sender block_timestamp
                proofs providers s) as [id s2|r] eqn:H.
    + apply mintWithProofVerification_Ok_guards in H.
      destruct H as (_ & _ & _ & _ & _ & Hall & _). contradiction.
    + exists r. now apply call_Revert.
  - destruct (addProvidersWithVerification version Reclaim_verifyProof
                Base64_encode sender block_timestamp tokenId
                proofs providers s) as [[] s2|r] eqn:H.
    + apply call_Ok, addProvidersWithVerification_call_iff in H.
      destruct H as (_ & _ & _ & _ & Hall & _). contradiction.
    + exists r. now apply call_Revert.
Qed.

(** X24. [addProvidersWithVerification] succeeds exactly when the token
    exists, the caller owns it, the two arrays have the same length, every
    new provider is supported and the oracle accepts every new proof; two
    empty arrays pass. *)
Theorem addProvidersWithVerification_succeeds_iff
    (sender block_timestamp tokenId : N)
    (newProofs : list ReclaimTypes.Proof) (newProviders : list string)
    (s s' : State) :
  (call (addProvidersWithVerification version Reclaim_verifyProof Base64_encode
           sender block_timestamp tokenId newProofs newProviders) s
   = (s', inr tt)
   <-> mread 0 (_owners s) tokenId <> 0
       /\ mread 0 (_owners s) tokenId = sender
       /\ length newProofs = length newProviders
       /\ all_supported s newProviders
       /\ all_accepted Reclaim_verifyProof s newProofs
       /\ s' = after_append version Base64_encode tokenId block_timestamp
                 newProviders
                 (add_events
                    (verified_events sender tokenId block_timestamp
                       newProviders) s))
  /\ (mread 0 (_owners s) tokenId <> 0 ->
      mread 0 (_owners s) tokenId = sender ->
      exists s0,
        call (addProvidersWithVerification version Reclaim_verifyProof
                Base64_encode sender block_timestamp tokenId [] []) s
        = (s0, inr tt)).
Proof.
  split; [apply addProvidersWithVerification_call_iff|].
  intros Hex Ho. eexists.
  apply addProvidersWithVerification_call_iff.
  split; [exact Hex|]. split; [exact Ho|]. split; [reflexivity|].
  split; [constructor|]. split; [constructor|]. reflexivity.
Qed.

(** X25. A successful append is visible at once: [getSocialProof] of the
    token gives the old holder and flag, the old provider list followed by
    the new providers in order, the new length modulo 256 and the block
    time of the append; every other token, every token list and every
    [hasAlreadyMinted] answer is as before. *)
Theorem append_is_visible (sender block_timestamp tokenId : N)
    (newProofs : list ReclaimTypes.Proof) (newProviders : list string)
    (s s' : State) :
  call (addProvidersWithVerification version Reclaim_verifyProof Base64_encode
          sender block_timestamp tokenId newProofs newProviders) s
  = (s', inr tt) ->
  exists old,
    getSocialProof tokenId s = Ok old s
    /\ getSocialProof tokenId s'
       = Ok {| holder := holder old;
               verifiedProviders := verifiedProviders old ++ newProviders;
               verificationCount :=
                 N.of_nat (length (verifiedProviders old ++ newProviders))
                 mod 256;
               timestamp := block_timestamp;
               verified := verified old |} s'
    /\ (forall other, other <> tokenId ->
          socialProofs s' !! other = socialProofs s !! other)
    /\ (forall a, getTokensByOwner a s' = getTokensByOwner a s
                  /\ hasAlreadyMinted a s' = hasAlreadyMinted a s).
Proof.
  intros H. apply addProvidersWithVerification_call_iff in H.
  destruct H as (Hex & _ & _ & _ & _ & ->).
  set (evs := verified_events sender tokenId block_timestamp newProviders).
  destruct (add_events_fields evs s)
    as (_ & Ho0 & _ & _ & _ & _ & Hs0 & Hh0 & Hm0 & _).
  destruct (after_append_fields version Base64_encode tokenId block_timestamp
              newProviders (add_events evs s))
    as (_ & Ho & _ & _ & Hh & Hm & _).
  destruct (socialProofs_after_append version Reclaim_verifyProof
              onERC721Received Base64_encode tokenId block_timestamp
              newProviders (add_events evs s)) as (m & Hother & Heq).
  rewrite Hs0 in Heq, Hother.
  exists (mread SocialProof_zero (socialProofs s) tokenId).
  apply N.eqb_neq in Hex.
  split; [|split; [|split]].
  - now rewrite getSocialProof_eq, Hex.
  - rewrite getSocialProof_eq, Ho, Ho0, Hex, Heq. unfold mread at 1.
    now rewrite lookup_insert_eq.
  - intros other Hne. rewrite Heq, lookup_insert_ne by auto. now apply Hother.
  - intros a. unfold getTokensByOwner, hasAlreadyMinted.
    now rewrite Hh, Hm, Hh0, Hm0.
Qed.

End RegistryUse.

(** ** Appending on the registry with on-chain SVG metadata *)
Section SvgAppend.

Import Evm SvgRegistry.
Local Open Scope N_scope.

Variable renderTokenURI : N -> SocialProof -> string.

Lemma svg_pushProviders_eq (tokenId : N) (newProviders : list string)
    (s : State) :
  pushProviders tokenId newProviders s = Ok tt (pushed tokenId newProviders s).
Proof.
  revert s. induction newProviders as [|p rest IH]; intros s; [reflexivity|].
  cbn [pushProviders]. mstep. rewrite IH. reflexivity.
Qed.

Lemma svg_pushed_lookup (tokenId : N) (newProviders : list string) (s : State) :
  let s' := pushed tokenId newProviders s in
  let before := mread SocialProof_zero (socialProofs s) tokenId in
  let after := mread SocialProof_zero (socialProofs s') tokenId in
  (forall other, other <> tokenId ->
     socialProofs s' !! other = socialProofs s !! other)
  /\ holder after = holder before
  /\ verifiedProviders after = verifiedProviders before ++ newProviders
  /\ proofData after = proofData before
  /\ timestamp after = timestamp before
  /\ _owner s' = _owner s /\ _owners s' = _owners s
  /\ _tokenURIs s' = _tokenURIs s /\ holderTokens s' = holderTokens s
  /\ hasMinted s' = hasMinted s /\ _tokenIdCounter s' = _tokenIdCounter s
  /\ events s' = events s.
Proof.
  cbv zeta. revert s. induction newProviders as [|p rest IH]; intros s.
  - simpl. rewrite app_nil_r. repeat split.
  - change (pushed tokenId (p :: rest) s)
      with (pushed tokenId rest
              (set_socialProofs (fun m =>
                 let proof := mread SocialProof_zero m tokenId in
                 <[tokenId := {| holder := holder proof;
                                 verifiedProviders := verifiedProviders proof ++ [p];
                                 proofData := proofData proof;
                                 timestamp := timestamp proof;
                                 verificationCount := verificationCount proof |}]> m)
                 s)).
    set (s0 := set_socialProofs _ s).
    destruct (IH s0)
      as (Hother & H1 & H2 & H3 & H4 & H5 & H6 & H7 & H8 & H9 & H10 & H11).
    assert (Hmid : mread SocialProof_zero (socialProofs s0) tokenId
                   = {| holder := holder (mread SocialProof_zero (socialProofs s) tokenId);
                        verifiedProviders :=
                          verifiedProviders (mread SocialProof_zero (socialProofs s) tokenId) ++ [p];
                        proofData := proofData (mread SocialProof_zero (socialProofs s) tokenId);
                        timestamp := timestamp (mread SocialProof_zero (socialProofs s) tokenId);
                        verificationCount :=
                          verificationCount (mread SocialProof_zero (socialProofs s) tokenId) |}).
    { unfold s0, mread at 1. simpl. now rewrite lookup_insert_eq. }
    rewrite Hmid in H1, H2, H3, H4. simpl in H1, H2, H3, H4.
    rewrite H1, H2, H3, H4, H5, H6, H7, H8, H9, H10, H11, <- app_assoc.
    split; [|repeat split].
    intros other Hne. rewrite Hother by auto. unfold s0. simpl.
    now rewrite lookup_insert_ne.
Qed.

(** X26. In the registry with on-chain SVG metadata
    [addVerifiedProviders] succeeds exactly when the caller is the owner,
    the token exists and the list of new providers is not empty.  It then
    appends the new providers in order, appends the new proof data to the
    stored one, sets the count to the new length modulo 256, stores the
    token URI rendered from the pass as it is now, and keeps the holder,
    the time stamp of the mint and every other token. *)
Theorem addVerifiedProviders_appends (sender block_timestamp tokenId : N)
    (newProviders : list string) (newProofData : string) (s : State) :
  let old := mread SocialProof_zero (socialProofs s) tokenId in
  let new := {| holder := holder old;
                verifiedProviders := verifiedProviders old ++ newProviders;
                proofData := proofData old +:+ newProofData;
                timestamp := timestamp old;
                verificationCount :=
                  N.of_nat (length (verifiedProviders old ++ newProviders))
                  mod 256 |} in
  ((exists s',
      call (addVerifiedProviders renderTokenURI sender block_timestamp tokenId
              newProviders newProofData) s = (s', inr tt))
   <-> _owner s = sender /\ mread 0 (_owners s) tokenId <> 0
       /\ newProviders <> [])
  /\ (forall s',
        call (addVerifiedProviders renderTokenURI sender block_timestamp tokenId
                newProviders newProofData) s = (s', inr tt) ->
        socialProofs s' !! tokenId = Some new
        /\ _tokenURIs s' !! tokenId = Some (renderTokenURI tokenId new)
        /\ (forall other, other <> tokenId ->
              socialProofs s' !! other = socialProofs s !! other)
        /\ holderTokens s' = holderTokens s
        /\ hasMinted s' = hasMinted s).
Proof.
  cbv zeta.
  destruct (svg_pushed_lookup tokenId newProviders s)
    as (Hother & H1 & H2 & H3 & H4 & H5 & H6 & H7 & H8 & H9 & H10 & H11).
  assert (Hrun :
    addVerifiedProviders renderTokenURI sender block_timestamp tokenId
      newProviders newProofData s
    = if negb (_owner s =? sender) then Revert "OwnableUnauthorizedAccount"
      else if mread 0 (_owners s) tokenId =? 0 then Revert "Token does not exist"
      else if negb (0 <? N.of_nat (length newProviders))
           then Revert "No providers to add"
      else Ok tt (after_append renderTokenURI tokenId block_timestamp
                    newProviders newProofData s)).
  { unfold addVerifiedProviders, onlyOwner, _exists. mstep.
    destruct (_owner s =? sender); simpl; [|reflexivity].
    destruct (mread 0 (_owners s) tokenId =? 0) eqn:Hex; simpl; [reflexivity|].
    destruct (0 <? N.of_nat (length newProviders)); simpl; [|reflexivity].
    rewrite bind_unfold, svg_pushProviders_eq.
    unfold generateTokenURI, _setTokenURI, _exists, emit. mstep.
    cbn [_owners set_socialProofs]. rewrite H6, Hex. simpl. mstep.
    reflexivity. }
  split.
  - split.
    + intros [s' H]. apply call_Ok in H. rewrite Hrun in H.
      destruct (N.eqb_spec (_owner s) sender); simpl in H; [|discriminate].
      destruct (N.eqb_spec (mread 0 (_owners s) tokenId) 0); [discriminate|].
      destruct newProviders; simpl in H; [discriminate|].
      repeat split; auto.
    + intros (Ho & Hex & Hne). eexists. apply call_Ok. rewrite Hrun.
      apply N.eqb_eq in Ho. apply N.eqb_neq in Hex. rewrite Ho, Hex.
      destruct newProviders; [contradiction|]. reflexivity.
  - intros s' H. apply call_Ok in H. rewrite Hrun in H.
    destruct (_owner s =? sender); simpl in H; [|discriminate].
    destruct (mread 0 (_owners s) tokenId =? 0); [discriminate|].
    destruct (0 <? N.of_nat (length newProviders)); simpl in H; [|discriminate].
    injection H as <-.
    unfold after_append. cbn [socialProofs _tokenURIs holderTokens hasMinted
                              add_event set_tokenURIs set_socialProofs].
    rewrite !lookup_insert_eq, H8, H9, H1, H2, H3, H4.
    split; [reflexivity|]. split.
    { unfold mread at 1. now rewrite lookup_insert_eq. }
    split; [|repeat split].
    intros other Hne. rewrite lookup_insert_ne by auto. now apply Hother.
Qed.

End SvgAppend.

(** ** Text helpers of the contracts *)
Section ContextField.

Import Registry.

Lemma append_nil_l (s : string) : EmptyString +:+ s = s.
Proof. reflexivity. Qed.

Lemma append_cons (c : ascii) (s t : string) :
  String c s +:+ t = String c (s +:+ t).
Proof. reflexivity. Qed.

Lemma strip_prefix_Some (target data rest : string) :
  strip_prefix target data = Some rest <-> data = target +:+ rest.
Proof.
  revert data. induction target as [|c target IH]; intros data;
    rewrite ?append_nil_l, ?append_cons; cbn [strip_prefix].
  - split; [now intros [= ->]|now intros ->].
  - destruct data as [|d data]; [split; discriminate|].
    destruct (Ascii.eqb_spec d c) as [->|Hne].
    + rewrite IH. split; [now intros ->|now intros [= ->]].
    + split; [discriminate|]. intros [= H _]. contradiction.
Qed.

Lemma until_quote_cons (c : ascii) (s : string) :
  until_quote (String c s)
  = if Ascii.eqb c (ascii_of_nat 34) then EmptyString
    else String c (until_quote s).
Proof. reflexivity. Qed.

Lemma until_quote_value (value tail : string) :
  ~ In (ascii_of_nat 34) (list_ascii_of_string value) ->
  tail = EmptyString \/ (exists t, tail = String (ascii_of_nat 34) t) ->
  until_quote (value +:+ tail) = value.
Proof.
  intros Hno Htail. induction value as [|c value IH].
  - destruct Htail as [->|[t ->]]; [reflexivity|].
    rewrite append_nil_l, until_quote_cons.
    now rewrite Ascii.eqb_refl.
  - rewrite append_cons, until_quote_cons.
    destruct (Ascii.eqb_spec c (ascii_of_nat 34)) as [->|Hne].
    + destruct Hno. now left.
    + rewrite IH; [reflexivity|]. intros H. apply Hno. now right.
Qed.

Lemma until_quote_no_quote (s : string) :
  ~ In (ascii_of_nat 34) (list_ascii_of_string (until_quote s)).
Proof.
  induction s as [|c s IH]; [intros []|].
  rewrite until_quote_cons.
  destruct (Ascii.eqb_spec c (ascii_of_nat 34)) as [->|Hne]; [intros []|].
  cbn [list_ascii_of_string]. intros [H|H]; [congruence|contradiction].
Qed.

Lemma extractFieldFromContext_eq (data target : string) :
  extractFieldFromContext data target
  = match strip_prefix target data with
    | Some rest => until_quote rest
    | None =>
        match data with
        | EmptyString => EmptyString
        | String _ data' => extractFieldFromContext data' target
        end
    end.
Proof. destruct data; reflexivity. Qed.

(** X27. [extractFieldFromContext] returns the value that follows the
    first occurrence of the target: when the data is a prefix, the target,
    a value without double quote and then either nothing or a double quote
    and more, and the target does not occur at an earlier position, the
    result is that value. *)
Theorem extractFieldFromContext_first_occurrence
    (pre target value tail : string) :
  (forall pre' post',
     pre +:+ target +:+ value +:+ tail = pre' +:+ target +:+ post' ->
     (String.length pre <= String.length pre')%nat) ->
  ~ In (ascii_of_nat 34) (list_ascii_of_string value) ->
  tail = EmptyString \/ (exists t, tail = String (ascii_of_nat 34) t) ->
  extractFieldFromContext (pre +:+ target +:+ value +:+ tail) target = value.
Proof.
  intros Hfirst Hno Htail. induction pre as [|c pre IH].
  - rewrite extractFieldFromContext_eq, append_nil_l.
    rewrite (proj2 (strip_prefix_Some target _ (value +:+ tail)) eq_refl).
    now apply until_quote_value.
  - rewrite extractFieldFromContext_eq.
    destruct (strip_prefix target _) as [rest|] eqn:Hs.
    + apply strip_prefix_Some in Hs.
      specialize (Hfirst EmptyString rest Hs). simpl in Hfirst. lia.
    + rewrite append_cons. apply IH.
      intros pre' post' H.
      specialize (Hfirst (String c pre') post').
      rewrite !append_cons, H in Hfirst.
      specialize (Hfirst eq_refl). simpl in Hfirst. lia.
Qed.

(** X28. The result of [extractFieldFromContext] never contains a double
    quote, and it is the empty string when the target does not occur in
    the data, which is also what a present field with an empty value
    gives. *)
Theorem extractFieldFromContext_result (data target : string) :
  ~ In (ascii_of_nat 34)
      (list_ascii_of_string (extractFieldFromContext data target))
  /\ ((forall pre post, data <> pre +:+ target +:+ post) ->
      extractFieldFromContext data target = EmptyString)
  /\ (forall tail,
        extractFieldFromContext
          (target +:+ String (ascii_of_nat 34) tail) target
        = EmptyString).
Proof.
  split; [|split].
  - induction data as [|c data IH]; rewrite extractFieldFromContext_eq.
    + destruct (strip_prefix target EmptyString);
        [apply until_quote_no_quote|intros []].
    + destruct (strip_prefix target (String c data));
        [apply until_quote_no_quote|exact IH].
  - induction data as [|c data IH]; intros Habsent;
      rewrite extractFieldFromContext_eq.
    + destruct (strip_prefix target EmptyString) as [rest|] eqn:Hs;
        [|reflexivity].
      apply strip_prefix_Some in Hs. destruct (Habsent EmptyString rest Hs).
    + destruct (strip_prefix target (String c data)) as [rest|] eqn:Hs.
      * apply strip_prefix_Some in Hs. destruct (Habsent EmptyString rest Hs).
      * apply IH. intros pre post H.
        apply (Habsent (String c pre) post). now rewrite append_cons, H.
  - intros tail. rewrite extractFieldFromContext_eq.
    rewrite (proj2 (strip_prefix_Some target _ (String (ascii_of_nat 34) tail))
               eq_refl).
    rewrite until_quote_cons. now rewrite Ascii.eqb_refl.
Qed.

End ContextField.

Section AddressText.

Import Evm SvgRegistry.
Local Open Scope N_scope.

Lemma hex_digit_inj (n m : N) :
  n < 16 -> m < 16 -> hex_digit n = hex_digit m -> n = m.
Proof.
  intros Hn Hm H.
  rewrite <- (N2Nat.id n), <- (N2Nat.id m).
  assert (Hx : (N.to_nat n < 16)%nat) by lia.
  assert (Hy : (N.to_nat m < 16)%nat) by lia.
  unfold hex_digit in H. revert H Hx Hy.
  generalize (N.to_nat n) (N.to_nat m). clear. intros x y H Hx Hy.
  do 16 (destruct x as [|x];
         [do 16 (destruct y as [|y];
                 [first [reflexivity|discriminate H]|]); lia|]).
  lia.
Qed.

Lemma address_byte_small (a : address) (i : nat) : address_byte a i < 256.
Proof.
  unfold address_byte. change 255 with (N.ones 8).
  rewrite N.land_ones. apply N.mod_lt. discriminate.
Qed.

Lemma nibbles_inj (b1 b2 : N) :
  b1 < 256 -> b2 < 256 ->
  hex_digit (N.shiftr b1 4) = hex_digit (N.shiftr b2 4) ->
  hex_digit (N.land b1 15) = hex_digit (N.land b2 15) ->
  b1 = b2.
Proof.
  intros H1 H2 Hhi Hlo.
  change 15 with (N.ones 4) in Hlo.
  rewrite !N.land_ones in Hlo. rewrite !N.shiftr_div_pow2 in Hhi.
  change (2 ^ 4) with 16 in *.
  apply hex_digit_inj in Hhi;
    [|apply N.Div0.div_lt_upper_bound; lia|apply N.Div0.div_lt_upper_bound; lia].
  apply hex_digit_inj in Hlo; [|apply N.mod_lt; lia|apply N.mod_lt; lia].
  rewrite (N.div_mod b1 16), (N.div_mod b2 16) by lia.
  now rewrite Hhi, Hlo.
Qed.

Lemma hex_bytes_inj (a b : address) (count i : nat) :
  hex_bytes a i count = hex_bytes b i count ->
  forall j, (i <= j < i + count)%nat -> address_byte a j = address_byte b j.
Proof.
  revert i. induction count as [|count IH]; intros i H j Hj; [lia|].
  cbn [hex_bytes] in H. injection H as Hhi Hlo Hrest.
  destruct (decide (j = i)) as [->|Hne].
  - apply nibbles_inj; auto using address_byte_small.
  - apply (IH (S i) Hrest). lia.
Qed.

Lemma address_bytes_inj (a b : address) :
  a < 2 ^ 160 -> b < 2 ^ 160 ->
  (forall j, (j < 20)%nat -> address_byte a j = address_byte b j) ->
  a = b.
Proof.
  intros Ha Hb Hbytes. apply N.bits_inj. intros n.
  assert (Hhigh : forall x, x < 2 ^ 160 -> 160 <= n -> N.testbit x n = false).
  { intros x Hx Hn. destruct (N.eq_dec x 0) as [->|Hx0]; [apply N.bits_0|].
    apply N.bits_above_log2.
    assert (N.log2 x < 160) by (apply N.log2_lt_pow2; lia). lia. }
  destruct (N.lt_ge_cases n 160) as [Hn|Hn].
  2:{ now rewrite !Hhigh. }
  assert (Hbit : forall x,
            N.testbit x n
            = N.testbit (address_byte x (19 - N.to_nat (n / 8))) (n mod 8)).
  { intros x. unfold address_byte. change 255 with (N.ones 8).
    rewrite N.land_spec, N.shiftr_spec', N.ones_spec_low, andb_true_r
      by (apply N.mod_lt; lia).
    f_equal.
    assert (Hq : n / 8 < 20) by (apply N.Div0.div_lt_upper_bound; lia).
    pose proof (N.div_mod n 8) as Hdiv.
    revert Hq Hdiv. generalize (n / 8) (n mod 8). intros q r Hq Hdiv.
    rewrite Hdiv by lia. lia. }
  rewrite (Hbit a), (Hbit b). f_equal. apply Hbytes.
  generalize (N.to_nat (n / 8)). clear. intros k. lia.
Qed.

(** X29. [addressToString] writes an address as 42 characters, and two
    addresses have the same text only when they are the same address. *)
Theorem addressToString_faithful (a b : address) :
  a < 2 ^ 160 -> b < 2 ^ 160 ->
  String.length (addressToString a) = 42%nat
  /\ (addressToString a = addressToString b <-> a = b).
Proof.
  intros Ha Hb. split; [reflexivity|].
  split; [|now intros ->].
  unfold addressToString. intros H.
  apply (f_equal (fun s => match s with
                           | String _ (String _ digits) => digits
                           | _ => EmptyString
                           end)) in H.
  rewrite !append_cons, !append_nil_l in H. cbv beta iota in H.
  apply address_bytes_inj; auto.
  intros j Hj. apply (hex_bytes_inj a b 20 0 H). lia.
Qed.

End AddressText.

(** ** The test route of the relay *)
Section TestRoute.

Variable env : string -> option string.
Variable Answer : Type.
Variable verifyOnContract : TransformedProof -> option Answer.

(** X30. [POST /test-proof-verification] never reports a verification:
    the ABI the server builds its contract from declares no
    [verifyProofAndExtractData], so the call throws for every proof.  A
    request without a body makes the handler throw before its [try]; a
    body whose proof is missing or falsy, or a server without contract
    address, gets 400; every other request gets 500, whatever the proof
    is and whatever the contract would say. *)
Theorem testProofVerification_outcomes (body : JsVal) (now : Z) :
  let r := testProofVerification env Answer verifyOnContract body now in
  has_function NFT_CONTRACT_ABI "verifyProofAndExtractData" = false
  /\ (r = TestUnhandled <-> body = JUndefined \/ body = JNull)
  /\ (r = TestError 400 "Invalid request data or contract not configured"
      <-> exists prf,
            js_field body "proof" = Some prf
            /\ (truthy prf = false
                \/ falsy_env (env "NFT_CONTRACT_ADDRESS") = true))
  /\ (r = TestError 500 "Failed to test proof verification"
      <-> exists prf,
            js_field body "proof" = Some prf
            /\ truthy prf = true
            /\ falsy_env (env "NFT_CONTRACT_ADDRESS") = false)
  /\ (forall answer transformed, r <> TestResult answer transformed).
Proof.
  cbv zeta. unfold testProofVerification.
  assert (Habi : has_function NFT_CONTRACT_ABI "verifyProofAndExtractData"
                 = false) by (vm_compute; reflexivity).
  rewrite Habi. split; [reflexivity|].
  destruct (js_field body "proof") as [prf|] eqn:Hbody.
  2:{ assert (Hnone : body = JUndefined \/ body = JNull)
        by (destruct body; try discriminate; auto).
      split; [tauto|]. split; [|split].
      - split; [discriminate|]. intros (prf & H & _). discriminate.
      - split; [discriminate|]. intros (prf & H & _). discriminate.
      - discriminate. }
  assert (Hsome : ~ (body = JUndefined \/ body = JNull))
    by (intros [->| ->]; discriminate).
  destruct (truthy prf) eqn:Ht; simpl.
  2:{ split; [split; [discriminate|tauto]|]. split; [|split].
      - split; [eauto|reflexivity].
      - split; [discriminate|]. intros (prf' & [= <-] & H & _). congruence.
      - discriminate. }
  destruct (falsy_env (env "NFT_CONTRACT_ADDRESS")) eqn:Hf.
  { split; [split; [discriminate|tauto]|]. split; [|split].
    - split; [eauto|reflexivity].
    - split; [discriminate|]. intros (prf' & _ & _ & H). discriminate.
    - discriminate. }
  destruct (transformForTest now prf);
    (split; [split; [discriminate|tauto]|]; split; [|split];
     [ split; [discriminate|intros (prf' & [= <-] & [H|H]); congruence]
     | split; [eauto|reflexivity]
     | discriminate ]).
Qed.

End TestRoute.

(** ** The properties of the registry on a deployed contract *)
Section RegistryScenario.

Import Evm Registry Scenario.
Local Open Scope N_scope.

Lemma one_pass_reachable :
  reachable WithURIStorage oracle_ok receiver_ok no_encoding one_pass.
Proof.
  exists 1, 2, [owner_mint]. split; [vm_compute; reflexivity|reflexivity].
Defined.


Lemma getSocialProof_below_counter_witness :
  exists proof,
    getSocialProof 0 one_pass = Ok proof one_pass
    /\ holder proof <> 0
    /\ verified proof = true
    /\ verifiedProviders proof <> []
    /\ verificationCount proof
       = N.of_nat (length (verifiedProviders proof)) mod 256.
Proof.
  apply (proj1 (getSocialProof_below_counter WithURIStorage oracle_ok
                  receiver_ok no_encoding one_pass 0 one_pass_reachable)).
  vm_compute. reflexivity.
Defined.

Lemma getTokensByOwner_lists_holder_witness :
  hasAlreadyMinted 7 one_pass = true <-> getTokensByOwner 7 one_pass <> [].
Proof.
  exact (proj2 (getTokensByOwner_lists_holder WithURIStorage oracle_ok
                  receiver_ok no_encoding one_pass 7 one_pass_reachable)).
Defined.

Lemma tokenURI_renders_stored_pass_witness :
  exists proof,
    getSocialProof 0 one_pass = Ok proof one_pass
    /\ tokenURI WithURIStorage 0 one_pass
       = Ok ("data:application/json;base64,"
             +:+ no_encoding (metadata_json 0 proof)) one_pass.
Proof.
  apply (tokenURI_renders_stored_pass WithURIStorage oracle_ok receiver_ok
           no_encoding one_pass 0 one_pass_reachable).
  vm_compute. reflexivity.
Defined.

Lemma mintSocialProofPass_succeeds_iff_witness :
  exists s',
    call (mintSocialProofPass WithURIStorage receiver_ok no_encoding
            1 200 8 ["discord"] "0x") one_pass
    = (s', inr 1).
Proof.
  eexists.
  apply (proj2 (mintSocialProofPass_succeeds_iff WithURIStorage oracle_ok
                  receiver_ok no_encoding 1 200 8 ["discord"] "0x"
                  one_pass _ 1 one_pass_reachable)).
  split; [reflexivity|]. split; [discriminate|].
  split; [vm_compute; reflexivity|]. split; [discriminate|].
  split; [reflexivity|]. split; [vm_compute; reflexivity|reflexivity].
Defined.

Lemma mint_is_visible_witness :
  getSocialProof 0 one_pass
  = Ok {| holder := 7; verifiedProviders := ["github"];
          verificationCount := N.of_nat (length ["github"]) mod 256;
          timestamp := 100; verified := true |} one_pass
  /\ ownerOf 0 one_pass = Ok 7 one_pass
  /\ hasAlreadyMinted 7 one_pass = true
  /\ getTokensByOwner 7 one_pass
     = getTokensByOwner 7 (constructor 1 2) ++ [0].
Proof.
  apply (mint_is_visible WithURIStorage oracle_ok receiver_ok no_encoding
           1 100 7 [] ["github"] "0x1234" (constructor 1 2) one_pass 0).
  left. vm_compute. reflexivity.
Defined.

Lemma hasAlreadyMinted_is_permanent_witness :
  hasAlreadyMinted 7
    (run WithURIStorage oracle_ok receiver_ok no_encoding [owner_mint] one_pass)
  = true
  /\ getTokensByOwner 7
       (run WithURIStorage oracle_ok receiver_ok no_encoding [owner_mint]
          one_pass)
     = getTokensByOwner 7 one_pass.
Proof.
  apply (hasAlreadyMinted_is_permanent WithURIStorage oracle_ok receiver_ok
           no_encoding 7 [owner_mint] one_pass).
  vm_compute. reflexivity.
Defined.

Lemma administration_is_owner_only_witness :
  let tx := {| msg_sender := 5; block_timestamp := 300;
               what := RemoveSupportedProvider "github" |} in
  supportedProviders
    (transact WithURIStorage oracle_ok receiver_ok no_encoding one_pass tx)
  = supportedProviders one_pass
  /\ reclaimAddress
       (transact WithURIStorage oracle_ok receiver_ok no_encoding one_pass tx)
     = reclaimAddress one_pass.
Proof.
  apply (administration_is_owner_only WithURIStorage oracle_ok receiver_ok
           no_encoding one_pass
           {| msg_sender := 5; block_timestamp := 300;
              what := RemoveSupportedProvider "github" |}).
  vm_compute. discriminate.
Defined.

Lemma removed_provider_is_refused_witness :
  let s1 := transact WithURIStorage oracle_ok receiver_ok no_encoding one_pass
              {| msg_sender := _owner one_pass; block_timestamp := 300;
                 what := RemoveSupportedProvider "github" |} in
  mread false (supportedProviders s1) "github" = false
  /\ (exists reason,
        call (mintWithProofVerification WithURIStorage oracle_ok receiver_ok
                no_encoding 5 400 [a_proof] ["github"]) s1 = (s1, inl reason))
  /\ (exists reason,
        call (addProvidersWithVerification WithURIStorage oracle_ok
                no_encoding 5 400 0 [a_proof] ["github"]) s1
        = (s1, inl reason)).
Proof.
  apply (removed_provider_is_refused WithURIStorage oracle_ok receiver_ok
           no_encoding one_pass 300 "github" 5 400 0 [a_proof] ["github"]).
  left. reflexivity.
Defined.

Lemma verifyProofAndExtractData_predicts_witness :
  verifyProofAndExtractData oracle_no a_proof one_pass = (false, EmptyString)
  /\ (exists reason,
        call (mintWithProofVerification WithURIStorage oracle_no receiver_ok
                no_encoding 5 400 [a_proof] ["github"]) one_pass
        = (one_pass, inl reason))
  /\ (exists reason,
        call (addProvidersWithVerification WithURIStorage oracle_no
                no_encoding 5 400 0 [a_proof] ["github"]) one_pass
        = (one_pass, inl reason)).
Proof.
  apply (verifyProofAndExtractData_predicts WithURIStorage oracle_no
           receiver_ok no_encoding one_pass a_proof 5 400 0 [a_proof]
           ["github"]).
  - left. reflexivity.
  - reflexivity.
Defined.

Lemma append_is_visible_witness :
  let s' := transact WithURIStorage oracle_ok receiver_ok no_encoding one_pass
              {| msg_sender := 7; block_timestamp := 300;
                 what := AddProvidersWithVerification 0 [a_proof] ["gmail"] |} in
  exists old,
    getSocialProof 0 one_pass = Ok old one_pass
    /\ getSocialProof 0 s'
       = Ok {| holder := holder old;
               verifiedProviders := verifiedProviders old ++ ["gmail"];
               verificationCount :=
                 N.of_nat (length (verifiedProviders old ++ ["gmail"])) mod 256;
               timestamp := 300;
               verified := verified old |} s'
    /\ (forall other, other <> 0 ->
          socialProofs s' !! other = socialProofs one_pass !! other)
    /\ (forall a, getTokensByOwner a s' = getTokensByOwner a one_pass
                  /\ hasAlreadyMinted a s' = hasAlreadyMinted a one_pass).
Proof.
  apply (append_is_visible WithURIStorage oracle_ok receiver_ok no_encoding
           7 300 0 [a_proof] ["gmail"] one_pass).
  vm_compute. reflexivity.
Defined.

End RegistryScenario.

Lemma extractFieldFromContext_first_occurrence_witness :
  Registry.extractFieldFromContext
    ("{" +:+ "login:" +:+ "alice" +:+ EmptyString) "login:"
  = "alice".
Proof.
  apply (extractFieldFromContext_first_occurrence "{" "login:" "alice"
           EmptyString).
  - intros [|c pre'] post' H; [discriminate H|simpl; lia].
  - vm_compute. intros H.
    repeat (destruct H as [H|H]; [discriminate H|]). exact H.
  - left. reflexivity.
Defined.

Lemma addressToString_faithful_witness :
  String.length (SvgRegistry.addressToString 255%N) = 42%nat
  /\ (SvgRegistry.addressToString 255%N = SvgRegistry.addressToString 255%N
      <-> 255%N = 255%N).
Proof.
  apply (addressToString_faithful 255%N 255%N); vm_compute; reflexivity.
Defined.
